(** * video2txt: the audio acquisition wrapper [backend/video_processor.py]

    A shallow embedding of [VideoProcessor] (its constructor,
    [download_and_convert] and [get_video_info]) and the properties of it
    that the specification states.

    The module is a sequence of calls into the outside world (the file
    system, [uuid], the [yt_dlp] library, [ffmpeg]/[ffprobe] run through
    [subprocess]) glued by string formatting, one dictionary copy and one
    floating-point comparison.  It is modelled as follows.

    - Python [str] values are Rocq strings holding the UTF-8 bytes; the
      string methods the code calls ([lower], [endswith], [rfind],
      [rsplit], [replace]) and the library functions [os.path.basename],
      [shlex.quote], [str(uuid)], and the [/] of [pathlib] (POSIX flavour)
      are defined below from their Python definitions.
    - Python numbers are binary64 floats ([PrimFloat]); an integer is
      represented by the float of the same value, which is exact below
      2^53, far above any duration in seconds or view count.
    - Python exceptions are values of [exn]; only subclasses of
      [Exception] are modelled (interrupts and task cancellation, which
      [except Exception] does not catch, are outside the model).
    - dictionaries and lists that live on the Python heap are objects of a
      store addressed by locations, so that [dict.copy()] is the shallow
      copy it is in Python.
    - every call into the outside world is an [event]; a computation is a
      finite tree branching on the answers of the world ([prog]); a run is
      a path in the tree, recorded as the list of the calls made with the
      answers received ([exec]).  [await asyncio.to_thread(f, x)] is the
      call [f x]: the coroutine resumes with its result or its exception.
    - [extract_info] returns a dictionary of plain values or raises, as
      it does with the options used here, which do not set
      [ignoreerrors].
    - [logger] calls neither return a value nor change the control flow
      and are left out. *)

From Stdlib Require Import ZArith NArith List String Ascii Bool Lia.
From Stdlib Require Import Floats.
From Stdlib Require Uint63.
From stdpp Require Import base gmap strings list.

Local Open Scope Z_scope.

(** ** Python strings *)

Module PyStr.

(** The double quote and the single quote, as characters. *)
Definition dquote : ascii := "034"%char.
Definition squote : ascii := "039"%char.

Definition is_upper (c : ascii) : bool :=
  let n := nat_of_ascii c in (65 <=? n)%nat && (n <=? 90)%nat.

(** [str.lower] on one character.  Only the ASCII letters are mapped; the
    bytes of a non-ASCII character are left as they are.  For the suffix
    tests below this agrees with Python's Unicode [lower]: no character
    outside ASCII lower-cases to one of [. m p 4 o v a i f l]. *)
Definition lower_char (c : ascii) : ascii :=
  if is_upper c then ascii_of_nat (nat_of_ascii c + 32) else c.

Fixpoint lower (s : string) : string :=
  match s with
  | EmptyString => EmptyString
  | String c s' => String (lower_char c) (lower s')
  end.

(** [s[n:]] for [0 <= n]. *)
Fixpoint drop (n : nat) (s : string) : string :=
  match n, s with
  | O, _ => s
  | S n', String _ s' => drop n' s'
  | S _, EmptyString => EmptyString
  end.

(** [s[:n]] for [0 <= n]. *)
Fixpoint take (n : nat) (s : string) : string :=
  match n, s with
  | S n', String c s' => String c (take n' s')
  | _, _ => EmptyString
  end.

(** [s.endswith(suffix)]. *)
Definition endswith (s suffix : string) : bool :=
  (String.length suffix <=? String.length s)%nat
  && String.eqb (drop (String.length s - String.length suffix) s) suffix.

(** [s.endswith((t1, ..., tn))]: some element of the tuple is a suffix. *)
Definition endswith_any (s : string) (suffixes : list string) : bool :=
  existsb (endswith s) suffixes.

(** [s.rfind(c)] for a one-character [c]: the index of the last
    occurrence, [-1] when there is none. *)
Fixpoint rfind_from (c : ascii) (s : string) (i : Z) (last : Z) : Z :=
  match s with
  | EmptyString => last
  | String d s' => rfind_from c s' (i + 1) (if Ascii.eqb d c then i else last)
  end.

Definition rfind (c : ascii) (s : string) : Z := rfind_from c s 0 (-1).

(** [s.rsplit(c, 1)[0]]: what stands before the last [c]; all of [s] when
    [c] does not occur. *)
Definition rsplit1_head (c : ascii) (s : string) : string :=
  let i := rfind c s in
  if i <? 0 then s else take (Z.to_nat i) s.

(** [s.replace(old, new)].  [skip] counts the characters of an occurrence
    of [old] that was just replaced and are still to be passed over. *)
Fixpoint replace_go (old new : string) (s : string) (skip : nat) : string :=
  match s with
  | EmptyString => EmptyString
  | String c s' =>
      match skip with
      | S k => replace_go old new s' k
      | O =>
          if String.prefix old s
          then new +:+ replace_go old new s' (String.length old - 1)
          else String c (replace_go old new s' 0)
      end
  end.

(** With an empty [old], Python puts [new] before every character and at
    the end. *)
Fixpoint intersperse (new : string) (s : string) : string :=
  match s with
  | EmptyString => new
  | String c s' => new +:+ String c (intersperse new s')
  end.

Definition replace (old new : string) (s : string) : string :=
  match old with
  | EmptyString => intersperse new s
  | _ => replace_go old new s 0
  end.

(** [os.path.basename] (posixpath): [i = p.rfind('/') + 1; return p[i:]]. *)
Definition basename (p : string) : string :=
  let i := rfind "/"%char p + 1 in
  drop (Z.to_nat i) p.

(** [shlex.quote]: a string of safe characters ([A-Za-z0-9_@%+=:,./-]) is
    returned as it is, the empty string becomes two single quotes, any
    other string is put between single quotes with every single quote in
    it written ['"'"']. *)
Definition is_safe_char (c : ascii) : bool :=
  let n := nat_of_ascii c in
  ((48 <=? n) && (n <=? 57) || (65 <=? n) && (n <=? 90)
   || (97 <=? n) && (n <=? 122))%nat
  || existsb (Ascii.eqb c)
       ["_"; "@"; "%"; "+"; "="; ":"; ","; "."; "/"; "-"]%char.

Fixpoint all_safe (s : string) : bool :=
  match s with
  | EmptyString => true
  | String c s' => is_safe_char c && all_safe s'
  end.

Definition quote_escape : string :=
  String squote (String dquote (String squote (String dquote (String squote ""))))
.

Definition shlex_quote (s : string) : string :=
  match s with
  | EmptyString => String squote (String squote "")
  | _ =>
      if all_safe s then s
      else String squote (replace (String squote "") quote_escape s
                          +:+ String squote "")
  end.

(** [str(uuid.UUID(int=n))]: [hex = '%032x' % n], printed in groups of
    8-4-4-4-12 digits.  A UUID's integer is below 2^128, so the format
    yields exactly 32 digits. *)
Definition hex_char (d : N) : ascii :=
  match d with
  | 0 => "0" | 1 => "1" | 2 => "2" | 3 => "3" | 4 => "4" | 5 => "5"
  | 6 => "6" | 7 => "7" | 8 => "8" | 9 => "9" | 10 => "a" | 11 => "b"
  | 12 => "c" | 13 => "d" | 14 => "e" | _ => "f"
  end%N%char.

(** The [width] low-order hexadecimal digits of [n], most significant
    first, written in front of [acc]. *)
Fixpoint hex_digits (width : nat) (n : N) (acc : string) : string :=
  match width with
  | O => acc
  | S w => hex_digits w (n / 16)%N (String (hex_char (n mod 16)%N) acc)
  end.

Definition uuid_str (n : N) : string :=
  let hex := hex_digits 32 n "" in
  take 8 hex +:+ "-" +:+ take 4 (drop 8 hex) +:+ "-"
  +:+ take 4 (drop 12 hex) +:+ "-" +:+ take 4 (drop 16 hex) +:+ "-"
  +:+ drop 20 hex.

(** [str(dir / name)] for a [pathlib.PurePosixPath] [dir] (given by its
    [str], which is never empty and ends with a slash only if it is a
    root) and a relative file name [name] without slashes. *)
Definition path_join (dir name : string) : string :=
  if String.eqb dir "." then name
  else if endswith dir "/" then dir +:+ name
  else dir +:+ "/" +:+ name.

End PyStr.

(** ** Python values, exceptions and the heap *)

(** An exception: its class name, [str(e)], and [e.__context__] (the
    exception that was being handled when [e] was raised). *)
#[warnings="-register-all"]
Inductive exn : Type :=
| Exn (cls : string) (msg : string) (context : option exn).

Definition exn_cls (e : exn) : string := let 'Exn c _ _ := e in c.
Definition exn_str (e : exn) : string := let 'Exn _ m _ := e in m.
Definition exn_context (e : exn) : option exn := let 'Exn _ _ c := e in c.

(** Raising [e] while [handled] is being handled: Python records
    [handled] as the context of [e]. *)
Definition with_context (e : exn) (handled : exn) : exn :=
  Exn (exn_cls e) (exn_str e) (Some handled).

(** The outcome of a call that may raise. *)
Inductive result (A : Type) : Type :=
| Ok (a : A)
| Err (e : exn).
Arguments Ok {A} a.
Arguments Err {A} e.

(** Plain Python data: [None], a [bool], a number, a [str]. *)
Inductive pyval : Type :=
| VNone
| VBool (b : bool)
| VNum (f : float)
| VStr (s : string).

(** [bool(v)]. *)
Definition truthy (v : pyval) : bool :=
  match v with
  | VNone => false
  | VBool b => b
  | VNum f => negb (PrimFloat.eqb f 0)
  | VStr s => negb (String.eqb s "")
  end.

(** [a or b]. *)
Definition py_or (a b : pyval) : pyval := if truthy a then a else b.

(** The operand of float arithmetic: a number or a [bool]; anything else
    makes the operation raise [TypeError]. *)
Definition as_number (v : pyval) : option float :=
  match v with
  | VNum f => Some f
  | VBool b => Some (if b then 1 else 0)%float
  | _ => None
  end.

(** The float the literal [0.1] denotes. *)
Definition tolerance : float := 0x1.999999999999ap-4%float.

(** [abs(actual - expected) / expected] on floats. *)
Definition relative_difference (expected actual : float) : float :=
  PrimFloat.div (PrimFloat.abs (PrimFloat.sub actual expected)) expected.

(** [abs(actual - expected) / expected > 0.1]. *)
Definition exceeds_tolerance (expected actual : float) : bool :=
  PrimFloat.ltb tolerance (relative_difference expected actual).

(** A heap location. *)
Definition loc := positive.

(** What a dictionary or a list holds: plain data or a reference to
    another object. *)
Inductive entry : Type :=
| Plain (v : pyval)
| Ref (l : loc).

Inductive object : Type :=
| ODict (d : gmap string entry)
| OList (xs : list entry).

(** The metadata dictionary [yt_dlp] returns. *)
Abbreviation info_dict := (gmap string pyval).

(** [d.get(key)] and [d.get(key, default)]. *)
Definition dict_get (d : info_dict) (key : string) : pyval :=
  default VNone (d !! key).

Definition dict_get_default (d : info_dict) (key : string) (dflt : pyval)
  : pyval :=
  default dflt (d !! key).

(** ** Calls into the outside world *)

Abbreviation heap := (gmap loc object).

(** The calls the module makes, each with the type of what comes back.
    A call into [yt_dlp] is made on a [YoutubeDL] object, which keeps a
    reference to the parameter dictionary it was built from: the call
    carries that reference and the heap it points into. *)
Inductive event : Type -> Type :=
| Mkdir (dir : string) : event (result unit)
    (* output_dir.mkdir(exist_ok=True) *)
| Uuid4 : event N
    (* uuid.uuid4(), as the UUID's 128-bit integer *)
| PathExists (path : string) : event bool
    (* os.path.exists(path) *)
| YdlOpen (h : heap) (params : loc) : event (result unit)
    (* yt_dlp.YoutubeDL(params).__enter__() *)
| YdlExtractInfo (h : heap) (params : loc) (url : string) (download : bool)
    : event (result info_dict)
    (* ydl.extract_info(url, download) *)
| YdlDownload (h : heap) (params : loc) (urls : list string)
    : event (result Z)
    (* ydl.download(urls); the return code is not used *)
| YdlClose (h : heap) (params : loc) : event (result unit)
    (* ydl.__exit__(...) *)
| CheckCall (cmd : string) : event (result unit)
    (* subprocess.check_call(cmd, shell=True) *)
| CheckOutput (cmd : string) : event (result string).
    (* subprocess.check_output(cmd, shell=True), the bytes written *)

(** A call together with its answer, as a run records it. *)
Inductive obs : Type :=
| OMkdir (dir : string) (r : result unit)
| OUuid4 (u : N)
| OPathExists (path : string) (b : bool)
| OYdlOpen (h : heap) (params : loc) (r : result unit)
| OYdlExtractInfo (h : heap) (params : loc) (url : string) (download : bool)
    (r : result info_dict)
| OYdlDownload (h : heap) (params : loc) (urls : list string) (r : result Z)
| OYdlClose (h : heap) (params : loc) (r : result unit)
| OCheckCall (cmd : string) (r : result unit)
| OCheckOutput (cmd : string) (r : result string).

Definition observe {X : Type} (e : event X) : X -> obs :=
  match e in event X return X -> obs with
  | Mkdir d => OMkdir d
  | Uuid4 => OUuid4
  | PathExists p => OPathExists p
  | YdlOpen h l => OYdlOpen h l
  | YdlExtractInfo h l u d => OYdlExtractInfo h l u d
  | YdlDownload h l us => OYdlDownload h l us
  | YdlClose h l => OYdlClose h l
  | CheckCall c => OCheckCall c
  | CheckOutput c => OCheckOutput c
  end.

(** A computation: it returns, or makes a call and goes on with the
    answer. *)
Inductive prog (R : Type) : Type :=
| Ret (r : R)
| Vis {X : Type} (e : event X) (k : X -> prog R).
Arguments Ret {R} r.
Arguments Vis {R X} e k.

(** [exec p tr r]: [p] can make exactly the calls of [tr], receive the
    answers recorded there, and return [r]. *)
Fixpoint exec {R : Type} (p : prog R) (tr : list obs) (r : R) : Prop :=
  match p with
  | Ret r' => tr = [] /\ r = r'
  | Vis e k => exists x tr', tr = observe e x :: tr' /\ exec (k x) tr' r
  end.

(** Running a computation against a world that answers every call (and
    may change as it does). *)
Fixpoint run {W R : Type} (answer : forall X, event X -> W -> X * W)
    (p : prog R) (w : W) : list obs * R :=
  match p with
  | Ret r => ([], r)
  | Vis e k =>
      let '(x, w') := answer _ e w in
      let '(tr, r) := run answer (k x) w' in
      (observe e x :: tr, r)
  end.

(** ** The monad of the module's code: state, exceptions, calls *)

(** The state a method body works on: the heap, and the local variable
    [audio_file] of [download_and_convert] (the one local that is
    assigned inside a [try] block whose exception is swallowed, so that
    its value at the time of the exception matters). *)
Record state : Type := State {
  st_heap : heap;
  st_audio_file : string
}.

Definition M (A : Type) : Type := state -> prog (result A * state).

Definition ret {A : Type} (a : A) : M A := fun s => Ret (Ok a, s).

Definition raise {A : Type} (e : exn) : M A := fun s => Ret (Err e, s).

Fixpoint prog_bind {A B : Type} (p : prog A) (k : A -> prog B) : prog B :=
  match p with
  | Ret a => k a
  | Vis e h => Vis e (fun x => prog_bind (h x) k)
  end.

Definition bind {A B : Type} (m : M A) (k : A -> M B) : M B :=
  fun s =>
    prog_bind (m s) (fun '(r, s') =>
      match r with
      | Ok a => k a s'
      | Err e => Ret (Err e, s')
      end).

(** [try: body / except Exception as e: handler e]. *)
Definition try_except {A : Type} (body : M A) (handler : exn -> M A) : M A :=
  fun s =>
    prog_bind (body s) (fun '(r, s') =>
      match r with
      | Ok a => Ret (Ok a, s')
      | Err e => handler e s'
      end).

#[global] Instance M_ret : MRet M := @ret.
#[global] Instance M_bind : MBind M := fun A B k m => bind m k.

(** A call that cannot raise, and a call that can. *)
Definition call {X : Type} (e : event X) : M X :=
  fun s => Vis e (fun x => Ret (Ok x, s)).

Definition call_r {A : Type} (e : event (result A)) : M A :=
  fun s => Vis e (fun r => Ret (r, s)).

(** A call into [yt_dlp], which sees the current heap. *)
Definition call_h {A : Type} (e : heap -> event (result A)) : M A :=
  fun s => Vis (e (st_heap s)) (fun r => Ret (r, s)).

Definition get_audio_file : M string :=
  fun s => Ret (Ok (st_audio_file s), s).

Definition set_audio_file (p : string) : M unit :=
  fun s => Ret (Ok tt, State (st_heap s) p).

(** Allocation of a new object. *)
Definition alloc (o : object) : M loc :=
  fun s =>
    let l := fresh (dom (st_heap s)) in
    Ret (Ok l, State (<[l := o]> (st_heap s)) (st_audio_file s)).

(** What an attribute or item access on something that is not a
    dictionary raises. *)
Definition not_a_dict : exn :=
  Exn "TypeError" "object is not a dict" None.

(** [d.copy()]: a new dictionary with the same entries (a shallow copy:
    an entry that is a reference is copied as a reference). *)
Definition dict_copy (l : loc) : M loc :=
  fun s =>
    match st_heap s !! l with
    | Some (ODict d) => alloc (ODict d) s
    | _ => Ret (Err not_a_dict, s)
    end.

(** [d[key] = v]. *)
Definition dict_setitem (l : loc) (key : string) (v : entry) : M unit :=
  fun s =>
    match st_heap s !! l with
    | Some (ODict d) =>
        Ret (Ok tt, State (<[l := ODict (<[key := v]> d)]> (st_heap s))
                          (st_audio_file s))
    | _ => Ret (Err not_a_dict, s)
    end.

(** ** The class [VideoProcessor] *)

Import PyStr.

Record VideoProcessor : Type := { ydl_opts : loc }.

(** [__init__]: the option dictionary is built once per instance.  The
    post-processor description and the argument list are objects of their
    own, referenced from the dictionary. *)
Definition init : M VideoProcessor :=
  pp ← alloc (ODict {[ "key" := Plain (VStr "FFmpegExtractAudio");
                       "preferredcodec" := Plain (VStr "m4a");
                       "preferredquality" := Plain (VStr "192") ]});
  postprocessors ← alloc (OList [Ref pp]);
  postprocessor_args ←
    alloc (OList (Plain <$> [VStr "-ac"; VStr "1"; VStr "-ar"; VStr "16000";
                             VStr "-movflags"; VStr "+faststart"]));
  opts ← alloc (ODict {[ "format" := Plain (VStr "bestaudio/best");
                         "outtmpl" := Plain (VStr "%(title)s.%(ext)s");
                         "postprocessors" := Ref postprocessors;
                         "postprocessor_args" := Ref postprocessor_args;
                         "prefer_ffmpeg" := Plain (VBool true);
                         "quiet" := Plain (VBool true);
                         "no_warnings" := Plain (VBool true);
                         "noplaylist" := Plain (VBool true) ]});
  mret {| ydl_opts := opts |}.

(** Leaving a [with yt_dlp.YoutubeDL(params)] block: the object is closed
    whether the body returned or raised; an exception of the closing call
    replaces the one of the body and has it as its context. *)
Definition closing {A : Type} (params : loc) (body : M A) : M A :=
  fun s =>
    prog_bind (body s) (fun '(r, s') =>
      Vis (YdlClose (st_heap s') params) (fun closed =>
        match r, closed with
        | Ok a, Ok _ => Ret (Ok a, s')
        | Err e, Ok _ => Ret (Err e, s')
        | Ok _, Err e' => Ret (Err e', s')
        | Err e, Err e' => Ret (Err (with_context e' e), s')
        end)).

(** [with yt_dlp.YoutubeDL(params) as ydl: body]. *)
Definition with_ydl {A : Type} (params : loc) (body : M A) : M A :=
  _ ← call_h (fun h => YdlOpen h params);
  closing params body.

(** The extensions that make an existing path a local video. *)
Definition video_suffixes : list string := [".mp4"; ".mov"; ".avi"; ".flv"].

(** The extensions tried when [audio_<id>.m4a] is missing, in order. *)
Definition fallback_exts : list string := ["webm"; "mp4"; "mp3"; "wav"].

(** [str(output_dir / f"audio_{unique_id}.{ext}")]. *)
Definition audio_path (output_dir unique_id ext : string) : string :=
  path_join output_dir ("audio_" +:+ unique_id +:+ "." +:+ ext).

(** [str(output_dir / f"audio_{unique_id}_fixed.m4a")]. *)
Definition fixed_audio_path (output_dir unique_id : string) : string :=
  path_join output_dir ("audio_" +:+ unique_id +:+ "_fixed.m4a").

Definition ffmpeg_cmd (local_video_path audio_file : string) : string :=
  "ffmpeg -y -i " +:+ shlex_quote local_video_path +:+ " "
  +:+ "-vn " +:+ "-ac 1 " +:+ "-ar 16000 " +:+ "-c:a aac " +:+ "-b:a 192k "
  +:+ "-movflags +faststart " +:+ shlex_quote audio_file.

Definition probe_cmd (path : string) : string :=
  "ffprobe -v error -show_entries format=duration -of default=noprint_wrappers=1:nokey=1 "
  +:+ shlex_quote path.

Definition fix_cmd (audio_file fixed_path : string) : string :=
  "ffmpeg -y -i " +:+ shlex_quote audio_file
  +:+ " -vn -c:a aac -b:a 160k -movflags +faststart "
  +:+ shlex_quote fixed_path.

(** [Exception("未找到下载的音频文件")]. *)
Definition not_found : exn := Exn "Exception" "未找到下载的音频文件" None.

(** What [float - str] raises. *)
Definition type_error : exn :=
  Exn "TypeError" "unsupported operand type(s) for -: 'float' and 'str'" None.

(** [Exception(f"视频处理失败: {str(e)}")], raised while [e] is handled. *)
Definition wrap_failure (e : exn) : exn :=
  Exn "Exception" ("视频处理失败: " +:+ exn_str e) (Some e).

(** [Exception(f"获取视频信息失败: {str(e)}")], raised while [e] is handled. *)
Definition wrap_info_failure (e : exn) : exn :=
  Exn "Exception" ("获取视频信息失败: " +:+ exn_str e) (Some e).

(** What the resolution of the input leaves in the locals
    [is_local_file], [local_video_path] and [video_title] (the last is
    bound only for a local file). *)
Record source : Type := {
  is_local_file : bool;
  local_video_path : string;
  local_title : string
}.

(** What the acquisition leaves in the locals: [unique_id], the outcome
    of the resolution, [video_title] and [expected_duration]. *)
Record acquired : Type := {
  unique_id : string;
  origin : source;
  video_title : pyval;
  expected_duration : pyval
}.

Section VideoProcessor.

(** Two Python built-ins are parameters of the model:
    [bytes.decode().strip()] and [float(str)], each with the exception it
    raises on an input it rejects. *)
Variable decode_strip : string -> result string.
Variable py_float : string -> result float.

Definition lift {A : Type} (r : result A) : M A := fun s => Ret (r, s).

(** [out = check_output(cmd, shell=True).decode().strip();
     float(out) if out else 0.0]. *)
Definition read_duration (cmd : string) : M float :=
  raw ← call_r (CheckOutput cmd);
  out ← lift (decode_strip raw);
  if String.eqb out "" then mret 0%float else lift (py_float out).

(** Lines 98-104 and 120-126: [try: ... except Exception: d = 0.0].
    Reading a duration does not raise; a failure leaves [0.0]. *)
Definition probe_duration (cmd : string) : M float :=
  try_except (read_duration cmd) (fun _ => mret 0%float).

(** Lines 52-59: is the input a local video file? *)
Definition resolve_source (url : string) : M source :=
  found ← call (PathExists url);
  if found && endswith_any (lower url) video_suffixes
  then mret {| is_local_file := true; local_video_path := url;
               local_title := basename url |}
  else mret {| is_local_file := false; local_video_path := "";
               local_title := "" |}.

(** Lines 66-75: metadata, then download. *)
Definition fetch_remote (opts : loc) (url : string) : M (pyval * pyval) :=
  with_ydl opts (
    info ← call_h (fun h => YdlExtractInfo h opts url false);
    let video_title := dict_get_default info "title" (VStr "unknown") in
    let expected_duration := py_or (dict_get info "duration") (VNum 0) in
    _ ← call_h (fun h => YdlDownload h opts [url]);
    mret (video_title, expected_duration)).

(** Lines 76-104: extract the audio of a local file, then read the
    duration of the source; a failure of that reading leaves [0.0]. *)
Definition extract_local (output_dir unique_id local_video_path : string)
  : M pyval :=
  let audio_file := audio_path output_dir unique_id "m4a" in
  _ ← set_audio_file audio_file;
  _ ← call_r (CheckCall (ffmpeg_cmd local_video_path audio_file));
  d ← probe_duration (probe_cmd local_video_path);
  mret (VNum d).

(** Lines 111-117: [for ext in ...: if exists: break / else: raise]. *)
Fixpoint probe_fallbacks (output_dir unique_id : string) (exts : list string)
  : M unit :=
  match exts with
  | [] => raise not_found
  | ext :: rest =>
      let potential_file := audio_path output_dir unique_id ext in
      found ← call (PathExists potential_file);
      if (found : bool) then set_audio_file potential_file
      else probe_fallbacks output_dir unique_id rest
  end.

(** Lines 108-117: find the file the download produced. *)
Definition locate_output (output_dir unique_id : string) : M unit :=
  let audio_file := audio_path output_dir unique_id "m4a" in
  _ ← set_audio_file audio_file;
  found ← call (PathExists audio_file);
  if negb found then probe_fallbacks output_dir unique_id fallback_exts
  else mret tt.

(** Lines 43-105: set up, resolve the input, copy the options, and fetch
    the remote video or extract the audio of the local one. *)
Definition obtain (self : VideoProcessor) (url output_dir : string)
  : M acquired :=
  _ ← call_r (Mkdir output_dir);
  u ← call Uuid4;
  let unique_id := take 8 (uuid_str u) in
  let output_template :=
    path_join output_dir ("audio_" +:+ unique_id +:+ ".%(ext)s") in
  src ← resolve_source url;
  opts ← dict_copy (ydl_opts self);
  _ ← dict_setitem opts "outtmpl" (Plain (VStr output_template));
  '(video_title, expected_duration) ←
    (if negb (is_local_file src) then fetch_remote opts url
     else
       d ← extract_local output_dir unique_id (local_video_path src);
       mret (VStr (local_title src), d));
  mret {| unique_id := unique_id; origin := src; video_title := video_title;
          expected_duration := expected_duration |}.

(** Lines 107-117: only a download has to be looked for. *)
Definition locate (output_dir : string) (a : acquired) : M unit :=
  if negb (is_local_file (origin a))
  then locate_output output_dir (unique_id a)
  else mret tt.

(** Lines 43-117: everything up to the located audio file. *)
Definition acquire (self : VideoProcessor) (url output_dir : string)
  : M acquired :=
  a ← obtain self url output_dir;
  _ ← locate output_dir a;
  mret a.

(** Line 128: [expected_duration and actual_duration and
    abs(actual_duration - expected_duration) / expected_duration > 0.1]. *)
Definition duration_mismatch (expected : pyval) (actual : float) : M bool :=
  if truthy expected then
    if truthy (VNum actual) then
      match as_number expected with
      | Some d => mret (exceeds_tolerance d actual)
      | None => raise type_error
      end
    else mret false
  else mret false.

(** Lines 132-141: the repair pass.  [cmd] is the probe command of
    line 122. *)
Definition repair (output_dir unique_id cmd : string) : M unit :=
  try_except
    (let fixed_path := fixed_audio_path output_dir unique_id in
     audio_file ← get_audio_file;
     _ ← call_r (CheckCall (fix_cmd audio_file fixed_path));
     _ ← set_audio_file fixed_path;
     audio_file ← get_audio_file;
     _ ← read_duration
           (replace (shlex_quote (rsplit1_head "." audio_file +:+ ".m4a"))
                    (shlex_quote audio_file) cmd);
     mret tt)
    (fun _ => mret tt).

(** Lines 119-144: probe the audio file, repair on a mismatch, return. *)
Definition validate (output_dir : string) (a : acquired)
  : M (string * pyval) :=
  audio_file ← get_audio_file;
  let cmd := probe_cmd audio_file in
  actual_duration ← probe_duration cmd;
  mismatch ← duration_mismatch (expected_duration a) actual_duration;
  _ ← (if (mismatch : bool) then repair output_dir (unique_id a) cmd
       else mret tt);
  audio_file ← get_audio_file;
  mret (audio_file, video_title a).

(** The body of the method, in the frame of one call. *)
Definition download_and_convert_body (self : VideoProcessor)
    (url output_dir : string) : M (string * pyval) :=
  try_except
    (a ← acquire self url output_dir;
     validate output_dir a)
    (fun e => raise (wrap_failure e)).

(** [download_and_convert(self, url, output_dir)] on a heap: the result
    or the exception, and the heap it leaves. *)
Definition download_and_convert (self : VideoProcessor)
    (url output_dir : string) (h : heap)
  : prog (result (string * pyval) * heap) :=
  prog_bind (download_and_convert_body self url output_dir (State h ""))
            (fun '(r, s) => Ret (r, st_heap s)).

(** [get_video_info(self, url)]. *)
Definition get_video_info_body (self : VideoProcessor) (url : string)
  : M info_dict :=
  try_except
    (params ← alloc (ODict {[ "quiet" := Plain (VBool true) ]});
     with_ydl params (
       info ← call_h (fun h => YdlExtractInfo h params url false);
       mret ({[ "title" := dict_get_default info "title" (VStr "");
                "duration" := dict_get_default info "duration" (VNum 0);
                "uploader" := dict_get_default info "uploader" (VStr "");
                "upload_date" := dict_get_default info "upload_date" (VStr "");
                "description" := dict_get_default info "description" (VStr "");
                "view_count" := dict_get_default info "view_count" (VNum 0)
             ]} : info_dict)))
    (fun e => raise (wrap_info_failure e)).

Definition get_video_info (self : VideoProcessor) (url : string) (h : heap)
  : prog (result info_dict * heap) :=
  prog_bind (get_video_info_body self url (State h ""))
            (fun '(r, s) => Ret (r, st_heap s)).

End VideoProcessor.

(** ** Vocabulary of the statements *)

(** [c in s]. *)
Fixpoint contains (c : ascii) (s : string) : bool :=
  match s with
  | EmptyString => false
  | String d s' => Ascii.eqb d c || contains c s'
  end.

(** The extension of a path: what follows its last dot, nothing when it
    has no dot. *)
Definition extension (path : string) : string :=
  let i := rfind "."%char path in
  if i <? 0 then "" else drop (Z.to_nat (i + 1)) path.

(** The extensions of the video containers taken for local files. *)
Definition video_extensions : list string := ["mp4"; "mov"; "avi"; "flv"].

(** The extension of [path], in any letter case, is one of them. *)
Definition has_video_extension (path : string) : Prop :=
  In (lower (extension path)) video_extensions.

(** A command run with [subprocess.check_call]. *)
Definition is_check_call (o : obs) : bool :=
  match o with OCheckCall _ _ => true | _ => false end.

(** A call into the download library. *)
Definition is_ydl (o : obs) : bool :=
  match o with
  | OYdlOpen _ _ _ | OYdlExtractInfo _ _ _ _ _ | OYdlDownload _ _ _ _
  | OYdlClose _ _ _ => true
  | _ => false
  end.

(** A call of [YoutubeDL.download]. *)
Definition is_download (o : obs) : bool :=
  match o with OYdlDownload _ _ _ _ => true | _ => false end.

(** What the remote branch yields from the metadata [info], given the
    outcomes of the download and of the release of the [YoutubeDL]
    object. *)
Definition fetch_outcome (info : info_dict) (rd : result Z) (rc : result unit)
  : result (pyval * pyval) :=
  match rd, rc with
  | Ok _, Ok _ =>
      Ok (dict_get_default info "title" (VStr "unknown"),
          py_or (dict_get info "duration") (VNum 0))
  | Err e, Ok _ => Err e
  | Ok _, Err e' => Err e'
  | Err e, Err e' => Err (with_context e' e)
  end.

(** The answers "no" for the candidates with the extensions [exts]. *)
Definition misses (dir uid : string) (exts : list string) : list obs :=
  (fun ext => OPathExists (audio_path dir uid ext) false) <$> exts.

(** The command of the probe that follows a repair: the first probe's,
    with the quoted name of the repaired file, its extension replaced by
    [.m4a], replaced by the quoted name of the repaired file. *)
Definition reprobe_cmd (fixed_path cmd : string) : string :=
  replace (shlex_quote (rsplit1_head "." fixed_path +:+ ".m4a"))
          (shlex_quote fixed_path) cmd.

(** The heap of a call after the copy of the options and the assignment
    of the output template. *)
Definition call_heap (h : heap) (d : gmap string entry) (dir uid : string)
  : heap :=
  <[fresh (dom h) :=
      ODict (<["outtmpl" :=
                 Plain (VStr (path_join dir
                                ("audio_" +:+ uid +:+ ".%(ext)s")))]> d)]> h.

(** The calls every run starts with when the output directory can be
    made. *)
Definition setup_trace (dir : string) (u : N) (url : string) (found : bool)
  : list obs :=
  [OMkdir dir (Ok tt); OUuid4 u; OPathExists url found].

(** The classification of a local file and of a remote reference. *)
Definition local_source (url : string) : source :=
  {| is_local_file := true; local_video_path := url;
     local_title := basename url |}.

Definition remote_source : source :=
  {| is_local_file := false; local_video_path := ""; local_title := "" |}.

(** What a remote acquisition yields. *)
Definition remote_acquired (uid : string) (title duration : pyval)
  : acquired :=
  {| unique_id := uid; origin := remote_source; video_title := title;
     expected_duration := duration |}.

(** What the caller gets for the outcome of the body. *)
Definition propagate {A : Type} (r : result A) : result A :=
  match r with
  | Ok v => Ok v
  | Err e => Err (wrap_failure e)
  end.

(** [o], if it is the construction of a [YoutubeDL] object, is one on the
    parameters at [l] in the heap [hh]. *)
Definition opens_on (hh : heap) (l : loc) (o : obs) : Prop :=
  forall hh' l' r, o = OYdlOpen hh' l' r -> hh' = hh /\ l' = l.

Section Outcomes.
Variable decode_strip : string -> result string.
Variable py_float : string -> result float.

(** The duration read from the outcome [r] of an [ffprobe] command: the
    number it printed, zero when it printed nothing or the reading
    failed. *)
Definition duration_of (r : result string) : float :=
  match r with
  | Err _ => 0
  | Ok raw =>
      match decode_strip raw with
      | Err _ => 0
      | Ok out =>
          if String.eqb out "" then 0
          else match py_float out with Ok f => f | Err _ => 0 end
      end
  end.

(** Reading the duration from [r] raised an exception: the command
    failed, or its output could not be decoded, or what it printed is not
    a number. *)
Definition probe_failed (r : result string) : Prop :=
  match r with
  | Err _ => True
  | Ok raw =>
      match decode_strip raw with
      | Err _ => True
      | Ok out => out <> "" /\ exists e, py_float out = Err e
      end
  end.

(** What a local acquisition yields when the probe of the source gave [r]. *)
Definition local_acquired (uid url : string) (r : result string) : acquired :=
  {| unique_id := uid; origin := local_source url;
     video_title := VStr (basename url);
     expected_duration := VNum (duration_of r) |}.

End Outcomes.

(** ** Instances of the built-ins and worlds to run the model in *)

(** [c.isspace()] for an ASCII character. *)
Definition is_space (c : ascii) : bool :=
  let n := nat_of_ascii c in
  ((9 <=? n) && (n <=? 13) || (28 <=? n) && (n <=? 32))%nat.

Fixpoint lstrip (s : string) : string :=
  match s with
  | String c s' => if is_space c then lstrip s' else s
  | EmptyString => EmptyString
  end.

(** [raw.decode().strip()] for ASCII bytes, which decode to themselves. *)
Definition ascii_decode_strip (raw : string) : result string :=
  Ok (String.rev (lstrip (String.rev (lstrip raw)))).

Definition digit_value (c : ascii) : option Z :=
  let n := nat_of_ascii c in
  if ((48 <=? n) && (n <=? 57))%nat then Some (Z.of_nat n - 48) else None.

(** The number a string of digits denotes after [acc], and how many
    digits it has. *)
Fixpoint digits (s : string) (acc : Z) (count : nat) : option (Z * nat) :=
  match s with
  | EmptyString => Some (acc, count)
  | String c s' =>
      match digit_value c with
      | Some d => digits s' (10 * acc + d) (S count)
      | None => None
      end
  end.

Definition value_error (s : string) : exn :=
  Exn "ValueError" ("could not convert string to float: '" +:+ s +:+ "'") None.

Definition int_part (s : string) : string :=
  let i := rfind "."%char s in if i <? 0 then s else take (Z.to_nat i) s.

Definition frac_part (s : string) : string :=
  let i := rfind "."%char s in
  if i <? 0 then "" else drop (Z.to_nat (i + 1)) s.

(** [float(s)] for an unsigned decimal numeral [ddd] or [ddd.ddd] of at
    most fifteen digits: numerator and power of ten are then exact as
    floats, and their quotient is the correctly rounded value.  Any
    other string is rejected here (Python accepts more forms). *)
Definition decimal_float (s : string) : result float :=
  match digits (int_part s) 0 0 with
  | Some (i, S ni) =>
      match digits (frac_part s) i (S ni) with
      | Some (n, total) =>
          if (total <=? 15)%nat
          then Ok (PrimFloat.div (PrimFloat.of_uint63 (Uint63.of_Z n))
                     (PrimFloat.of_uint63
                        (Uint63.of_Z (10 ^ Z.of_nat (total - S ni)))))
          else Err (value_error s)
      | None => Err (value_error s)
      end
  | _ => Err (value_error s)
  end.

(** A world whose answers depend on the call only. *)
Record world : Type := World {
  on_mkdir : result unit;
  on_uuid4 : N;
  on_exists : string -> bool;
  on_open : result unit;
  on_extract_info : result info_dict;
  on_download : result Z;
  on_close : result unit;
  on_check_call : string -> result unit;
  on_check_output : string -> result string
}.

Definition answer (w : world) (X : Type) (e : event X) (u : unit)
  : X * unit :=
  match e in event X return X * unit with
  | Mkdir _ => (on_mkdir w, u)
  | Uuid4 => (on_uuid4 w, u)
  | PathExists p => (on_exists w p, u)
  | YdlOpen _ _ => (on_open w, u)
  | YdlExtractInfo _ _ _ _ => (on_extract_info w, u)
  | YdlDownload _ _ _ => (on_download w, u)
  | YdlClose _ _ => (on_close w, u)
  | CheckCall c => (on_check_call w c, u)
  | CheckOutput c => (on_check_output w c, u)
  end.

Definition play {R : Type} (w : world) (p : prog R) : list obs * R :=
  run (answer w) p tt.

(** A processor made by [__init__] on the empty heap. *)
Definition new_processor : VideoProcessor * heap :=
  match init (State ∅ "") with
  | Ret (Ok self, s) => (self, st_heap s)
  | _ => ({| ydl_opts := 1%positive |}, ∅)
  end.

Definition the_processor : VideoProcessor := new_processor.1.
Definition the_heap : heap := new_processor.2.

(** A remote video of 12 seconds whose download yields a file of 10
    seconds under the expected name; every command succeeds. *)
Definition remote_world : world :=
  {| on_mkdir := Ok tt;
     on_uuid4 := 0x12345678123456781234567812345678%N;
     on_exists := fun p => String.eqb p "out/audio_12345678.m4a";
     on_open := Ok tt;
     on_extract_info :=
       Ok ({[ "title" := VStr "T"; "duration" := VNum 12 ]} : info_dict);
     on_download := Ok 0;
     on_close := Ok tt;
     on_check_call := fun _ => Ok tt;
     on_check_output := fun _ => Ok "10.000000" |}.

Definition with_check_call (f : string -> result unit) (w : world) : world :=
  {| on_mkdir := on_mkdir w; on_uuid4 := on_uuid4 w;
     on_exists := on_exists w; on_open := on_open w;
     on_extract_info := on_extract_info w; on_download := on_download w;
     on_close := on_close w; on_check_call := f;
     on_check_output := on_check_output w |}.

Definition with_check_output (f : string -> result string) (w : world)
  : world :=
  {| on_mkdir := on_mkdir w; on_uuid4 := on_uuid4 w;
     on_exists := on_exists w; on_open := on_open w;
     on_extract_info := on_extract_info w; on_download := on_download w;
     on_close := on_close w; on_check_call := on_check_call w;
     on_check_output := f |}.

Definition with_exists (f : string -> bool) (w : world) : world :=
  {| on_mkdir := on_mkdir w; on_uuid4 := on_uuid4 w;
     on_exists := f; on_open := on_open w;
     on_extract_info := on_extract_info w; on_download := on_download w;
     on_close := on_close w; on_check_call := on_check_call w;
     on_check_output := on_check_output w |}.

Definition with_extract_info (r : result info_dict) (w : world) : world :=
  {| on_mkdir := on_mkdir w; on_uuid4 := on_uuid4 w;
     on_exists := on_exists w; on_open := on_open w;
     on_extract_info := r; on_download := on_download w;
     on_close := on_close w; on_check_call := on_check_call w;
     on_check_output := on_check_output w |}.

(** What [subprocess] raises for a command that exits with status 1. *)
Definition called_process_error (cmd : string) : exn :=
  Exn "CalledProcessError"
      ("Command '" +:+ cmd +:+ "' returned non-zero exit status 1.") None.

(** What a call raises when the system is out of memory. *)
Definition out_of_memory : exn :=
  Exn "OSError" "[Errno 12] Cannot allocate memory" None.

(** The same, with a repair command that fails. *)
Definition broken_repair_world : world :=
  with_check_call (fun c => Err (called_process_error c)) remote_world.

(** The same, with a download of 12.5 seconds. *)
Definition close_enough_world : world :=
  with_check_output (fun _ => Ok "12.500000") remote_world.

(** The same, with [ffprobe] failing. *)
Definition no_probe_world : world :=
  with_check_output (fun c => Err (called_process_error c)) remote_world.

(** The download left a [.webm] file only. *)
Definition webm_world : world :=
  with_exists (fun p => String.eqb p "out/audio_12345678.webm") remote_world.

(** The download left no file. *)
Definition no_file_world : world :=
  with_exists (fun _ => false) remote_world.

(** The metadata extraction fails. *)
Definition no_metadata_world : world :=
  with_extract_info (Err out_of_memory) remote_world.

(** The input is the local file [/tmp/clip.mp4]. *)
Definition local_world : world :=
  with_exists (fun p => String.eqb p "/tmp/clip.mp4") remote_world.

(** The same, with [ffmpeg] failing to start. *)
Definition local_failure_world : world :=
  with_check_call (fun _ => Err out_of_memory) local_world.

Definition the_url : string := "https://example.com/watch?v=abc123".
Definition the_file : string := "/tmp/clip.mp4".

Definition convert (w : world) (url : string)
  : list obs * (result (string * pyval) * heap) :=
  play w (download_and_convert ascii_decode_strip decimal_float
            the_processor url "out" the_heap).

(** The run of the acquisition phase alone. *)
Definition acquisition (w : world) (url : string)
  : list obs * (result acquired * state) :=
  play w (acquire ascii_decode_strip decimal_float the_processor url "out"
            (State the_heap "")).

Definition lookup_info (w : world) (url : string)
  : list obs * (result info_dict * heap) :=
  play w (get_video_info the_processor url the_heap).

(** The defaults [__init__] stored for the processor. *)
Definition the_options : gmap string entry :=
  match the_heap !! ydl_opts the_processor with
  | Some (ODict d) => d
  | _ => ∅
  end.

(** The phases of a conversion. *)
Inductive phase : Type :=
  | Resolution
  | Acquisition
  | LocalExtraction
  | OutputLocation.

(** The phase a failed run stopped in, read off the last call it made:
    the download library is only used to acquire a remote source, the
    only command whose failure ends a run is the extraction from a local
    file, and a run that ends on a file test found no output. *)
Definition failing_phase (tr : list obs) : option phase :=
  match last tr with
  | Some (OYdlOpen _ _ _) | Some (OYdlExtractInfo _ _ _ _ _)
  | Some (OYdlDownload _ _ _ _) | Some (OYdlClose _ _ _) => Some Acquisition
  | Some (OCheckCall _ _) => Some LocalExtraction
  | Some (OPathExists _ _) => Some OutputLocation
  | _ => None
  end.

(** ** Vocabulary and worlds for further properties *)

(** The test of line 128 holds for the expected duration [expected] and
    the probed duration [actual]: both are nonzero, and they differ by
    more than a tenth of the expected one. *)
Definition durations_differ (expected : pyval) (actual : float) : Prop :=
  truthy expected = true
  /\ PrimFloat.eqb actual 0 = false
  /\ exists d, as_number expected = Some d
               /\ exceeds_tolerance d actual = true.

(** The test of line 128 fails without raising. *)
Definition durations_agree (expected : pyval) (actual : float) : Prop :=
  truthy expected = false
  \/ PrimFloat.eqb actual 0 = true
  \/ exists d, as_number expected = Some d
               /\ exceeds_tolerance d actual = false.

(** A command run with [subprocess.check_output]: an [ffprobe]. *)
Definition is_probe (o : obs) : bool :=
  match o with OCheckOutput _ _ => true | _ => false end.

(** What follows [audio_<id>] in the name of a file the method can
    return. *)
Definition result_suffixes : list string :=
  [".m4a"; ".webm"; ".mp4"; ".mp3"; ".wav"; "_fixed.m4a"].

(** The description of the audio extraction in the options of
    [__init__] (lines 16-21). *)
Definition extract_audio : gmap string entry :=
  {[ "key" := Plain (VStr "FFmpegExtractAudio");
     "preferredcodec" := Plain (VStr "m4a");
     "preferredquality" := Plain (VStr "192") ]}.

(** The arguments for [ffmpeg] in the options of [__init__] (line 23). *)
Definition ffmpeg_args : list entry :=
  Plain <$> [VStr "-ac"; VStr "1"; VStr "-ar"; VStr "16000";
             VStr "-movflags"; VStr "+faststart"].

(** The options of [__init__] (lines 13-28), given where the list of
    post-processors and the list of arguments are. *)
Definition default_options (postprocessors postprocessor_args : loc)
  : gmap string entry :=
  {[ "format" := Plain (VStr "bestaudio/best");
     "outtmpl" := Plain (VStr "%(title)s.%(ext)s");
     "postprocessors" := Ref postprocessors;
     "postprocessor_args" := Ref postprocessor_args;
     "prefer_ffmpeg" := Plain (VBool true);
     "quiet" := Plain (VBool true);
     "no_warnings" := Plain (VBool true);
     "noplaylist" := Plain (VBool true) ]}.

(** The heap after [__init__] has put its four objects at [pp], [lp],
    [la] and [lo]. *)
Definition init_heap (h : heap) (pp lp la lo : loc) : heap :=
  <[lo := ODict (default_options lp la)]>
    (<[la := OList ffmpeg_args]>
       (<[lp := OList [Ref pp]]> (<[pp := ODict extract_audio]> h))).

Definition with_mkdir (r : result unit) (w : world) : world :=
  {| on_mkdir := r; on_uuid4 := on_uuid4 w;
     on_exists := on_exists w; on_open := on_open w;
     on_extract_info := on_extract_info w; on_download := on_download w;
     on_close := on_close w; on_check_call := on_check_call w;
     on_check_output := on_check_output w |}.

Definition with_uuid4 (u : N) (w : world) : world :=
  {| on_mkdir := on_mkdir w; on_uuid4 := u;
     on_exists := on_exists w; on_open := on_open w;
     on_extract_info := on_extract_info w; on_download := on_download w;
     on_close := on_close w; on_check_call := on_check_call w;
     on_check_output := on_check_output w |}.

Definition with_download (r : result Z) (w : world) : world :=
  {| on_mkdir := on_mkdir w; on_uuid4 := on_uuid4 w;
     on_exists := on_exists w; on_open := on_open w;
     on_extract_info := on_extract_info w; on_download := r;
     on_close := on_close w; on_check_call := on_check_call w;
     on_check_output := on_check_output w |}.

(** What [mkdir] raises when the parent directory is read-only. *)
Definition permission_denied : exn :=
  Exn "PermissionError" "[Errno 13] Permission denied: 'out'" None.

(** What [yt_dlp] raises when the server refuses the download. *)
Definition download_error : exn :=
  Exn "DownloadError"
      "ERROR: unable to download video data: HTTP Error 403: Forbidden" None.

(** The output directory cannot be made. *)
Definition no_directory_world : world :=
  with_mkdir (Err permission_denied) remote_world.

(** The download is refused. *)
Definition refused_download_world : world :=
  with_download (Err download_error) remote_world.

(** The metadata have a title only. *)
Definition no_duration_world : world :=
  with_extract_info (Ok ({[ "title" := VStr "T" ]} : info_dict)) remote_world.

(** The metadata give the duration as a string. *)
Definition text_duration_world : world :=
  with_extract_info
    (Ok ({[ "title" := VStr "T"; "duration" := VStr "12" ]} : info_dict))
    remote_world.

(** The local file again, with another UUID drawn. *)
Definition other_id_world : world :=
  with_uuid4 0x9abcdef09abcdef09abcdef09abcdef0%N local_world.

(** A second processor, made after the first. *)
Definition second_processor : VideoProcessor * heap :=
  match init (State the_heap "") with
  | Ret (Ok self, s) => (self, st_heap s)
  | _ => ({| ydl_opts := 1%positive |}, ∅)
  end.

(** The options a call in [out] with the identifier [12345678] hands to
    the download library, and where it puts them. *)
Definition the_call_heap : heap :=
  call_heap the_heap the_options "out" "12345678".
Definition the_call_options : loc := fresh (dom the_heap).

(** A conversion by the first processor on the heap [h]. *)
Definition conversion_after (h : heap) (w : world) (url : string)
  : list obs * (result (string * pyval) * heap) :=
  play w (download_and_convert ascii_decode_strip decimal_float
            the_processor url "out" h).

(** * Properties *)

(** ** The string functions on examples *)

Example lower_ex : lower "/tmp/Clip.MP4" = "/tmp/clip.mp4".
Proof. reflexivity. Qed.

Example basename_ex : basename "/tmp/clip.mp4" = "clip.mp4".
Proof. reflexivity. Qed.

Example basename_noslash_ex : basename "clip.mp4" = "clip.mp4".
Proof. reflexivity. Qed.

Example replace_ex : replace "ab" "x" "cabbab" = "cxbx".
Proof. reflexivity. Qed.

Example replace_empty_ex : replace "" "-" "abc" = "-a-b-c-".
Proof. reflexivity. Qed.

Example shlex_quote_ex :
  shlex_quote "my clip.mp4" = "'my clip.mp4'"
  /\ shlex_quote "/tmp/clip.mp4" = "/tmp/clip.mp4".
Proof. split; reflexivity. Qed.

Example uuid_str_ex :
  uuid_str 0x12345678123456781234567812345678
  = "12345678-1234-5678-1234-567812345678".
Proof. reflexivity. Qed.

Example path_join_ex :
  path_join "out" "audio_ab12cd34.m4a" = "out/audio_ab12cd34.m4a"
  /\ path_join "." "a.m4a" = "a.m4a"
  /\ path_join "/" "a.m4a" = "/a.m4a".
Proof. repeat split; reflexivity. Qed.

(** ** Runs of the combinators *)

Lemma exec_prog_bind {A B : Type} (p : prog A) (k : A -> prog B) tr r :
  exec (prog_bind p k) tr r <->
  exists tr1 a tr2, exec p tr1 a /\ exec (k a) tr2 r /\ tr = tr1 ++ tr2.
Proof.
  revert tr. induction p as [a|X e h IH]; intros tr; simpl.
  - split.
    + intros H. exists [], a, tr. auto.
    + intros (tr1 & a' & tr2 & [-> ->] & H & ->). exact H.
  - split.
    + intros (x & tr' & -> & H). apply IH in H as (tr1 & a & tr2 & H1 & H2 & ->).
      exists (observe e x :: tr1), a, tr2. split; [exists x, tr1; done|done].
    + intros (tr1 & a & tr2 & (x & tr' & -> & H1) & H2 & ->).
      exists x, (tr' ++ tr2). split; [done|]. apply IH. eauto 10.
Qed.

Lemma exec_bind {A B : Type} (m : M A) (k : A -> M B) s tr rs :
  exec ((m ≫= k) s) tr rs <->
  exists tr1 r1 s1, exec (m s) tr1 (r1, s1) /\
    match r1 with
    | Ok a => exists tr2, exec (k a s1) tr2 rs /\ tr = tr1 ++ tr2
    | Err e => tr = tr1 /\ rs = (Err e, s1)
    end.
Proof.
  unfold mbind, M_bind, bind. rewrite exec_prog_bind. split.
  - intros (tr1 & [r1 s1] & tr2 & H1 & H2 & ->). exists tr1, r1, s1. split; [done|].
    destruct r1; simpl in H2.
    + eauto.
    + destruct H2 as [-> ->]. by rewrite app_nil_r.
  - intros (tr1 & r1 & s1 & H1 & H2). destruct r1.
    + destruct H2 as (tr2 & H2 & ->). exists tr1, (Ok a, s1), tr2. done.
    + destruct H2 as [-> ->]. exists tr1, (Err e, s1), []. simpl. by rewrite app_nil_r.
Qed.

Lemma exec_try_except {A : Type} (body : M A) (handler : exn -> M A) s tr rs :
  exec (try_except body handler s) tr rs <->
  exists tr1 r1 s1, exec (body s) tr1 (r1, s1) /\
    match r1 with
    | Ok a => tr = tr1 /\ rs = (Ok a, s1)
    | Err e => exists tr2, exec (handler e s1) tr2 rs /\ tr = tr1 ++ tr2
    end.
Proof.
  unfold try_except. rewrite exec_prog_bind. split.
  - intros (tr1 & [r1 s1] & tr2 & H1 & H2 & ->). exists tr1, r1, s1. split; [done|].
    destruct r1; simpl in H2.
    + destruct H2 as [-> ->]. by rewrite app_nil_r.
    + eauto.
  - intros (tr1 & r1 & s1 & H1 & H2). destruct r1.
    + destruct H2 as [-> ->]. exists tr1, (Ok a, s1), []. simpl. by rewrite app_nil_r.
    + destruct H2 as (tr2 & H2 & ->). exists tr1, (Err e, s1), tr2. done.
Qed.

Lemma exec_mret {A : Type} (a : A) s tr rs :
  exec (mret (M:=M) a s) tr rs <-> tr = [] /\ rs = (Ok a, s).
Proof. reflexivity. Qed.

Lemma exec_raise {A : Type} (e : exn) s tr (rs : result A * state) :
  exec (raise e s) tr rs <-> tr = [] /\ rs = (Err e, s).
Proof. reflexivity. Qed.

Lemma exec_lift {A : Type} (r : result A) s tr rs :
  exec (lift r s) tr rs <-> tr = [] /\ rs = (r, s).
Proof. reflexivity. Qed.

Lemma exec_call {X : Type} (e : event X) s tr rs :
  exec (call e s) tr rs <-> exists x, tr = [observe e x] /\ rs = (Ok x, s).
Proof.
  simpl. split.
  - intros (x & tr' & -> & -> & ->). eauto.
  - intros (x & -> & ->). eauto 10.
Qed.

Lemma exec_call_r {A : Type} (e : event (result A)) s tr rs :
  exec (call_r e s) tr rs <-> exists r, tr = [observe e r] /\ rs = (r, s).
Proof.
  simpl. split.
  - intros (x & tr' & -> & -> & ->). eauto.
  - intros (x & -> & ->). eauto 10.
Qed.

Lemma exec_call_h {A : Type} (e : heap -> event (result A)) s tr rs :
  exec (call_h e s) tr rs <->
  exists r, tr = [observe (e (st_heap s)) r] /\ rs = (r, s).
Proof.
  simpl. split.
  - intros (x & tr' & -> & -> & ->). eauto.
  - intros (x & -> & ->). eauto 10.
Qed.

Lemma exec_get_audio_file s tr rs :
  exec (get_audio_file s) tr rs <-> tr = [] /\ rs = (Ok (st_audio_file s), s).
Proof. reflexivity. Qed.

Lemma exec_set_audio_file p s tr rs :
  exec (set_audio_file p s) tr rs <-> tr = [] /\ rs = (Ok tt, State (st_heap s) p).
Proof. reflexivity. Qed.

Lemma exec_alloc o s tr rs :
  exec (alloc o s) tr rs <->
  tr = [] /\ rs = (Ok (fresh (dom (st_heap s))),
                   State (<[fresh (dom (st_heap s)) := o]> (st_heap s))
                         (st_audio_file s)).
Proof. reflexivity. Qed.

Lemma exec_dict_copy l s tr rs :
  exec (dict_copy l s) tr rs <->
  tr = [] /\
  rs = match st_heap s !! l with
       | Some (ODict d) =>
           (Ok (fresh (dom (st_heap s))),
            State (<[fresh (dom (st_heap s)) := ODict d]> (st_heap s))
                  (st_audio_file s))
       | _ => (Err not_a_dict, s)
       end.
Proof. unfold dict_copy. by destruct (st_heap s !! l) as [[]|]. Qed.

Lemma exec_dict_setitem l key v s tr rs :
  exec (dict_setitem l key v s) tr rs <->
  tr = [] /\
  rs = match st_heap s !! l with
       | Some (ODict d) =>
           (Ok tt, State (<[l := ODict (<[key := v]> d)]> (st_heap s))
                         (st_audio_file s))
       | _ => (Err not_a_dict, s)
       end.
Proof. unfold dict_setitem. by destruct (st_heap s !! l) as [[]|]. Qed.

Lemma exec_closing {A : Type} (params : loc) (body : M A) s tr rs :
  exec (closing params body s) tr rs <->
  exists tr1 r s1 closed,
    exec (body s) tr1 (r, s1)
    /\ tr = tr1 ++ [OYdlClose (st_heap s1) params closed]
    /\ rs = (match r, closed with
             | Ok a, Ok _ => Ok a
             | Err e, Ok _ => Err e
             | Ok _, Err e' => Err e'
             | Err e, Err e' => Err (with_context e' e)
             end, s1).
Proof.
  unfold closing. rewrite exec_prog_bind. split.
  - intros (tr1 & [r s1] & tr2 & H1 & (closed & tr' & -> & H2) & ->).
    exists tr1, r, s1, closed. split; [done|].
    destruct r, closed; destruct H2 as [-> ->]; done.
  - intros (tr1 & r & s1 & closed & H1 & -> & ->).
    exists tr1, (r, s1), [OYdlClose (st_heap s1) params closed].
    split; [done|]. split; [|done]. exists closed, [].
    split; [done|]. by destruct r, closed.
Qed.

(** Taking a run apart, one combinator at a time. *)
Ltac exec_step :=
  match goal with
  | H : exec ((_ ≫= _) _) _ _ |- _ =>
      let tr1 := fresh "tr" in let r1 := fresh "r" in let s1 := fresh "s" in
      apply exec_bind in H as (tr1 & r1 & s1 & H & ?)
  | H : exec (try_except _ _ _) _ _ |- _ =>
      let tr1 := fresh "tr" in let r1 := fresh "r" in let s1 := fresh "s" in
      apply exec_try_except in H as (tr1 & r1 & s1 & H & ?)
  | H : exec (mret _ _) _ _ |- _ => apply exec_mret in H as [? ?]
  | H : exec (raise _ _) _ _ |- _ => apply exec_raise in H as [? ?]
  | H : exec (lift _ _) _ _ |- _ => apply exec_lift in H as [? ?]
  | H : exec (call _ _) _ _ |- _ => apply exec_call in H as (? & ? & ?)
  | H : exec (call_r _ _) _ _ |- _ => apply exec_call_r in H as (? & ? & ?)
  | H : exec (call_h _ _) _ _ |- _ => apply exec_call_h in H as (? & ? & ?)
  | H : exec (get_audio_file _) _ _ |- _ =>
      apply exec_get_audio_file in H as [? ?]
  | H : exec (set_audio_file _ _) _ _ |- _ =>
      apply exec_set_audio_file in H as [? ?]
  | H : exec (alloc _ _) _ _ |- _ => apply exec_alloc in H as [? ?]
  | H : exec (dict_copy _ _) _ _ |- _ => apply exec_dict_copy in H as [? ?]
  | H : exec (dict_setitem _ _ _ _) _ _ |- _ =>
      apply exec_dict_setitem in H as [? ?]
  | H : exec (closing _ _ _) _ _ |- _ =>
      apply exec_closing in H as (? & ? & ? & ? & H & ? & ?)
  | u : unit |- _ => destruct u
  | H : exec ((if negb ?b then _ else _) _) _ _ |- _ =>
      is_var b; destruct b; simpl negb in H; cbv iota in H
  | H : exec ((if ?b then _ else _) _) _ _ |- _ =>
      first [ is_var b; destruct b | let E := fresh "E" in destruct b eqn:E ]
  | H : exec (match ?x with Some _ => _ | None => _ end _) _ _ |- _ =>
      let E := fresh "E" in destruct x eqn:E
  | H : exec ((let '(_, _) := ?x in _) _) _ _ |- _ => destruct x
  | H : match ?r with Ok _ => _ | Err _ => _ end |- _ =>
      first [ is_var r; destruct r
            | progress cbv beta iota in H
            | let E := fresh "E" in destruct r eqn:E ]
  | H : exists _, _ |- _ => destruct H as [? H]
  | H : _ /\ _ |- _ => destruct H as [? ?]
  | H : Ok _ = _ |- _ => symmetry in H
  | H : Err _ = _ |- _ => symmetry in H
  end; simplify_eq.

(** Rewriting with the equations a case analysis left. *)
Ltac use_eqs :=
  repeat match goal with E : ?l = _ |- context [?l] => rewrite E end.

Ltac exec_inv :=
  repeat exec_step;
  cbn [app observe fst snd st_heap st_audio_file] in *;
  rewrite ?app_nil_r in *.

Section StringFacts.
Implicit Types (s t p : string) (c d : ascii).

Lemma str_app_cons c s t : String c s +:+ t = String c (s +:+ t).
Proof. reflexivity. Qed.

Lemma str_app_nil_l t : "" +:+ t = t.
Proof. reflexivity. Qed.

Ltac str_simpl :=
  simpl; repeat (first [rewrite str_app_cons | rewrite str_app_nil_l]; simpl).

Lemma str_app_nil_r s : s +:+ "" = s.
Proof. induction s; str_simpl; congruence. Qed.

Lemma str_app_assoc s t p : (s +:+ t) +:+ p = s +:+ (t +:+ p).
Proof. induction s; str_simpl; congruence. Qed.

Lemma str_app_length s t :
  String.length (s +:+ t) = (String.length s + String.length t)%nat.
Proof. induction s; str_simpl; congruence. Qed.

Lemma drop_app s t n : drop (String.length s + n) (s +:+ t) = drop n t.
Proof. induction s; str_simpl; auto. Qed.

Lemma take_drop n s : take n s +:+ drop n s = s.
Proof.
  revert s; induction n; intros [|c s]; simpl; str_simpl; f_equal; auto.
Qed.

Lemma take_length n s :
  (n <= String.length s)%nat -> String.length (take n s) = n.
Proof.
  revert s; induction n; intros [|c s]; simpl; intros; try lia.
  rewrite IHn; lia.
Qed.

Lemma take_app_length s t : take (String.length s) (s +:+ t) = s.
Proof.
  induction s; str_simpl; [by destruct t|congruence].
Qed.

Lemma endswith_spec s t : endswith s t = true <-> exists p, s = p +:+ t.
Proof.
  unfold endswith. rewrite andb_true_iff, Nat.leb_le, String.eqb_eq. split.
  - intros [Hle Hd]. exists (take (String.length s - String.length t) s).
    pose proof (take_drop (String.length s - String.length t) s) as E.
    by rewrite Hd in E.
  - intros [p ->]. rewrite str_app_length. split; [lia|].
    replace (String.length p + String.length t - String.length t)%nat
      with (String.length p + 0)%nat by lia.
    by rewrite drop_app.
Qed.

Lemma endswith_app_l p s t :
  (String.length t <= String.length s)%nat ->
  endswith (p +:+ s) t = endswith s t.
Proof.
  intros Hle. unfold endswith. rewrite str_app_length.
  replace (String.length p + String.length s - String.length t)%nat
    with (String.length p + (String.length s - String.length t))%nat by lia.
  rewrite drop_app, (proj2 (Nat.leb_le _ _) Hle).
  by rewrite (proj2 (Nat.leb_le (String.length t) _)) by lia.
Qed.

Lemma lower_app s t : lower (s +:+ t) = lower s +:+ lower t.
Proof. induction s; str_simpl; congruence. Qed.

Lemma lower_char_dot c : lower_char c = "."%char <-> c = "."%char.
Proof.
  split; [|by intros ->].
  destruct c as [[] [] [] [] [] [] [] []]; vm_compute; congruence.
Qed.

Lemma contains_lower_dot s : contains "." (lower s) = contains "." s.
Proof.
  induction s as [|c s IH]; simpl; [done|]. rewrite IH. f_equal.
  destruct (Ascii.eqb_spec c ".") as [->|Hne]; [done|].
  apply Ascii.eqb_neq. by rewrite lower_char_dot.
Qed.

Lemma lower_eq_app s x y :
  lower s = x +:+ y ->
  exists s1 s2, s = s1 +:+ s2 /\ lower s1 = x /\ lower s2 = y.
Proof.
  revert s; induction x as [|c x IH]; intros s H.
  - by exists "", s.
  - destruct s as [|d s]; simpl in H; [done|]. injection H as Hc H.
    destruct (IH _ H) as (s1 & s2 & -> & <- & <-).
    exists (String d s1), s2. simpl. by rewrite Hc.
Qed.

Lemma rfind_from_notin c s i last :
  contains c s = false -> rfind_from c s i last = last.
Proof.
  revert i last; induction s as [|d s IH]; intros i last; simpl; [done|].
  intros [Hd Hs]%orb_false_iff. rewrite Hd. by apply IH.
Qed.

Lemma rfind_from_app c s t i last :
  rfind_from c (s +:+ String c t) i last
  = rfind_from c t (i + Z.of_nat (String.length s) + 1)
                   (i + Z.of_nat (String.length s)).
Proof.
  revert i last; induction s as [|d s IH]; intros i last; simpl String.length.
  - simpl. rewrite Ascii.eqb_refl. f_equal; lia.
  - change (String d s +:+ String c t) with (String d (s +:+ String c t)).
    simpl. rewrite IH. f_equal; lia.
Qed.

Lemma rfind_last c s t :
  contains c t = false ->
  rfind c (s +:+ String c t) = Z.of_nat (String.length s).
Proof.
  intros Ht. unfold rfind. rewrite rfind_from_app.
  by rewrite rfind_from_notin.
Qed.

Lemma rfind_notin c s : contains c s = false -> rfind c s = -1.
Proof. apply rfind_from_notin. Qed.

(** A string that has a [c] splits at its last [c]. *)
Lemma split_last c s :
  contains c s = true ->
  exists a b, s = a +:+ String c b /\ contains c b = false.
Proof.
  induction s as [|d s IH]; simpl; [done|].
  destruct (contains c s) eqn:Hs.
  - intros _. destruct IH as (a & b & -> & Hb); [done|].
    by exists (String d a), b.
  - rewrite orb_false_r. intros ->%Ascii.eqb_eq. by exists "", s.
Qed.

Lemma basename_app dir name :
  contains "/" name = false -> basename (dir +:+ "/" +:+ name) = name.
Proof.
  intros H. unfold basename.
  change (dir +:+ "/" +:+ name) with (dir +:+ String "/" name).
  rewrite rfind_last by done.
  replace (Z.to_nat (Z.of_nat (String.length dir) + 1))
    with (String.length dir + 1)%nat by lia.
  by rewrite drop_app.
Qed.

Lemma basename_plain name : contains "/" name = false -> basename name = name.
Proof. intros H. unfold basename. by rewrite rfind_notin. Qed.

Lemma extension_app s e :
  contains "." e = false -> extension (s +:+ String "." e) = e.
Proof.
  intros H. unfold extension. rewrite rfind_last by done.
  destruct (Z.ltb_spec (Z.of_nat (String.length s)) 0); [lia|].
  replace (Z.to_nat (Z.of_nat (String.length s) + 1))
    with (String.length s + 1)%nat by lia.
  by rewrite drop_app.
Qed.

Lemma extension_nodot s : contains "." s = false -> extension s = "".
Proof. intros H. unfold extension. by rewrite rfind_notin. Qed.

(** The suffix test of the code, on the lower-cased path, is a test on
    the extension. *)
Lemma endswith_lower_extension s e :
  contains "." e = false -> e <> "" ->
  endswith (lower s) (String "." e) = true <-> lower (extension s) = e.
Proof.
  intros He Hne. rewrite endswith_spec. split.
  - intros [p Hp]. apply lower_eq_app in Hp as (s1 & s2 & -> & _ & H2).
    destruct s2 as [|c s2]; simpl in H2; [done|]. injection H2 as Hc H2.
    apply lower_char_dot in Hc as ->.
    rewrite extension_app; [done|].
    by rewrite <- contains_lower_dot, H2.
  - intros H. destruct (contains "." s) eqn:Hs.
    + apply split_last in Hs as (a & b & -> & Hb).
      rewrite extension_app in H by done. subst e.
      exists (lower a). by rewrite lower_app.
    + rewrite extension_nodot in H by done. by subst e.
Qed.

Lemma endswith_any_video s :
  endswith_any (lower s) video_suffixes = true <-> has_video_extension s.
Proof.
  unfold endswith_any, video_suffixes, has_video_extension, video_extensions.
  simpl. rewrite !orb_true_iff, !endswith_lower_extension by done.
  intuition congruence.
Qed.

Lemma hex_char_not_underscore n : hex_char n <> "_"%char.
Proof.
  unfold hex_char.
  repeat match goal with
         | |- context [match ?x with _ => _ end] => destruct x
         end; discriminate.
Qed.

Lemma hex_digits_spec w n acc :
  exists s, hex_digits w n acc = s +:+ acc
            /\ String.length s = w /\ contains "_" s = false.
Proof.
  revert n acc; induction w as [|w IH]; intros n acc; simpl.
  - by exists "".
  - destruct (IH (n / 16)%N (String (hex_char (n mod 16)%N) acc))
      as (s & -> & Hlen & Hs).
    exists (s +:+ String (hex_char (n mod 16)%N) "").
    rewrite str_app_assoc, str_app_length. str_simpl.
    split; [done|]. split; [lia|].
    clear -Hs. induction s as [|c s IHs]; str_simpl.
    + rewrite orb_false_r. apply Ascii.eqb_neq, hex_char_not_underscore.
    + simpl in Hs. apply orb_false_iff in Hs as [-> Hs]. by apply IHs.
Qed.

Lemma contains_take c n s : contains c s = false -> contains c (take n s) = false.
Proof.
  revert s; induction n as [|n IH]; intros [|d s]; simpl; try done.
  intros [-> Hs]%orb_false_iff. by apply IH.
Qed.

Lemma take_app_exact n s t : String.length s = n -> take n (s +:+ t) = s.
Proof. intros <-. apply take_app_length. Qed.

(** The identifier in the file names: eight characters, none of them an
    underscore (they are hexadecimal digits). *)
Lemma unique_id_spec u :
  String.length (take 8 (uuid_str u)) = 8%nat
  /\ contains "_" (take 8 (uuid_str u)) = false.
Proof.
  unfold uuid_str.
  destruct (hex_digits_spec 32 u "") as (hex & -> & Hlen & Hhex).
  rewrite str_app_nil_r.
  assert (String.length (take 8 hex) = 8%nat) as H8
    by (apply take_length; lia).
  rewrite (take_app_exact 8) by done.
  split; [done|]. by apply contains_take.
Qed.

Lemma path_join_suffix dir name : exists p, path_join dir name = p +:+ name.
Proof.
  unfold path_join. destruct (String.eqb dir "."); [by exists ""|].
  destruct (endswith dir "/"); [by exists dir|].
  exists (dir +:+ "/"). by rewrite str_app_assoc.
Qed.

Lemma fixed_audio_path_endswith dir uid :
  endswith (fixed_audio_path dir uid) "_fixed.m4a" = true.
Proof.
  unfold fixed_audio_path.
  destruct (path_join_suffix dir ("audio_" +:+ uid +:+ "_fixed.m4a")) as [p ->].
  apply endswith_spec. exists (p +:+ "audio_" +:+ uid).
  by rewrite !str_app_assoc.
Qed.

Lemma audio_path_not_fixed dir uid ext :
  String.length uid = 8%nat -> contains "_" uid = false ->
  In ext ("m4a" :: fallback_exts) ->
  endswith (audio_path dir uid ext) "_fixed.m4a" = false.
Proof.
  intros Hlen Hhex Hext. unfold audio_path.
  destruct (path_join_suffix dir ("audio_" +:+ uid +:+ "." +:+ ext)) as [p ->].
  do 9 (destruct uid as [|? uid]; try discriminate Hlen).
  simpl in Hhex. repeat (apply orb_false_iff in Hhex as [? Hhex]).
  simpl in Hext.
  destruct Hext as [<-|[<-|[<-|[<-|[<-|[]]]]]];
    (rewrite endswith_app_l by (simpl; lia));
    unfold endswith; str_simpl;
    repeat match goal with H : Ascii.eqb _ _ = false |- _ => rewrite H end;
    reflexivity.
Qed.

End StringFacts.

Lemma observe_inj {X : Type} (e : event X) (x y : X) :
  observe e x = observe e y -> x = y.
Proof. destruct e; simpl; congruence. Qed.

(** The answers decide the run: two runs of a computation that agree on
    the calls and answers as far as the shorter one goes are the same
    run. *)
Lemma exec_prefix_det {R : Type} (p : prog R) tr1 r1 tr2 r2 t1 t2 :
  exec p tr1 r1 -> exec p tr2 r2 -> tr1 ++ t1 = tr2 ++ t2 ->
  tr1 = tr2 /\ r1 = r2 /\ t1 = t2.
Proof.
  revert tr1 tr2; induction p as [r|X e k IH]; intros tr1 tr2; simpl.
  - intros [-> ->] [-> ->]. simpl. auto.
  - intros (x & tr1' & -> & H1) (y & tr2' & -> & H2) Heq.
    simpl in Heq. injection Heq as Hobs Heq.
    apply observe_inj in Hobs as <-.
    destruct (IH _ _ _ H1 H2 Heq) as (-> & -> & ->). auto.
Qed.

Lemma exec_det {R : Type} (p : prog R) tr r1 r2 :
  exec p tr r1 -> exec p tr r2 -> r1 = r2.
Proof.
  intros H1 H2.
  by destruct (exec_prefix_det p tr r1 tr r2 [] [] H1 H2 eq_refl) as (_ & ? & _).
Qed.

(** A run of [m ≫= k] that starts with a successful run of [m] goes on
    as a run of [k]. *)
Lemma exec_bind_after {A B : Type} (m : M A) (k : A -> M B) s tr1 a s1 tr2 rs :
  exec (m s) tr1 (Ok a, s1) -> exec ((m ≫= k) s) (tr1 ++ tr2) rs ->
  exec (k a s1) tr2 rs.
Proof.
  intros H1 (tr1' & r1' & s1' & H1' & H2)%exec_bind.
  destruct r1' as [a'|e].
  - destruct H2 as (tr2' & H2 & Heq).
    destruct (exec_prefix_det _ _ _ _ _ _ _ H1 H1' Heq) as (-> & [= <- <-] & ->).
    done.
  - destruct H2 as [Heq ->].
    rewrite <- (app_nil_r tr1') in Heq.
    by destruct (exec_prefix_det _ _ _ _ _ _ _ H1 H1' Heq) as (_ & [=] & _).
Qed.

Lemma run_exec {W R : Type} (answer : forall X, event X -> W -> X * W)
    (p : prog R) (w : W) :
  exec p (run answer p w).1 (run answer p w).2.
Proof.
  revert w; induction p as [r|X e k IH]; intros w; simpl; [done|].
  destruct (answer X e w) as [x w'] eqn:Hx.
  specialize (IH x w'). destruct (run answer (k x) w') as [tr r].
  simpl in *. eauto.
Qed.

(** ** Runs of the phases *)

Section Phases.
Variable decode_strip : string -> result string.
Variable py_float : string -> result float.

#[local] Abbreviation duration_of := (duration_of decode_strip py_float).
#[local] Abbreviation probe_failed := (probe_failed decode_strip py_float).
#[local] Abbreviation local_acquired := (local_acquired decode_strip py_float).

Lemma probe_failed_zero r : probe_failed r -> duration_of r = 0%float.
Proof.
  destruct r as [raw|e]; simpl; [|done].
  destruct (decode_strip raw) as [out|e]; [|done].
  intros [Hne [e He]]. apply String.eqb_neq in Hne. by rewrite Hne, He.
Qed.

Lemma read_duration_inv cmd s tr rs :
  exec (read_duration decode_strip py_float cmd s) tr rs ->
  exists r v, tr = [OCheckOutput cmd r] /\ rs = (v, s).
Proof.
  unfold read_duration. intros H. exec_inv; eauto.
Qed.

Lemma probe_duration_inv cmd s tr rs :
  exec (probe_duration decode_strip py_float cmd s) tr rs ->
  exists r, tr = [OCheckOutput cmd r] /\ rs = (Ok (duration_of r), s).
Proof.
  unfold probe_duration, read_duration. intros H. exec_inv.
  all: eexists; (split; [reflexivity|]); unfold duration_of; by use_eqs.
Qed.

Lemma fetch_remote_inv opts url s tr rs :
  exec (fetch_remote opts url s) tr rs ->
  let h := st_heap s in
  rs.2 = s /\
  ((exists e, tr = [OYdlOpen h opts (Err e)] /\ rs.1 = Err e)
   \/ (exists e rc,
         tr = [OYdlOpen h opts (Ok tt);
               OYdlExtractInfo h opts url false (Err e);
               OYdlClose h opts rc]
         /\ rs.1 = Err (match rc with
                        | Ok _ => e
                        | Err e' => with_context e' e
                        end))
   \/ (exists info rd rc,
         tr = [OYdlOpen h opts (Ok tt);
               OYdlExtractInfo h opts url false (Ok info);
               OYdlDownload h opts [url] rd;
               OYdlClose h opts rc]
         /\ rs.1 = fetch_outcome info rd rc)).
Proof.
  unfold fetch_remote, with_ydl. intros H. exec_inv.
  all: split; [done|].
  all: first [ left; by eauto
             | right; left; eexists _, _; split; [reflexivity|];
               by case_match
             | right; right; by eauto 10 ].
Qed.

Ltac exec_inv_p :=
  repeat first
    [ exec_step
    | match goal with
      | H : exec (probe_duration _ _ _ _) _ _ |- _ =>
          apply probe_duration_inv in H as (? & ? & ?); simplify_eq
      | H : exec (read_duration _ _ _ _) _ _ |- _ =>
          apply read_duration_inv in H as (? & ? & ? & ?); simplify_eq
      end ];
  cbn [app observe fst snd st_heap st_audio_file] in *.

Lemma extract_local_inv dir uid path s tr rs :
  exec (extract_local decode_strip py_float dir uid path s) tr rs ->
  let audio_file := audio_path dir uid "m4a" in
  let s1 := State (st_heap s) audio_file in
  (exists e,
      tr = [OCheckCall (ffmpeg_cmd path audio_file) (Err e)]
      /\ rs = (Err e, s1))
  \/ (exists r,
        tr = [OCheckCall (ffmpeg_cmd path audio_file) (Ok tt);
              OCheckOutput (probe_cmd path) r]
        /\ rs = (Ok (VNum (duration_of r)), s1)).
Proof.
  unfold extract_local. intros H. exec_inv_p; [right|left]; eauto.
Qed.

Lemma probe_fallbacks_inv dir uid exts s tr rs :
  exec (probe_fallbacks dir uid exts s) tr rs ->
  (exists k ext,
      exts !! k = Some ext
      /\ tr = misses dir uid (firstn k exts)
              ++ [OPathExists (audio_path dir uid ext) true]
      /\ rs = (Ok tt, State (st_heap s) (audio_path dir uid ext)))
  \/ (tr = misses dir uid exts /\ rs = (Err not_found, s)).
Proof.
  revert tr; induction exts as [|ext exts IH]; intros tr; simpl.
  - intros [-> ->]. by right.
  - intros H. exec_inv.
    + left. by exists 0%nat, ext.
    + match goal with H : exec _ _ _ |- _ => apply IH in H end.
      destruct H0 as [(k & ext' & Hk & -> & ->)|[-> ->]].
      * left. by exists (S k), ext'.
      * by right.
Qed.

Lemma locate_output_inv dir uid s tr rs :
  exec (locate_output dir uid s) tr rs ->
  let primary := audio_path dir uid "m4a" in
  (tr = [OPathExists primary true]
   /\ rs = (Ok tt, State (st_heap s) primary))
  \/ (exists k ext,
        fallback_exts !! k = Some ext
        /\ tr = OPathExists primary false
                :: misses dir uid (firstn k fallback_exts)
                ++ [OPathExists (audio_path dir uid ext) true]
        /\ rs = (Ok tt, State (st_heap s) (audio_path dir uid ext)))
  \/ (tr = OPathExists primary false :: misses dir uid fallback_exts
       /\ rs = (Err not_found, State (st_heap s) primary)).
Proof.
  unfold locate_output. intros H. exec_inv.
  - by left.
  - match goal with H : exec _ _ _ |- _ =>
      apply probe_fallbacks_inv in H as [(k & ext & Hk & -> & ->)|[-> ->]]
    end.
    + right; left. by exists k, ext.
    + right; right. done.
Qed.

Lemma repair_inv dir uid cmd s tr rs :
  exec (repair decode_strip py_float dir uid cmd s) tr rs ->
  let fixed := fixed_audio_path dir uid in
  (exists e,
      tr = [OCheckCall (fix_cmd (st_audio_file s) fixed) (Err e)]
      /\ rs = (Ok tt, s))
  \/ (exists r,
        tr = [OCheckCall (fix_cmd (st_audio_file s) fixed) (Ok tt);
              OCheckOutput (reprobe_cmd fixed cmd) r]
        /\ rs = (Ok tt, State (st_heap s) fixed)).
Proof.
  unfold repair. intros H. exec_inv_p; first [by left; eauto | by right; eauto].
Qed.

Lemma validate_inv dir a s tr rs :
  exec (validate decode_strip py_float dir a s) tr rs ->
  exists r rest,
    tr = OCheckOutput (probe_cmd (st_audio_file s)) r :: rest /\
    let actual := duration_of r in
    let audio_file := st_audio_file s in
    let fixed := fixed_audio_path dir (unique_id a) in
    let unchanged := rest = [] /\ rs = (Ok (audio_file, video_title a), s) in
    if truthy (expected_duration a) then
      if truthy (VNum actual) then
        match as_number (expected_duration a) with
        | None => rest = [] /\ rs = (Err type_error, s)
        | Some d =>
            if exceeds_tolerance d actual then
              (exists e,
                  rest = [OCheckCall (fix_cmd audio_file fixed) (Err e)]
                  /\ rs = (Ok (audio_file, video_title a), s))
              \/ (exists r2,
                    rest = [OCheckCall (fix_cmd audio_file fixed) (Ok tt);
                            OCheckOutput
                              (reprobe_cmd fixed (probe_cmd audio_file)) r2]
                    /\ rs = (Ok (fixed, video_title a),
                             State (st_heap s) fixed))
            else unchanged
        end
      else unchanged
    else unchanged.
Proof.
  unfold validate, duration_mismatch. intros H.
  repeat first
    [ exec_step
    | match goal with
      | H : exec (probe_duration _ _ _ _) _ _ |- _ =>
          apply probe_duration_inv in H as (? & ? & ?); simplify_eq
      | H : exec (repair _ _ _ _ _ _) _ _ |- _ =>
          apply repair_inv in H as [(? & ? & ?)|(? & ? & ?)]; simplify_eq
      end ];
  cbn [app observe fst snd st_heap st_audio_file] in *.
  all: eexists _, _; (split; [reflexivity|]); cbv zeta; use_eqs; eauto.
Qed.

Lemma obtain_inv self url dir s tr rs :
  exec (obtain decode_strip py_float self url dir s) tr rs ->
  (exists e, tr = [OMkdir dir (Err e)] /\ rs = (Err e, s))
  \/ exists u found rest,
       tr = setup_trace dir u url found ++ rest /\
       let uid := take 8 (uuid_str u) in
       match st_heap s !! ydl_opts self with
       | Some (ODict d) =>
           let h1 := call_heap (st_heap s) d dir uid in
           if found && endswith_any (lower url) video_suffixes then
             let audio_file := audio_path dir uid "m4a" in
             (exists e,
                 rest = [OCheckCall (ffmpeg_cmd url audio_file) (Err e)]
                 /\ rs = (Err e, State h1 audio_file))
             \/ (exists r,
                   rest = [OCheckCall (ffmpeg_cmd url audio_file) (Ok tt);
                           OCheckOutput (probe_cmd url) r]
                   /\ rs = (Ok (local_acquired uid url r),
                            State h1 audio_file))
           else
             let s1 := State h1 (st_audio_file s) in
             exists yr,
               exec (fetch_remote (fresh (dom (st_heap s))) url s1) rest
                    (yr, s1)
               /\ rs = (match yr with
                        | Ok (title, duration) =>
                            Ok (remote_acquired uid title duration)
                        | Err e => Err e
                        end, s1)
       | _ => rest = [] /\ rs = (Err not_a_dict, s)
       end.
Proof.
  unfold obtain, resolve_source. intros H.
  repeat first
    [ exec_step
    | match goal with
      | H : exec (extract_local _ _ _ _ _ _) _ _ |- _ =>
          apply extract_local_inv in H as [(? & ? & ?)|(? & ? & ?)];
          simplify_eq
      | E : negb (is_local_file _) = _ |- _ => by simpl in E
      end ].
  all: try (left; by eauto).
  all: right.
  all: match goal with u : N, found : bool |- _ => exists u, found end.
  all: eexists; (split; [unfold setup_trace; cbn [app observe];
                         rewrite ?app_nil_r; reflexivity|]).
  all: cbv zeta.
  all: destruct (st_heap s !! ydl_opts self) as [[d|]|] eqn:Hd;
    simplify_eq; try done.
  all: cbn [st_heap st_audio_file] in *.
  all: repeat match goal with
         | H : context [<[?l := _]> _ !! ?l] |- _ =>
             rewrite lookup_insert_eq in H
         | H : context [<[?l := _]> (<[?l := _]> _)] |- _ =>
             rewrite insert_insert_eq in H
         end; simplify_eq.
  all: unfold call_heap; use_eqs.
  all: try (left; by eauto).
  all: try (right; by eauto).
  all: match goal with
       | H : exec (fetch_remote _ _ _) _ _ |- _ =>
           pose proof (fetch_remote_inv _ _ _ _ _ H) as [Hs _];
           cbn [snd] in Hs; subst; eexists; split; [exact H|]; reflexivity
       end.
Qed.

End Phases.

(** ** Runs of the methods *)

Lemma SFcompare_antisym x y :
  SFcompare y x = option_map CompOpp (SFcompare x y).
Proof.
  destruct x as [[]|[]| |[] mx ex], y as [[]|[]| |[] my ey]; simpl; try done.
  all: rewrite (Z.compare_antisym ex ey); destruct (ex ?= ey); simpl; try done.
  all: assert (Pos.compare_cont Eq my mx
               = CompOpp (Pos.compare_cont Eq mx my)) as ->
         by (symmetry; apply (Pos.compare_cont_antisym mx my Eq)).
  all: by destruct (Pos.compare_cont Eq mx my).
Qed.

(** [x <= y] on floats excludes [y < x]. *)
Lemma float_leb_not_ltb (x y : float) :
  PrimFloat.leb x y = true -> PrimFloat.ltb y x = false.
Proof.
  rewrite leb_spec, ltb_spec. unfold SFleb, SFltb.
  rewrite (SFcompare_antisym (Prim2SF x) (Prim2SF y)).
  by destruct (SFcompare (Prim2SF x) (Prim2SF y)) as [[]|].
Qed.

Lemma truthy_number v d :
  as_number v = Some d -> truthy v = negb (PrimFloat.eqb d 0).
Proof.
  destruct v as [|[]|f|]; simpl; intros [= <-]; reflexivity.
Qed.

Opaque uuid_str.

Ltac unfold_acquire := unfold acquire.

Section Whole.
Variable decode_strip : string -> result string.
Variable py_float : string -> result float.

Abbreviation obtain := (obtain decode_strip py_float).
Abbreviation validate := (validate decode_strip py_float).
Abbreviation acquire := (acquire decode_strip py_float).
Abbreviation download_and_convert := (download_and_convert decode_strip py_float).
Abbreviation duration_of := (duration_of decode_strip py_float).
Abbreviation probe_failed := (probe_failed decode_strip py_float).
Abbreviation local_acquired := (local_acquired decode_strip py_float).

(** Every run of the method is a run of the three phases. *)
Lemma download_and_convert_inv self url dir h tr res :
  exec (download_and_convert self url dir h) tr res ->
  exists tro ro so,
    exec (obtain self url dir (State h "")) tro (ro, so) /\
    match ro with
    | Err e => tr = tro /\ res = (Err (wrap_failure e), st_heap so)
    | Ok a =>
        exists trl rl sl,
          exec (locate dir a so) trl (rl, sl) /\
          match rl with
          | Err e =>
              tr = tro ++ trl /\ res = (Err (wrap_failure e), st_heap sl)
          | Ok _ =>
              exists trv rv sv,
                exec (validate dir a sl) trv (rv, sv)
                /\ tr = tro ++ trl ++ trv
                /\ res = (propagate rv, st_heap sv)
          end
    end.
Proof.
  unfold download_and_convert, download_and_convert_body. unfold_acquire.
  intros (trb & [rb sb] & tr3 & H & [-> ->] & ->)%exec_prog_bind.
  rewrite app_nil_r.
  apply exec_try_except in H as (tr1 & r1 & s1 & H & H1).
  apply exec_bind in H as (tr2 & r2 & s2 & H & H2).
  apply exec_bind in H as (tro & ro & so & H & H3).
  exists tro, ro, so. split; [done|].
  destruct ro as [a|e]; [|by exec_inv].
  destruct H3 as (tr4 & H3 & ->).
  apply exec_bind in H3 as (trl & rl & sl & H3 & H4).
  exists trl, rl, sl. split; [done|].
  destruct rl as [[]|e]; [|by exec_inv].
  destruct H4 as (tr5 & H4 & ->). apply exec_mret in H4 as [-> [= -> ->]].
  destruct H2 as (trv & H2 & ->).
  exists trv, r1, s1. rewrite ?app_nil_r, <- ?app_assoc.
  destruct r1 as [v|e]; exec_inv; by rewrite <- app_assoc.
Qed.

Lemma acquire_inv self url dir s tr rs :
  exec (acquire self url dir s) tr rs ->
  exists tro ro so,
    exec (obtain self url dir s) tro (ro, so) /\
    match ro with
    | Err e => tr = tro /\ rs = (Err e, so)
    | Ok a =>
        exists trl rl sl,
          exec (locate dir a so) trl (rl, sl)
          /\ tr = tro ++ trl
          /\ rs = (match rl with Ok _ => Ok a | Err e => Err e end, sl)
    end.
Proof.
  unfold_acquire. intros H.
  apply exec_bind in H as (tro & ro & so & H & H3).
  exists tro, ro, so. split; [done|].
  destruct ro as [a|e]; [|done].
  destruct H3 as (tr4 & H3 & ->).
  apply exec_bind in H3 as (trl & rl & sl & H3 & H4).
  exists trl, rl, sl. split; [done|].
  destruct rl as [[]|e]; by exec_inv.
Qed.

(** After a successful run of [obtain], the run of the method goes on
    with [locate] and, if that finds the file, with [validate]. *)
Lemma after_obtain self url dir h tr1 a s1 tr2 res :
  exec (obtain self url dir (State h "")) tr1 (Ok a, s1) ->
  exec (download_and_convert self url dir h) (tr1 ++ tr2) res ->
  exists trl rl sl,
    exec (locate dir a s1) trl (rl, sl) /\
    match rl with
    | Err e => tr2 = trl /\ res = (Err (wrap_failure e), st_heap sl)
    | Ok _ =>
        exists trv rv sv,
          exec (validate dir a sl) trv (rv, sv)
          /\ tr2 = trl ++ trv
          /\ res = (propagate rv, st_heap sv)
    end.
Proof.
  intros H1 (tro & ro & so & Ho & H2)%download_and_convert_inv.
  destruct ro as [a'|e].
  - destruct H2 as (trl & rl & sl & Hl & H2). destruct rl as [[]|e].
    + destruct H2 as (trv & rv & sv & Hv & Heq & ->).
      destruct (exec_prefix_det _ _ _ _ _ _ _ H1 Ho Heq) as (-> & [= -> ->] & ->).
      exists trl, (Ok tt), sl. eauto 10.
    + destruct H2 as [Heq ->].
      destruct (exec_prefix_det _ _ _ _ _ _ _ H1 Ho Heq) as (-> & [= -> ->] & ->).
      exists trl, (Err e), sl. eauto.
  - destruct H2 as [Heq _]. rewrite <- (app_nil_r tro) in Heq.
    by destruct (exec_prefix_det _ _ _ _ _ _ _ H1 Ho Heq) as (_ & [=] & _).
Qed.

(** After a successful run of [acquire], the run of the method goes on
    with [validate]. *)
Lemma after_acquire self url dir h tr1 a s1 tr2 res :
  exec (acquire self url dir (State h "")) tr1 (Ok a, s1) ->
  exec (download_and_convert self url dir h) (tr1 ++ tr2) res ->
  exists rv sv,
    exec (validate dir a s1) tr2 (rv, sv) /\ res = (propagate rv, st_heap sv).
Proof.
  intros (tro & ro & so & Ho & H1)%acquire_inv H2.
  destruct ro as [a'|e]; [|by destruct H1].
  destruct H1 as (trl & rl & sl & Hl & -> & H1).
  destruct rl as [[]|e]; [|done]. injection H1 as -> ->.
  rewrite <- app_assoc in H2.
  destruct (after_obtain _ _ _ _ _ _ _ _ _ Ho H2) as (trl' & rl' & sl' & Hl' & H3).
  destruct rl' as [[]|e].
  - destruct H3 as (trv & rv & sv & Hv & Heq & ->).
    destruct (exec_prefix_det _ _ _ _ _ _ _ Hl Hl' Heq) as (-> & [= ->] & ->).
    eauto.
  - destruct H3 as [Heq _]. rewrite <- (app_nil_r trl') in Heq.
    by destruct (exec_prefix_det _ _ _ _ _ _ _ Hl Hl' Heq) as (_ & [=] & _).
Qed.

(** The file a successful acquisition settles on is [audio_<id>.<ext>] in
    the output directory, with the eight-digit identifier and one of the
    five extensions. *)
Lemma acquire_audio_file self url dir s tr a s1 :
  exec (acquire self url dir s) tr (Ok a, s1) ->
  exists u ext,
    unique_id a = take 8 (uuid_str u)
    /\ In ext ("m4a" :: fallback_exts)
    /\ st_audio_file s1 = audio_path dir (unique_id a) ext.
Proof.
  intros (tro & ro & so & Ho & H)%acquire_inv.
  destruct ro as [a'|e]; [|by destruct H].
  destruct H as (trl & rl & sl & Hl & -> & H).
  destruct rl as [[]|e]; [|done]. injection H as -> ->.
  apply obtain_inv in Ho as [(e & _ & [=])|(u & found & rest & _ & Ho)].
  cbv zeta in Ho.
  destruct (st_heap s !! ydl_opts self) as [[d|]|]; try (by destruct Ho).
  destruct (found && _).
  - destruct Ho as [(e & _ & [=])|(r & _ & [= -> ->])].
    unfold locate in Hl.
    cbn [origin local_acquired local_source is_local_file negb] in Hl.
    apply exec_mret in Hl as [_ [= ->]].
    exists u, "m4a". cbn [unique_id local_acquired st_audio_file In]. auto.
  - destruct Ho as (yr & _ & Ho).
    destruct yr as [[title duration]|e]; [|done]. injection Ho as -> ->.
    unfold locate in Hl.
    cbn [origin remote_acquired remote_source is_local_file negb unique_id]
      in Hl.
    apply locate_output_inv
      in Hl as [[_ [= ->]]|[(k & ext & Hk & _ & [= ->])|[_ [=]]]].
    + exists u, "m4a". cbn [unique_id remote_acquired st_audio_file In]. auto.
    + exists u, ext. cbn [unique_id remote_acquired st_audio_file In].
      split; [done|]. split; [|done].
      right. eapply list_elem_of_In, list_elem_of_lookup_2, Hk.
Qed.

(** C1: when the expected duration [D] and the duration [ffprobe] reports
    for the produced file are both nonzero and differ by more than a tenth
    of [D], a run of [download_and_convert] makes exactly one repair
    attempt, the [ffmpeg] re-encoding into [audio_<id>_fixed.m4a], right
    after the probe.  If the re-encoding succeeds, the path returned is the
    repaired file's and ends in [_fixed.m4a]; if it fails, the run stops
    there and still returns successfully, with the original path. *)
Theorem repair_on_mismatch self url dir h tr1 a s1 r rest res D :
  exec (acquire self url dir (State h "")) tr1 (Ok a, s1) ->
  exec (download_and_convert self url dir h)
       (tr1 ++ OCheckOutput (probe_cmd (st_audio_file s1)) r :: rest) res ->
  as_number (expected_duration a) = Some D ->
  PrimFloat.eqb D 0 = false ->
  PrimFloat.eqb (duration_of r) 0 = false ->
  exceeds_tolerance D (duration_of r) = true ->
  let fixed := fixed_audio_path dir (unique_id a) in
  exists attempt reprobe,
    rest = OCheckCall (fix_cmd (st_audio_file s1) fixed) attempt :: reprobe
    /\ length (List.filter is_check_call rest) = 1%nat
    /\ match attempt with
       | Ok _ =>
           res.1 = Ok (fixed, video_title a)
           /\ endswith fixed "_fixed.m4a" = true
       | Err _ =>
           reprobe = [] /\ res.1 = Ok (st_audio_file s1, video_title a)
       end.
Proof.
  intros H1 H2 HD HD0 HA0 Hex.
  destruct (after_acquire _ _ _ _ _ _ _ _ _ H1 H2) as (rv & sv & Hv & ->).
  apply validate_inv in Hv as (r' & rest' & [= <- <-] & Hv).
  cbv zeta in Hv.
  rewrite (truthy_number _ _ HD), HD0, HD in Hv. cbn [truthy negb] in Hv.
  rewrite HA0, Hex in Hv. cbn [negb] in Hv. cbv zeta.
  destruct Hv as [(e & -> & [= -> ->])|(r2 & -> & [= -> ->])].
  - exists (Err e), []. auto.
  - exists (Ok tt), [OCheckOutput (reprobe_cmd (fixed_audio_path dir (unique_id a))
                                   (probe_cmd (st_audio_file s1))) r2].
    split; [done|]. split; [done|]. split; [done|].
    apply fixed_audio_path_endswith.
Qed.

(** C2: when the expected duration is zero or unknown, or the probed
    duration is zero, or both are nonzero and their relative difference is
    at most a tenth, the probe is the last call of the run: no repair is
    made, and the path returned is that of the file the acquisition settled
    on, which does not end in [_fixed.m4a]. *)
Theorem no_repair_within_tolerance self url dir h tr1 a s1 r rest res :
  exec (acquire self url dir (State h "")) tr1 (Ok a, s1) ->
  exec (download_and_convert self url dir h)
       (tr1 ++ OCheckOutput (probe_cmd (st_audio_file s1)) r :: rest) res ->
  truthy (expected_duration a) = false
  \/ PrimFloat.eqb (duration_of r) 0 = true
  \/ (exists D,
        as_number (expected_duration a) = Some D
        /\ PrimFloat.leb (relative_difference D (duration_of r)) tolerance
           = true) ->
  rest = []
  /\ res.1 = Ok (st_audio_file s1, video_title a)
  /\ endswith (st_audio_file s1) "_fixed.m4a" = false.
Proof.
  intros H1 H2 Hcond.
  destruct (after_acquire _ _ _ _ _ _ _ _ _ H1 H2) as (rv & sv & Hv & ->).
  apply validate_inv in Hv as (r' & rest' & [= <- <-] & Hv).
  cbv zeta in Hv.
  assert (rest = [] /\ (rv, sv) = (Ok (st_audio_file s1, video_title a), s1))
    as [-> [= -> ->]].
  { destruct Hcond as [Hz|[Hz|(D & HD & Hle)]].
    - by rewrite Hz in Hv.
    - cbn [truthy] in Hv. rewrite Hz in Hv. cbn [negb] in Hv.
      by repeat case_match.
    - rewrite HD in Hv. unfold exceeds_tolerance in Hv.
      rewrite (float_leb_not_ltb _ _ Hle) in Hv.
      by repeat case_match. }
  split; [done|]. split; [done|].
  destruct (acquire_audio_file _ _ _ _ _ _ _ H1) as (u & ext & Hu & Hext & ->).
  rewrite Hu. destruct (unique_id_spec u). by apply audio_path_not_fixed.
Qed.

Lemma In_misses o dir uid exts :
  In o (misses dir uid exts) ->
  exists ext, o = OPathExists (audio_path dir uid ext) false.
Proof.
  unfold misses. rewrite <- list_elem_of_In, list_elem_of_fmap.
  intros (ext & -> & _). eauto.
Qed.

(** [locate] only asks whether files exist, and leaves the heap alone. *)
Lemma locate_calls dir a s tr r s' :
  exec (locate dir a s) tr (r, s') ->
  st_heap s' = st_heap s
  /\ forall o, In o tr -> exists p found, o = OPathExists p found.
Proof.
  unfold locate. destruct (is_local_file (origin a)); cbn [negb].
  - intros [-> [= -> ->]]%exec_mret. by split.
  - intros [[-> [= -> ->]]|[(k & ext & Hk & -> & [= -> ->])|[-> [= -> ->]]]]%locate_output_inv.
    all: split; [done|]; intros o; cbn [In]; rewrite ?in_app_iff; cbn [In].
    all: intros Ho; repeat destruct Ho as [Ho|Ho]; try done; subst; eauto.
    all: apply In_misses in Ho as [? ->]; eauto.
Qed.

(** [validate] only runs [ffprobe] and [ffmpeg], leaves the heap alone,
    and returns successfully when the expected duration is unknown or a
    probe failed. *)
Lemma validate_calls dir a s tr r s' :
  exec (validate dir a s) tr (r, s') ->
  st_heap s' = st_heap s
  /\ (forall o, In o tr ->
        (exists cmd rc, o = OCheckCall cmd rc)
        \/ (exists cmd ro, o = OCheckOutput cmd ro))
  /\ (truthy (expected_duration a) = false -> exists v, r = Ok v)
  /\ (forall cmd ro,
        In (OCheckOutput cmd ro) tr -> probe_failed ro -> exists v, r = Ok v).
Proof.
  intros (ro & rest & -> & Hv)%validate_inv. cbv zeta in Hv.
  destruct (truthy (expected_duration a)) eqn:He;
    [destruct (truthy (VNum (duration_of ro))) eqn:Ha;
     [destruct (as_number (expected_duration a)) as [d|] eqn:Hd;
      [destruct (exceeds_tolerance d (duration_of ro)) eqn:Hx|]|]|].
  1: destruct Hv as [(e & -> & [= -> ->])|(r2 & -> & [= -> ->])].
  all: try destruct Hv as [-> [= -> ->]].
  all: split; [done|].
  all: split; [cbn [In]; intros o Ho; repeat destruct Ho as [Ho|Ho];
               try done; subst; eauto|].
  all: split; [intros; first [done|eauto]|].
  all: try (intros; by eauto).
  (* the raising case: the probe did not fail, its duration is not zero *)
  intros cmd ro' [[= _ <-]|[]] Hf. apply probe_failed_zero in Hf.
  cbn [truthy] in Ha. by rewrite Hf in Ha.
Qed.

(** Every run of the method, case by case. *)
Lemma download_and_convert_runs self url dir h tr res :
  exec (download_and_convert self url dir h) tr res ->
  (exists e, tr = [OMkdir dir (Err e)] /\ res = (Err (wrap_failure e), h))
  \/ exists u found rest,
       tr = setup_trace dir u url found ++ rest /\
       let uid := take 8 (uuid_str u) in
       match h !! ydl_opts self with
       | Some (ODict d) =>
           let h1 := call_heap h d dir uid in
           if found && endswith_any (lower url) video_suffixes then
             let audio_file := audio_path dir uid "m4a" in
             (exists e,
                 rest = [OCheckCall (ffmpeg_cmd url audio_file) (Err e)]
                 /\ res = (Err (wrap_failure e), h1))
             \/ (exists r trv rv sv,
                   rest = OCheckCall (ffmpeg_cmd url audio_file) (Ok tt)
                          :: OCheckOutput (probe_cmd url) r :: trv
                   /\ exec (validate dir (local_acquired uid url r)
                                     (State h1 audio_file)) trv (rv, sv)
                   /\ res = (propagate rv, st_heap sv))
           else
             let s1 := State h1 "" in
             exists ytr yr,
               exec (fetch_remote (fresh (dom h)) url s1) ytr (yr, s1) /\
               match yr with
               | Err e => rest = ytr /\ res = (Err (wrap_failure e), h1)
               | Ok (title, duration) =>
                   exists trl rl sl,
                     exec (locate_output dir uid s1) trl (rl, sl) /\
                     match rl with
                     | Err e =>
                         rest = ytr ++ trl
                         /\ res = (Err (wrap_failure e), st_heap sl)
                     | Ok _ =>
                         exists trv rv sv,
                           exec (validate dir
                                   (remote_acquired uid title duration) sl)
                                trv (rv, sv)
                           /\ rest = ytr ++ trl ++ trv
                           /\ res = (propagate rv, st_heap sv)
                     end
               end
       | _ => rest = [] /\ res = (Err (wrap_failure not_a_dict), h)
       end.
Proof.
  intros (tro & ro & so & Ho & H)%download_and_convert_inv.
  apply obtain_inv in Ho as [(e & -> & [= -> ->])|(u & found & rest & -> & Ho)].
  { left. destruct H as [-> ->]. eauto. }
  right. exists u, found. cbv zeta in Ho |- *.
  cbn [st_heap st_audio_file] in Ho.
  destruct (h !! ydl_opts self) as [[d|]|].
  2,3: destruct Ho as [-> [= -> ->]]; destruct H as [-> ->];
       exists []; by rewrite app_nil_r.
  destruct (found && _).
  - destruct Ho as [(e & -> & [= -> ->])|(r & -> & [= -> ->])].
    + destruct H as [-> ->]. eexists. split; [done|]. left. eauto.
    + destruct H as (trl & rl & sl & Hl & H). unfold locate in Hl.
      cbn [origin local_acquired local_source is_local_file negb] in Hl.
      apply exec_mret in Hl as [-> [= -> ->]].
      destruct H as (trv & rv & sv & Hv & -> & ->).
      eexists. split; [by rewrite <- app_assoc|]. right.
      exists r, trv, rv, sv. done.
  - destruct Ho as (yr & Hy & [= -> ->]).
    destruct yr as [[title duration]|e].
    + destruct H as (trl & rl & sl & Hl & H). unfold locate in Hl.
      cbn [origin remote_acquired remote_source is_local_file negb unique_id]
        in Hl.
      destruct rl as [[]|e].
      * destruct H as (trv & rv & sv & Hv & -> & ->).
        eexists. split; [by rewrite <- app_assoc|].
        exists rest, (Ok (title, duration)). split; [done|].
        exists trl, (Ok tt), sl. split; [done|]. eauto 10.
      * destruct H as [-> ->].
        eexists. split; [by rewrite <- app_assoc|].
        exists rest, (Ok (title, duration)). split; [done|].
        exists trl, (Err e), sl. split; [done|]. eauto.
    + destruct H as [-> ->]. eexists. split; [done|].
      exists rest, (Err e). eauto.
Qed.

Lemma call_heap_old h d dir uid l o :
  h !! l = Some o -> call_heap h d dir uid !! l = Some o.
Proof.
  intros Hl. unfold call_heap. rewrite lookup_insert_ne; [done|].
  intros <-. apply (is_fresh (dom h)), elem_of_dom. eauto.
Qed.

Lemma call_heap_new h d dir uid :
  h !! fresh (dom h) = None
  /\ call_heap h d dir uid !! fresh (dom h)
     = Some (ODict (<["outtmpl" :=
                        Plain (VStr (path_join dir
                                 ("audio_" +:+ uid +:+ ".%(ext)s")))]> d)).
Proof.
  split; [apply not_elem_of_dom, is_fresh|].
  unfold call_heap. by rewrite lookup_insert_eq.
Qed.

Lemma opens_on_other hh l o : is_ydl o = false -> opens_on hh l o.
Proof. intros Ho ??? ->. done. Qed.

Lemma fetch_remote_opens opts url s tr rs :
  exec (fetch_remote opts url s) tr rs ->
  Forall (opens_on (st_heap s) opts) tr.
Proof.
  intros [_ [(e & -> & _)|[(e & rc & -> & _)|(info & rd & rc & -> & _)]]]%fetch_remote_inv.
  all: repeat (apply Forall_cons; split; [intros ??? ?; by simplify_eq|]).
  all: apply Forall_nil_2.
Qed.

Lemma locate_output_calls dir uid s tr r s' :
  exec (locate_output dir uid s) tr (r, s') ->
  st_heap s' = st_heap s
  /\ Forall (fun o => exists p found, o = OPathExists p found) tr.
Proof.
  intros [[-> [= -> ->]]|[(k & ext & Hk & -> & [= -> ->])|[-> [= -> ->]]]]%locate_output_inv.
  all: split; [done|].
  all: repeat first [apply Forall_cons; split; [by eauto|]
                    |apply Forall_app; split
                    |apply Forall_nil_2].
  all: apply Forall_forall; intros o [? ->]%list_elem_of_In%In_misses; eauto.
Qed.

Lemma validate_kinds dir a s tr r s' :
  exec (validate dir a s) tr (r, s') ->
  Forall (fun o => is_ydl o = false) tr.
Proof.
  intros (_ & H & _)%validate_calls. apply Forall_forall.
  intros o Ho%list_elem_of_In.
  by destruct (H _ Ho) as [(? & ? & ->)|(? & ? & ->)].
Qed.

(** C9: a run of [download_and_convert] leaves every object that was on the
    heap when it started as it was, the options of the processor among
    them; the options it hands to the download library are a new object,
    the defaults with the output template of the call set. *)
Theorem defaults_not_mutated self url dir h tr res h' :
  exec (download_and_convert self url dir h) tr (res, h') ->
  (forall l o, h !! l = Some o -> h' !! l = Some o)
  /\ (forall hh l r, In (OYdlOpen hh l r) tr ->
        h !! l = None
        /\ exists d template,
             h !! ydl_opts self = Some (ODict d)
             /\ hh !! l
                = Some (ODict (<["outtmpl" := Plain (VStr template)]> d))).
Proof.
  intros Hrun.
  (* the heap at the end is the one at the start, or that heap with the
     per-call copy added; [YoutubeDL] is built on the copy *)
  assert (h' = h /\ Forall (fun o => is_ydl o = false) tr
          \/ exists d uid,
               h !! ydl_opts self = Some (ODict d)
               /\ h' = call_heap h d dir uid
               /\ Forall (opens_on h' (fresh (dom h))) tr) as Hcases.
  { apply download_and_convert_runs
      in Hrun as [(e & -> & [= _ ->])|(u & found & rest & -> & H)].
    { left. split; [done|]. by repeat (apply Forall_cons; split). }
    cbv zeta in H. destruct (h !! ydl_opts self) as [[d|]|].
    2,3: destruct H as [-> [= _ ->]]; left; split; [done|];
         by repeat (apply Forall_cons; split).
    right. exists d, (take 8 (uuid_str u)). split; [done|].
    assert (forall hh l, Forall (opens_on hh l) (setup_trace dir u url found))
      as Hsetup
      by (intros; repeat (apply Forall_cons; split; [by intros ??? [=]|]);
          apply Forall_nil_2).
    destruct (found && _).
    - destruct H as [(e & -> & [= _ ->])|(r & trv & rv & sv & -> & Hv & [= _ ->])].
      + split; [done|]. apply Forall_app. split; [done|].
        apply Forall_cons. split; [by intros ??? [=]|apply Forall_nil_2].
      + pose proof (validate_kinds _ _ _ _ _ _ Hv) as Hk.
        apply validate_calls in Hv as [-> _]. cbn [st_heap].
        split; [done|]. apply Forall_app. split; [done|].
        do 2 (apply Forall_cons; split; [by intros ??? [=]|]).
        eapply Forall_impl; [exact Hk|]. intros; by apply opens_on_other.
    - destruct H as (ytr & yr & Hy & H).
      apply fetch_remote_opens in Hy as Hyo. cbn [st_heap] in Hyo.
      destruct yr as [[title duration]|e].
      + destruct H as (trl & rl & sl & Hl & H).
        apply locate_output_calls in Hl as [Hhl Hl]. cbn [st_heap] in Hhl.
        assert (Forall (opens_on (call_heap h d dir (take 8 (uuid_str u)))
                                 (fresh (dom h))) trl) as Hlo.
        { eapply Forall_impl; [exact Hl|]. intros o (? & ? & ->).
          by apply opens_on_other. }
        destruct rl as [[]|e].
        * destruct H as (trv & rv & sv & Hv & -> & [= _ ->]).
          pose proof (validate_kinds _ _ _ _ _ _ Hv) as Hk.
          apply validate_calls in Hv as [-> _]. rewrite Hhl.
          split; [done|]. repeat (apply Forall_app; split); try done.
          eapply Forall_impl; [exact Hk|]. intros; by apply opens_on_other.
        * destruct H as [-> [= _ ->]]. rewrite Hhl.
          split; [done|]. by repeat (apply Forall_app; split).
      + destruct H as [-> [= _ ->]]. split; [done|].
        by apply Forall_app. }
  destruct Hcases as [[-> Hno]|(d & uid & Hd & -> & Hopen)].
  - split; [done|]. intros hh l r Hin%list_elem_of_In.
    by apply (proj1 (Forall_forall _ _) Hno) in Hin.
  - split; [intros; by apply call_heap_old|].
    intros hh l r Hin%list_elem_of_In.
    apply (proj1 (Forall_forall _ _) Hopen) in Hin.
    destruct (Hin _ _ _ eq_refl) as [-> ->].
    destruct (call_heap_new h d dir uid) as [Hnone Hnew]. eauto 10.
Qed.

Lemma setup_trace_inj dir url u found rest u' found' rest' :
  setup_trace dir u url found ++ rest = setup_trace dir u' url found' ++ rest' ->
  u = u' /\ found = found' /\ rest = rest'.
Proof. intros [= -> -> ->]. done. Qed.

Lemma filter_none {A : Type} (P : A -> bool) (l : list A) :
  (forall x, In x l -> P x = false) -> List.filter P l = [].
Proof.
  induction l as [|x l IH]; cbn [List.filter]; [done|]. intros H.
  rewrite (H x) by (by left). apply IH. intros y Hy. apply H. by right.
Qed.

Lemma filter_ydl_none (tr : list obs) :
  Forall (fun o => is_ydl o = false) tr -> List.filter is_ydl tr = [].
Proof.
  intros H. apply filter_none. intros o Ho%list_elem_of_In.
  by apply (proj1 (Forall_forall _ _) H).
Qed.


Lemma validate_no_ydl dir a s tr r s' :
  exec (validate dir a s) tr (r, s') -> List.filter is_ydl tr = [].
Proof. intros H%validate_kinds. by apply filter_ydl_none. Qed.


(** The title [validate] returns is the one it was given. *)
Lemma validate_title dir a s tr path title s' :
  exec (validate dir a s) tr (Ok (path, title), s') -> title = video_title a.
Proof.
  intros (r & rest & _ & Hv)%validate_inv. cbv zeta in Hv.
  destruct (truthy (expected_duration a));
    [destruct (truthy _);
     [destruct (as_number _); [destruct (exceeds_tolerance _ _)|]|]|].
  1: destruct Hv as [(e & _ & Hv)|(r2 & _ & Hv)]; congruence.
  all: destruct Hv as [_ Hv]; congruence.
Qed.

(** C7: a run on an existing file with a video extension makes no call into
    the download library, and the title it returns is the base name of the
    input path: what follows its last slash, extension included. *)
Theorem local_title_is_basename self url dir h tr res u rest :
  exec (download_and_convert self url dir h) tr res ->
  tr = setup_trace dir u url true ++ rest ->
  endswith_any (lower url) video_suffixes = true ->
  List.filter is_ydl tr = []
  /\ forall path title,
       res.1 = Ok (path, title) ->
       title = VStr (basename url)
       /\ forall d name,
            url = d +:+ "/" +:+ name -> contains "/" name = false ->
            title = VStr name.
Proof.
  intros [(e & -> & _)|(u' & found' & rest' & -> & H)]%download_and_convert_runs
         Htr Hext; [done|].
  apply setup_trace_inj in Htr as (-> & -> & ->).
  cbv zeta in H. cbn [andb] in H. rewrite Hext in H.
  destruct (h !! ydl_opts self) as [[d|]|].
  2,3: by destruct H as [-> ->].
  destruct H as [(e & -> & ->)|(r & trv & rv & sv & -> & Hv & ->)]; [done|].
  split.
  - rewrite List.filter_app. cbn [List.filter setup_trace is_ydl app].
    by apply validate_no_ydl in Hv.
  - intros path title Hres.
    destruct rv as [[path' title']|e]; [|done]. injection Hres as -> ->.
    apply validate_title in Hv as ->. cbn [local_acquired video_title].
    split; [done|]. intros d' name -> Hname. by rewrite basename_app.
Qed.

(** C5 (amended): every failure that [download_and_convert] hands to its
    caller is a plain [Exception] whose message is the fixed summary
    prefix followed by the text of the underlying failure, and which keeps
    that failure as its context.  The prefix is the same in every phase. *)
Theorem failure_is_wrapped self url dir h tr w h' :
  exec (download_and_convert self url dir h) tr (Err w, h') ->
  exists cause,
    w = wrap_failure cause
    /\ exn_cls w = "Exception"
    /\ exn_str w = "视频处理失败: " +:+ exn_str cause
    /\ exn_context w = Some cause.
Proof.
  intros (tro & ro & so & _ & H)%download_and_convert_inv.
  assert (exists cause, w = wrap_failure cause) as [cause ->];
    [|by exists cause].
  destruct ro as [a|e]; [|destruct H as [_ [= -> _]]; eauto].
  destruct H as (trl & rl & sl & _ & H).
  destruct rl as [[]|e]; [|destruct H as [_ [= -> _]]; eauto].
  destruct H as (trv & rv & sv & _ & _ & H).
  destruct rv as [v|e]; [done|]. injection H as -> _. eauto.
Qed.

(** C6: a duration probe never fails: whatever [ffprobe] does, and whatever
    it prints, [probe_duration] returns a number, which is zero when the
    command failed or its output could not be decoded or parsed.  Hence a
    run of [download_and_convert] in which a probe failed, be it of the
    local source or of the produced file, returns successfully. *)
Theorem probe_failure_not_propagated :
  (forall cmd s tr rs,
      exec (probe_duration decode_strip py_float cmd s) tr rs ->
      exists r,
        tr = [OCheckOutput cmd r]
        /\ rs = (Ok (duration_of r), s)
        /\ (probe_failed r -> duration_of r = 0%float))
  /\ (forall self url dir h tr res cmd r,
        exec (download_and_convert self url dir h) tr res ->
        In (OCheckOutput cmd r) tr ->
        probe_failed r ->
        exists path title, res.1 = Ok (path, title)).
Proof.
  split.
  { intros cmd s tr rs (r & -> & ->)%probe_duration_inv.
    exists r. split; [done|]. split; [done|]. apply probe_failed_zero. }
  intros self url dir h tr res cmd r
    [(e & -> & _)|(u & found & rest & -> & H)]%download_and_convert_runs
    Hin Hfail.
  { by destruct Hin as [[=]|[]]. }
  assert (forall a s trv rv sv,
            exec (validate dir a s) trv (rv, sv) ->
            truthy (expected_duration a) = false \/ In (OCheckOutput cmd r) trv ->
            exists path title, (propagate rv, st_heap sv).1 = Ok (path, title))
    as Hvalid.
  { intros a s trv rv sv (_ & _ & Hz & Hp)%validate_calls [Hc|Hc].
    - destruct (Hz Hc) as [[path title] ->]. cbn. eauto.
    - destruct (Hp _ _ Hc Hfail) as [[path title] ->]. cbn. eauto. }
  apply in_app_or in Hin as [Hin|Hin].
  { cbn in Hin. by intuition. }
  cbv zeta in H. destruct (h !! ydl_opts self) as [[d|]|].
  2,3: destruct H as [-> _]; by destruct Hin.
  destruct (found && _).
  - destruct H as [(e & -> & _)|(r1 & trv & rv & sv & -> & Hv & ->)].
    { by destruct Hin as [[=]|[]]. }
    destruct Hin as [[=]|[[= _ ->]|Hin]]; eapply Hvalid; eauto.
    left. cbn [local_acquired expected_duration truthy].
    by rewrite (probe_failed_zero _ _ _ Hfail).
  - destruct H as (ytr & yr & Hy & H).
    assert (~ In (OCheckOutput cmd r) ytr) as Hnoty.
    { intros Hi. apply fetch_remote_inv in Hy as [_ Hy].
      destruct Hy as [(? & -> & _)|[(? & ? & -> & _)|(? & ? & ? & -> & _)]];
        cbn in Hi; by intuition. }
    destruct yr as [[title duration]|e]; [|destruct H as [-> _]; done].
    destruct H as (trl & rl & sl & Hl & H).
    assert (~ In (OCheckOutput cmd r) trl) as Hnotl.
    { intros Hi%list_elem_of_In. apply locate_output_calls in Hl as [_ Hl].
      by destruct (proj1 (Forall_forall _ _) Hl _ Hi) as (? & ? & ?). }
    destruct rl as [[]|e].
    + destruct H as (trv & rv & sv & Hv & -> & ->).
      apply in_app_or in Hin as [Hin|Hin]; [done|].
      apply in_app_or in Hin as [Hin|Hin]; [done|].
      eapply Hvalid; eauto.
    + destruct H as [-> _]. by apply in_app_or in Hin as [Hin|Hin].
Qed.

(** C3: the classification of the input makes one call, the test that the
    path exists, and answers local exactly when the path exists and its
    extension, in any letter case, is one of mp4, mov, avi, flv.  In a run
    of [download_and_convert] the call that follows the classification is
    the [ffmpeg] extraction from the file in the first case, and the
    construction of the [YoutubeDL] object in every other case. *)
Theorem local_iff_exists_and_extension :
  (forall url s tr rs,
      exec (resolve_source url s) tr rs ->
      exists found src,
        tr = [OPathExists url found]
        /\ rs = (Ok src, s)
        /\ (is_local_file src = true
            <-> found = true /\ has_video_extension url))
  /\ (forall self url dir h d tr res,
        h !! ydl_opts self = Some (ODict d) ->
        exec (download_and_convert self url dir h) tr res ->
        (exists e, tr = [OMkdir dir (Err e)])
        \/ exists u found rest,
             tr = setup_trace dir u url found ++ rest /\
             ((found = true /\ has_video_extension url) /\
              (exists r rest',
                  rest = OCheckCall
                           (ffmpeg_cmd url
                              (audio_path dir (take 8 (uuid_str u)) "m4a")) r
                         :: rest')
              \/ ~ (found = true /\ has_video_extension url) /\
                 (exists hh l r rest', rest = OYdlOpen hh l r :: rest'))).
Proof.
  assert (forall (found : bool) url,
             found && endswith_any (lower url) video_suffixes = true
             <-> found = true /\ has_video_extension url) as Hiff.
  { intros found url. by rewrite andb_true_iff, endswith_any_video. }
  split.
  - intros url s tr rs H. unfold resolve_source in H.
    apply exec_bind in H as (tr1 & r1 & s1 & H & H').
    apply exec_call in H as (found & -> & [= -> ->]).
    destruct H' as (tr2 & H & ->). exists found.
    destruct (found && endswith_any (lower url) video_suffixes) eqn:E;
      apply exec_mret in H as [-> ->]; eexists; (split; [done|]);
      (split; [done|]); cbn [is_local_file]; rewrite <- Hiff, E; done.
  - intros self url dir h d tr res Hd
      [(e & -> & _)|(u & found & rest & -> & H)]%download_and_convert_runs;
      [left; eauto|].
    right. exists u, found, rest. split; [done|].
    cbv zeta in H. rewrite Hd in H.
    destruct (found && endswith_any (lower url) video_suffixes) eqn:E.
    + left. split; [by apply Hiff|].
      destruct H as [(e & -> & _)|(r & trv & rv & sv & -> & _)]; eauto.
    + right. split; [rewrite <- Hiff, E; done|].
      destruct H as (ytr & yr & Hy & H).
      apply fetch_remote_inv in Hy as [_ Hy].
      assert (exists hh l r ytr', ytr = OYdlOpen hh l r :: ytr')
        as (hh & l & r & ytr' & ->).
      { destruct Hy as [(? & -> & _)|[(? & ? & -> & _)|(? & ? & ? & -> & _)]];
          eauto 10. }
      destruct yr as [[title duration]|e]; [|destruct H as [-> _]; eauto 10].
      destruct H as (trl & rl & sl & _ & H). destruct rl as [[]|e].
      * destruct H as (trv & rv & sv & _ & -> & _). cbn [app]. eauto 10.
      * destruct H as [-> _]. cbn [app]. eauto 10.
Qed.

(** C4: the locator tests [audio_<id>.m4a] first and, when it is missing,
    the candidates with the extensions webm, mp4, mp3, wav in this order,
    stopping at the first that exists, which becomes the audio file; when
    none exists it raises the not-found error.  In a run of
    [download_and_convert] whose download reported no error, the calls
    after the download are these tests followed by the probe of the file
    found, or, when no candidate exists, the run ends on the last test
    and fails with the not-found error, wrapped.  The not-found error is
    an [Exception] with the message written out below. *)
Theorem locate_probes_fallbacks :
  let candidates := ["webm"; "mp4"; "mp3"; "wav"] in
  (forall dir uid s tr rs,
      exec (locate_output dir uid s) tr rs ->
      let primary := audio_path dir uid "m4a" in
      (tr = [OPathExists primary true]
       /\ rs.1 = Ok tt /\ st_audio_file rs.2 = primary)
      \/ (exists k ext,
            candidates !! k = Some ext
            /\ tr = OPathExists primary false
                    :: misses dir uid (firstn k candidates)
                    ++ [OPathExists (audio_path dir uid ext) true]
            /\ rs.1 = Ok tt
            /\ st_audio_file rs.2 = audio_path dir uid ext)
      \/ (tr = OPathExists primary false :: misses dir uid candidates
           /\ rs.1 = Err not_found))
  /\ (forall self url dir h tr res u found hh l info code located,
        exec (download_and_convert self url dir h) tr res ->
        tr = setup_trace dir u url found
             ++ [OYdlOpen hh l (Ok tt);
                 OYdlExtractInfo hh l url false (Ok info);
                 OYdlDownload hh l [url] (Ok code);
                 OYdlClose hh l (Ok tt)]
             ++ located ->
        let uid := take 8 (uuid_str u) in
        let primary := audio_path dir uid "m4a" in
        (exists r rest,
            located = OPathExists primary true
                      :: OCheckOutput (probe_cmd primary) r :: rest)
        \/ (exists k ext r rest,
              candidates !! k = Some ext
              /\ located = OPathExists primary false
                           :: misses dir uid (firstn k candidates)
                           ++ OPathExists (audio_path dir uid ext) true
                              :: OCheckOutput
                                   (probe_cmd (audio_path dir uid ext)) r
                              :: rest)
        \/ (located = OPathExists primary false
                      :: misses dir uid candidates
             /\ res.1 = Err (wrap_failure not_found)))
  /\ exn_cls not_found = "Exception"
  /\ exn_str not_found = "未找到下载的音频文件"
  /\ exn_str (wrap_failure not_found) = "视频处理失败: 未找到下载的音频文件"
  /\ exn_context (wrap_failure not_found) = Some not_found.
Proof.
  intros candidates. subst candidates.
  change ["webm"; "mp4"; "mp3"; "wav"] with fallback_exts.
  split; [|split; [|repeat split; reflexivity]].
  - intros dir uid s tr rs H. cbv zeta. destruct rs as [r s'].
    apply locate_output_inv
      in H as [[-> [= -> ->]]|[(k & ext & Hk & -> & [= -> ->])|[-> [= -> ->]]]].
    + by left.
    + right; left. by exists k, ext.
    + by right; right.
  - intros self url dir h tr res u found hh l info code located
      [(e & -> & _)|(u' & found' & rest' & -> & H)]%download_and_convert_runs
      Htr; [done|].
    apply setup_trace_inj in Htr as (-> & -> & ->).
    cbv zeta in H |- *. remember (take 8 (uuid_str u)) as uid eqn:Huid.
    clear Huid. destruct (h !! ydl_opts self) as [[d|]|].
    2,3: by destruct H.
    destruct (found && _).
    { by destruct H as [(? & ? & _)|(? & ? & ? & ? & ? & _)]. }
    destruct H as (ytr & yr & Hy & H).
    apply fetch_remote_inv in Hy as [_ Hy]. cbn [fst] in Hy.
    assert (exists tail, ytr ++ tail
                         = [OYdlOpen hh l (Ok tt);
                            OYdlExtractInfo hh l url false (Ok info);
                            OYdlDownload hh l [url] (Ok code);
                            OYdlClose hh l (Ok tt)] ++ located) as [tail Htail].
    { destruct yr as [[title duration]|e].
      - destruct H as (trl & rl & sl & _ & H). destruct rl as [[]|e].
        + destruct H as (trv & rv & sv & _ & Heq & _). by exists (trl ++ trv).
        + destruct H as [Heq _]. by exists trl.
      - destruct H as [Heq _]. exists []. by rewrite app_nil_r. }
    destruct Hy as [(e & -> & _)|[(e & rc & -> & _)|(info' & rd & rc & -> & Hyr)]];
      try discriminate Htail.
    cbn [app st_heap] in Htail. simplify_eq.
    cbn [fetch_outcome] in H.
    destruct H as (trl & rl & sl & Hl & H).
    apply locate_output_inv
      in Hl as [[-> [= -> ->]]|[(k & ext & Hk & -> & [= -> ->])|[-> [= -> ->]]]].
    + destruct H as (trv & rv & sv & Hv & Heq & _).
      apply validate_inv in Hv as (r & rest & -> & _).
      injection Heq as ->. left. eauto.
    + destruct H as (trv & rv & sv & Hv & Heq & _).
      apply validate_inv in Hv as (r & rest & -> & _).
      injection Heq as ->. right; left. exists k, ext, r, rest.
      split; [done|]. cbn [app st_audio_file]. by rewrite <- app_assoc.
    + destruct H as [Heq ->]. injection Heq as ->. by right; right.
Qed.

(** The runs of [get_video_info]: the trace and the outcome of each. *)
Lemma get_video_info_runs self url h tr res h' :
  exec (get_video_info self url h) tr (res, h') ->
  let l := fresh (dom h) in
  let hh := <[l := ODict {[ "quiet" := Plain (VBool true) ]}]> h in
  List.filter is_download tr = []
  /\ ((exists e,
         tr = [OYdlOpen hh l (Err e)] /\ res = Err (wrap_info_failure e))
      \/ (exists e closed,
            tr = [OYdlOpen hh l (Ok tt);
                  OYdlExtractInfo hh l url false (Err e);
                  OYdlClose hh l closed]
            /\ res = Err (wrap_info_failure
                            match closed with
                            | Ok _ => e
                            | Err e' => with_context e' e
                            end))
      \/ (exists info closed,
            tr = [OYdlOpen hh l (Ok tt);
                  OYdlExtractInfo hh l url false (Ok info);
                  OYdlClose hh l closed] /\
            match closed with
            | Err e' => res = Err (wrap_info_failure e')
            | Ok _ =>
                exists record : info_dict,
                  res = Ok record
                  /\ dom record
                     = {[ "title"; "duration"; "uploader"; "upload_date";
                          "description"; "view_count" ]}
                  /\ record !! "title"
                     = Some (dict_get_default info "title" (VStr ""))
                  /\ record !! "duration"
                     = Some (dict_get_default info "duration" (VNum 0))
                  /\ record !! "uploader"
                     = Some (dict_get_default info "uploader" (VStr ""))
                  /\ record !! "upload_date"
                     = Some (dict_get_default info "upload_date" (VStr ""))
                  /\ record !! "description"
                     = Some (dict_get_default info "description" (VStr ""))
                  /\ record !! "view_count"
                     = Some (dict_get_default info "view_count" (VNum 0))
            end)).
Proof.
  unfold get_video_info, get_video_info_body, with_ydl.
  intros (trb & [rb sb] & tr3 & H & [-> [= -> ->]] & ->)%exec_prog_bind.
  rewrite app_nil_r. cbv zeta. exec_inv.
  all: repeat match goal with
         | x : result () |- _ => destruct x as [[]|?]
         end; exec_inv.
  all: split; [done|].
  - right; right. eexists _, (Ok tt). split; [done|].
    eexists. split; [done|].
    split; [rewrite !dom_insert_L, dom_singleton_L; set_solver|].
    repeat split; by simplify_map_eq.
  - right; right. eexists _, (Err _). split; [done|]. done.
  - right; left. by eexists _, (Ok tt).
  - right; left. by eexists _, (Err _).
  - left. eauto.
Qed.

(** C10: [get_video_info] constructs a [YoutubeDL] object with the option
    [quiet] only, asks it for the metadata of the reference with
    [download=False], and never calls [download].  When this succeeds it
    returns a record with exactly the keys title, duration, uploader,
    upload_date, description and view_count, each with the value found in
    the metadata or, when it is missing, the empty string (zero for the
    duration and the view count).  When the construction, the extraction
    or the release fails, what is raised is an [Exception] whose message
    is the summary prefix followed by the text of the failure, with the
    failure as its context. *)
Theorem get_video_info_record self url h tr res h' :
  exec (get_video_info self url h) tr (res, h') ->
  let l := fresh (dom h) in
  let hh := <[l := ODict {[ "quiet" := Plain (VBool true) ]}]> h in
  let wrapped (cause : exn) :=
    exists w,
      res = Err w
      /\ exn_cls w = "Exception"
      /\ exn_str w = "获取视频信息失败: " +:+ exn_str cause
      /\ exn_context w = Some cause in
  List.filter is_download tr = []
  /\ ((exists e, tr = [OYdlOpen hh l (Err e)] /\ wrapped e)
      \/ (exists e closed,
            tr = [OYdlOpen hh l (Ok tt);
                  OYdlExtractInfo hh l url false (Err e);
                  OYdlClose hh l closed]
            /\ wrapped match closed with
                       | Ok _ => e
                       | Err e' => with_context e' e
                       end)
      \/ (exists info closed,
            tr = [OYdlOpen hh l (Ok tt);
                  OYdlExtractInfo hh l url false (Ok info);
                  OYdlClose hh l closed] /\
            match closed with
            | Err e' => wrapped e'
            | Ok _ =>
                exists record : info_dict,
                  res = Ok record
                  /\ dom record
                     = {[ "title"; "duration"; "uploader"; "upload_date";
                          "description"; "view_count" ]}
                  /\ record !! "title"
                     = Some (dict_get_default info "title" (VStr ""))
                  /\ record !! "duration"
                     = Some (dict_get_default info "duration" (VNum 0))
                  /\ record !! "uploader"
                     = Some (dict_get_default info "uploader" (VStr ""))
                  /\ record !! "upload_date"
                     = Some (dict_get_default info "upload_date" (VStr ""))
                  /\ record !! "description"
                     = Some (dict_get_default info "description" (VStr ""))
                  /\ record !! "view_count"
                     = Some (dict_get_default info "view_count" (VNum 0))
            end)).
Proof.
  intros Hrun l hh wrapped.
  assert (forall cause, res = Err (wrap_info_failure cause) -> wrapped cause)
    as Hw.
  { intros cause ->. exists (wrap_info_failure cause).
    repeat split; reflexivity. }
  apply get_video_info_runs in Hrun as [Hno Hrun]. cbv zeta in Hrun.
  split; [exact Hno|].
  destruct Hrun as [(e & Htr & Hres)
                   |[(e & closed & Htr & Hres)|(info & closed & Htr & Hres)]].
  - left. exists e. split; [exact Htr|]. by apply Hw.
  - right; left. exists e, closed. split; [exact Htr|]. by apply Hw.
  - right; right. exists info, closed. split; [exact Htr|].
    destruct closed as [[]|e']; [exact Hres|]. by apply Hw.
Qed.

End Whole.

(** ** The statements on concrete runs *)

Lemma play_exec {R : Type} (w : world) (p : prog R) :
  exec p (play w p).1 (play w p).2.
Proof. apply run_exec. Qed.

(** A run of [p] with the given trace and outcome, by playing it in [w]. *)
Ltac by_play w :=
  match goal with
  | |- exec ?p ?tr ?r =>
      replace tr with ((play w p).1) by (vm_compute; reflexivity);
      replace r with ((play w p).2) by (vm_compute; reflexivity);
      apply play_exec
  end.

(** Witness for C1: a remote video of 12 seconds whose download lasts 10 seconds. *)
Lemma repair_on_mismatch_witness :
  let tr1 := (acquisition remote_world the_url).1 in
  let s1 := (acquisition remote_world the_url).2.2 in
  let a := remote_acquired "12345678" (VStr "T") (VNum 12) in
  let found := "out/audio_12345678.m4a" in
  let fixed := "out/audio_12345678_fixed.m4a" in
  let r := Ok "10.000000" in
  let rest := [OCheckCall (fix_cmd found fixed) (Ok tt);
               OCheckOutput (probe_cmd found) (Ok "10.000000")] in
  (convert remote_world the_url).1
  = tr1 ++ OCheckOutput (probe_cmd found) r :: rest
  /\ exists attempt reprobe,
       rest = OCheckCall (fix_cmd found fixed) attempt :: reprobe
       /\ length (List.filter is_check_call rest) = 1%nat
       /\ match attempt with
          | Ok _ =>
              (convert remote_world the_url).2.1 = Ok (fixed, VStr "T")
              /\ endswith fixed "_fixed.m4a" = true
          | Err _ =>
              reprobe = []
              /\ (convert remote_world the_url).2.1 = Ok (found, VStr "T")
          end.
Proof.
  intros tr1 s1 a found fixed r rest.
  split; [vm_compute; reflexivity|].
  apply (repair_on_mismatch ascii_decode_strip decimal_float
           the_processor the_url "out" the_heap tr1 a s1 r rest
           (convert remote_world the_url).2 12%float).
  - by_play remote_world.
  - by_play remote_world.
  - reflexivity.
  - vm_compute; reflexivity.
  - vm_compute; reflexivity.
  - vm_compute; reflexivity.
Defined.

(** Witness for C2: a remote video of 12 seconds whose download lasts 12.5 seconds. *)
Lemma no_repair_within_tolerance_witness :
  let tr1 := (acquisition close_enough_world the_url).1 in
  let s1 := (acquisition close_enough_world the_url).2.2 in
  let a := remote_acquired "12345678" (VStr "T") (VNum 12) in
  let found := "out/audio_12345678.m4a" in
  let r := Ok "12.500000" in
  (convert close_enough_world the_url).1
  = tr1 ++ [OCheckOutput (probe_cmd found) r]
  /\ PrimFloat.leb
       (relative_difference 12 (duration_of ascii_decode_strip decimal_float r))
       tolerance = true
  /\ @nil obs = []
  /\ (convert close_enough_world the_url).2.1 = Ok (found, VStr "T")
  /\ endswith found "_fixed.m4a" = false.
Proof.
  intros tr1 s1 a found r.
  split; [vm_compute; reflexivity|].
  split; [vm_compute; reflexivity|].
  apply (no_repair_within_tolerance ascii_decode_strip decimal_float
           the_processor the_url "out" the_heap tr1 a s1 r []
           (convert close_enough_world the_url).2).
  - by_play close_enough_world.
  - by_play close_enough_world.
  - right; right. exists 12%float. split; vm_compute; reflexivity.
Defined.

(** Witness for C3: the local file [/tmp/clip.mp4] and a remote reference. *)
Lemma local_iff_exists_and_extension_witness :
  (exists found src,
      (play local_world (resolve_source the_file (State the_heap ""))).1
      = [OPathExists the_file found]
      /\ (play local_world (resolve_source the_file (State the_heap ""))).2
         = (Ok src, State the_heap "")
      /\ (is_local_file src = true
          <-> found = true /\ has_video_extension the_file))
  /\ ((exists e, (convert remote_world the_url).1 = [OMkdir "out" (Err e)])
      \/ exists u found rest,
           (convert remote_world the_url).1
           = setup_trace "out" u the_url found ++ rest /\
           ((found = true /\ has_video_extension the_url) /\
            (exists r rest',
                rest = OCheckCall
                         (ffmpeg_cmd the_url
                            (audio_path "out" (take 8 (uuid_str u)) "m4a")) r
                       :: rest')
            \/ ~ (found = true /\ has_video_extension the_url) /\
               (exists hh l r rest', rest = OYdlOpen hh l r :: rest'))).
Proof.
  destruct (local_iff_exists_and_extension ascii_decode_strip decimal_float)
    as [Hphase Hwhole].
  split.
  - apply Hphase. apply play_exec.
  - apply (Hwhole the_processor the_url "out" the_heap the_options
             (convert remote_world the_url).1 (convert remote_world the_url).2).
    + vm_compute; reflexivity.
    + apply play_exec.
Defined.

(** Witness for C4: a download that leaves a [.webm] file only, and one
    that leaves no file. *)
Lemma locate_probes_fallbacks_witness :
  let candidates := ["webm"; "mp4"; "mp3"; "wav"] in
  let uid := "12345678" in
  let primary := "out/audio_12345678.m4a" in
  let webm := "out/audio_12345678.webm" in
  let run := play webm_world (locate_output "out" uid (State the_heap "")) in
  let tr := (convert webm_world the_url).1 in
  let located := skipn 7 tr in
  (run.1 = [OPathExists primary false; OPathExists webm true]
   /\ run.2.1 = Ok tt
   /\ st_audio_file run.2.2 = webm)
  /\ firstn 3 located
     = [OPathExists primary false; OPathExists webm true;
        OCheckOutput (probe_cmd webm) (Ok "10.000000")]
  /\ skipn 7 (convert no_file_world the_url).1
     = [OPathExists primary false;
        OPathExists webm false;
        OPathExists "out/audio_12345678.mp4" false;
        OPathExists "out/audio_12345678.mp3" false;
        OPathExists "out/audio_12345678.wav" false]
  /\ (convert no_file_world the_url).2.1
     = Err (Exn "Exception" "视频处理失败: 未找到下载的音频文件"
              (Some (Exn "Exception" "未找到下载的音频文件" None)))
  /\ ((run.1 = [OPathExists primary true]
       /\ run.2.1 = Ok tt /\ st_audio_file run.2.2 = primary)
      \/ (exists k ext,
            candidates !! k = Some ext
            /\ run.1 = OPathExists primary false
                       :: misses "out" uid (firstn k candidates)
                       ++ [OPathExists (audio_path "out" uid ext) true]
            /\ run.2.1 = Ok tt
            /\ st_audio_file run.2.2 = audio_path "out" uid ext)
      \/ (run.1 = OPathExists primary false :: misses "out" uid candidates
          /\ run.2.1 = Err not_found))
  /\ ((exists r rest,
          located = OPathExists primary true
                    :: OCheckOutput (probe_cmd primary) r :: rest)
      \/ (exists k ext r rest,
            candidates !! k = Some ext
            /\ located = OPathExists primary false
                         :: misses "out" uid (firstn k candidates)
                         ++ OPathExists (audio_path "out" uid ext) true
                            :: OCheckOutput
                                 (probe_cmd (audio_path "out" uid ext)) r
                            :: rest)
      \/ (located = OPathExists primary false
                    :: misses "out" uid candidates
          /\ (convert webm_world the_url).2.1
             = Err (wrap_failure not_found))).
Proof.
  intros candidates uid primary webm run tr located.
  destruct (locate_probes_fallbacks ascii_decode_strip decimal_float)
    as (Hphase & Hwhole & _).
  split; [repeat split; vm_compute; reflexivity|].
  split; [vm_compute; reflexivity|].
  split; [vm_compute; reflexivity|].
  split; [vm_compute; reflexivity|].
  split.
  - apply (Hphase "out" uid (State the_heap "") run.1 run.2).
    apply play_exec.
  - apply (Hwhole the_processor the_url "out" the_heap tr
             (convert webm_world the_url).2
             (on_uuid4 webm_world) false
             (call_heap the_heap the_options "out" uid)
             (fresh (dom the_heap))
             {[ "title" := VStr "T"; "duration" := VNum 12 ]} 0 located).
    + apply play_exec.
    + vm_compute; reflexivity.
Defined.

(** Witness for C5 (amended): a metadata extraction that runs out of memory. *)
Lemma failure_is_wrapped_witness :
  (convert no_metadata_world the_url).2.1 = Err (wrap_failure out_of_memory)
  /\ exists cause,
       wrap_failure out_of_memory = wrap_failure cause
       /\ exn_cls (wrap_failure out_of_memory) = "Exception"
       /\ exn_str (wrap_failure out_of_memory)
          = "视频处理失败: " +:+ exn_str cause
       /\ exn_context (wrap_failure out_of_memory) = Some cause.
Proof.
  split; [vm_compute; reflexivity|].
  apply (failure_is_wrapped ascii_decode_strip decimal_float
           the_processor the_url "out" the_heap
           (convert no_metadata_world the_url).1 (wrap_failure out_of_memory)
           (convert no_metadata_world the_url).2.2).
  by_play no_metadata_world.
Defined.

(** Witness for C6: a download after which [ffprobe] exits with status 1. *)
Lemma probe_failure_not_propagated_witness :
  let cmd := probe_cmd "out/audio_12345678.m4a" in
  let failure := Err (called_process_error cmd) in
  let run := play no_probe_world
               (probe_duration ascii_decode_strip decimal_float cmd
                  (State the_heap "")) in
  (exists r,
      run.1 = [OCheckOutput cmd r]
      /\ run.2
         = (Ok (duration_of ascii_decode_strip decimal_float r),
            State the_heap "")
      /\ (probe_failed ascii_decode_strip decimal_float r ->
          duration_of ascii_decode_strip decimal_float r = 0%float))
  /\ In (OCheckOutput cmd failure) (convert no_probe_world the_url).1
  /\ probe_failed ascii_decode_strip decimal_float failure
  /\ exists path title,
       (convert no_probe_world the_url).2.1 = Ok (path, title).
Proof.
  intros cmd failure run.
  destruct (probe_failure_not_propagated ascii_decode_strip decimal_float)
    as [Hphase Hwhole].
  assert (In (OCheckOutput cmd failure) (convert no_probe_world the_url).1)
    as Hin.
  { apply list_elem_of_In, (list_elem_of_lookup_2 _ 8%nat).
    vm_compute; reflexivity. }
  split; [apply Hphase, play_exec|].
  split; [exact Hin|]. split; [exact I|].
  apply (Hwhole the_processor the_url "out" the_heap
           (convert no_probe_world the_url).1
           (convert no_probe_world the_url).2 cmd failure).
  - apply play_exec.
  - exact Hin.
  - exact I.
Defined.

(** Witness for C7: the local file [/tmp/clip.mp4]. *)
Lemma local_title_is_basename_witness :
  (convert local_world the_file).2.1
  = Ok ("out/audio_12345678.m4a", VStr "clip.mp4")
  /\ List.filter is_ydl (convert local_world the_file).1 = []
  /\ forall path title,
       (convert local_world the_file).2.1 = Ok (path, title) ->
       title = VStr (basename the_file)
       /\ forall d name,
            the_file = d +:+ "/" +:+ name -> contains "/" name = false ->
            title = VStr name.
Proof.
  split; [vm_compute; reflexivity|].
  apply (local_title_is_basename ascii_decode_strip decimal_float
           the_processor the_file "out" the_heap
           (convert local_world the_file).1 (convert local_world the_file).2
           (on_uuid4 local_world) (skipn 3 (convert local_world the_file).1)).
  - apply play_exec.
  - vm_compute; reflexivity.
  - vm_compute; reflexivity.
Defined.


(** Witness for C9: a remote reference, with the options [__init__] sets. *)
Lemma defaults_not_mutated_witness :
  let tr := (convert remote_world the_url).1 in
  let h' := (convert remote_world the_url).2.2 in
  (forall l o, the_heap !! l = Some o -> h' !! l = Some o)
  /\ (forall hh l r, In (OYdlOpen hh l r) tr ->
        the_heap !! l = None
        /\ exists d template,
             the_heap !! ydl_opts the_processor = Some (ODict d)
             /\ hh !! l
                = Some (ODict (<["outtmpl" := Plain (VStr template)]> d))).
Proof.
  intros tr h'.
  apply (defaults_not_mutated ascii_decode_strip decimal_float
           the_processor the_url "out" the_heap tr
           (convert remote_world the_url).2.1 h').
  by_play remote_world.
Defined.

(** Witness for C10: metadata that hold a title and a duration only, and a
    metadata extraction that runs out of memory. *)
Lemma get_video_info_record_witness :
  let l := fresh (dom the_heap) in
  let hh := <[l := ODict {[ "quiet" := Plain (VBool true) ]}]> the_heap in
  let outcome (tr : list obs) (res : result info_dict) :=
    let wrapped (cause : exn) :=
      exists w,
        res = Err w
        /\ exn_cls w = "Exception"
        /\ exn_str w = "获取视频信息失败: " +:+ exn_str cause
        /\ exn_context w = Some cause in
    List.filter is_download tr = []
    /\ ((exists e, tr = [OYdlOpen hh l (Err e)] /\ wrapped e)
        \/ (exists e closed,
              tr = [OYdlOpen hh l (Ok tt);
                    OYdlExtractInfo hh l the_url false (Err e);
                    OYdlClose hh l closed]
              /\ wrapped match closed with
                         | Ok _ => e
                         | Err e' => with_context e' e
                         end)
        \/ (exists info closed,
              tr = [OYdlOpen hh l (Ok tt);
                    OYdlExtractInfo hh l the_url false (Ok info);
                    OYdlClose hh l closed] /\
              match closed with
              | Err e' => wrapped e'
              | Ok _ =>
                  exists record : info_dict,
                    res = Ok record
                    /\ dom record
                       = {[ "title"; "duration"; "uploader"; "upload_date";
                            "description"; "view_count" ]}
                    /\ record !! "title"
                       = Some (dict_get_default info "title" (VStr ""))
                    /\ record !! "duration"
                       = Some (dict_get_default info "duration" (VNum 0))
                    /\ record !! "uploader"
                       = Some (dict_get_default info "uploader" (VStr ""))
                    /\ record !! "upload_date"
                       = Some (dict_get_default info "upload_date" (VStr ""))
                    /\ record !! "description"
                       = Some (dict_get_default info "description" (VStr ""))
                    /\ record !! "view_count"
                       = Some (dict_get_default info "view_count" (VNum 0))
              end)) in
  (lookup_info remote_world the_url).2.1
  = Ok ({[ "title" := VStr "T"; "duration" := VNum 12;
           "uploader" := VStr ""; "upload_date" := VStr "";
           "description" := VStr ""; "view_count" := VNum 0 ]}
        : info_dict)
  /\ (lookup_info no_metadata_world the_url).1
     = [OYdlOpen hh l (Ok tt);
        OYdlExtractInfo hh l the_url false (Err out_of_memory);
        OYdlClose hh l (Ok tt)]
  /\ (lookup_info no_metadata_world the_url).2.1
     = Err (Exn "Exception"
              "获取视频信息失败: [Errno 12] Cannot allocate memory"
              (Some out_of_memory))
  /\ outcome (lookup_info remote_world the_url).1
             (lookup_info remote_world the_url).2.1
  /\ outcome (lookup_info no_metadata_world the_url).1
             (lookup_info no_metadata_world the_url).2.1.
Proof.
  intros l hh outcome.
  split; [vm_compute; reflexivity|].
  split; [vm_compute; reflexivity|].
  split; [vm_compute; reflexivity|].
  split.
  - apply (get_video_info_record the_processor the_url the_heap
             (lookup_info remote_world the_url).1
             (lookup_info remote_world the_url).2.1
             (lookup_info remote_world the_url).2.2).
    by_play remote_world.
  - apply (get_video_info_record the_processor the_url the_heap
             (lookup_info no_metadata_world the_url).1
             (lookup_info no_metadata_world the_url).2.1
             (lookup_info no_metadata_world the_url).2.2).
    by_play no_metadata_world.
Defined.

(** C5, as the specification has it, does not hold: a run that fails while
    acquiring a remote source and a run that fails while extracting from a
    local file hand the caller the same exception, with the same message,
    so that the message does not tell the phase. *)
Lemma same_message_in_two_phases :
  failing_phase (convert no_metadata_world the_url).1 = Some Acquisition
  /\ failing_phase (convert local_failure_world the_file).1
     = Some LocalExtraction
  /\ (convert no_metadata_world the_url).2.1
     = Err (wrap_failure out_of_memory)
  /\ (convert local_failure_world the_file).2.1
     = Err (wrap_failure out_of_memory)
  /\ exn_str (wrap_failure out_of_memory)
     = "视频处理失败: [Errno 12] Cannot allocate memory".
Proof. repeat split; vm_compute; reflexivity. Qed.


(** * Further properties of the code *)

(** ** More on strings and paths *)

Lemma str_app_inv_head (p a b : string) : p +:+ a = p +:+ b -> a = b.
Proof.
  induction p as [|c p IH]; [done|].
  rewrite !str_app_cons. intros [= H]. by apply IH.
Qed.

Lemma prefix_drop (p s : string) :
  String.prefix p s = true -> s = p +:+ drop (String.length p) s.
Proof.
  revert s; induction p as [|c p IH]; intros s; [done|].
  destruct s as [|d s]; [done|]. cbn [String.prefix String.length drop].
  destruct (ascii_dec c d) as [->|]; [|done].
  intros H. rewrite str_app_cons. f_equal. by apply IH.
Qed.

(** Replacing a string by itself changes nothing. *)
Lemma replace_go_same (old s : string) (k : nat) :
  old <> "" -> replace_go old old s k = drop k s.
Proof.
  intros Hold. revert k; induction s as [|c s IH]; intros k.
  - by destruct k.
  - cbn [replace_go]. destruct k as [|k]; [|apply IH].
    destruct (String.prefix old (String c s)) eqn:Hp.
    + rewrite IH. apply prefix_drop in Hp.
      destruct old as [|c' old]; [done|].
      cbn [String.length drop Nat.sub] in *. rewrite ?Nat.sub_0_r.
      rewrite str_app_cons in Hp. injection Hp as -> Hp.
      rewrite str_app_cons. cbn [drop]. by f_equal.
    + rewrite IH. done.
Qed.

Lemma replace_same (old s : string) : old <> "" -> replace old old s = s.
Proof.
  intros Hold. destruct old as [|c old]; [done|].
  unfold replace. by rewrite replace_go_same.
Qed.

Lemma shlex_quote_nonempty (s : string) : shlex_quote s <> "".
Proof.
  unfold shlex_quote. destruct s as [|c s]; [done|].
  by destruct (all_safe (String c s)).
Qed.

Lemma path_join_inj (dir a b : string) :
  path_join dir a = path_join dir b -> a = b.
Proof.
  unfold path_join.
  destruct (String.eqb dir "."); [done|].
  destruct (endswith dir "/").
  - apply str_app_inv_head.
  - intros H%str_app_inv_head. by apply (str_app_inv_head "/").
Qed.

Lemma endswith_same_length (s x y : string) :
  endswith s x = true -> endswith s y = true ->
  String.length x = String.length y -> x = y.
Proof.
  unfold endswith. intros [_ Hx%String.eqb_eq]%andb_true_iff
                          [_ Hy%String.eqb_eq]%andb_true_iff Hl.
  rewrite <- Hx, <- Hy. by rewrite Hl.
Qed.

Lemma rsplit1_head_app (c : ascii) (s t : string) :
  contains c t = false -> rsplit1_head c (s +:+ String c t) = s.
Proof.
  intros Ht. unfold rsplit1_head. rewrite (rfind_last _ _ _ Ht).
  destruct (Z.ltb_spec (Z.of_nat (String.length s)) 0) as [|_]; [lia|].
  rewrite Nat2Z.id. apply take_app_length.
Qed.

(** The name the probe after a repair is given to replace is the name of
    the repaired file itself. *)
Lemma rsplit1_head_fixed (dir uid : string) :
  rsplit1_head "." (fixed_audio_path dir uid) +:+ ".m4a"
  = fixed_audio_path dir uid.
Proof.
  unfold fixed_audio_path.
  destruct (path_join_suffix dir ("audio_" +:+ uid +:+ "_fixed.m4a"))
    as [p ->].
  change "_fixed.m4a" with ("_fixed" +:+ String "." "m4a").
  rewrite <- !str_app_assoc.
  rewrite rsplit1_head_app by done.
  by rewrite !str_app_assoc.
Qed.

Lemma reprobe_cmd_same (dir uid cmd : string) :
  reprobe_cmd (fixed_audio_path dir uid) cmd = cmd.
Proof.
  unfold reprobe_cmd. rewrite rsplit1_head_fixed.
  apply replace_same, shlex_quote_nonempty.
Qed.

Lemma audio_path_endswith (dir uid ext : string) :
  endswith (audio_path dir uid ext) ("." +:+ ext) = true.
Proof.
  unfold audio_path.
  destruct (path_join_suffix dir ("audio_" +:+ uid +:+ "." +:+ ext))
    as [p ->].
  apply endswith_spec. exists (p +:+ "audio_" +:+ uid).
  by rewrite !str_app_assoc.
Qed.

(** A path taken for a local video is not the file its audio goes to. *)
Lemma local_input_is_not_output (url dir uid : string) :
  endswith_any (lower url) video_suffixes = true ->
  url <> audio_path dir uid "m4a".
Proof.
  intros Hv ->.
  pose proof (audio_path_endswith dir uid "m4a") as [p Hp]%endswith_spec.
  rewrite Hp, lower_app in Hv.
  assert (endswith (lower p +:+ lower ("." +:+ "m4a")) ".m4a" = true) as Hm
    by (apply endswith_spec; by eexists).
  unfold endswith_any, video_suffixes in Hv. cbn [existsb] in Hv.
  repeat (apply orb_true_iff in Hv as [Hv|Hv]); try done.
  all: by pose proof (endswith_same_length _ _ _ Hv Hm eq_refl).
Qed.

(** The repaired file is not the file it is made from. *)
Lemma repair_input_is_not_output (dir uid ext : string) :
  String.length uid = 8%nat -> contains "_" uid = false ->
  In ext ("m4a" :: fallback_exts) ->
  audio_path dir uid ext <> fixed_audio_path dir uid.
Proof.
  intros Hl Hu He Heq.
  pose proof (audio_path_not_fixed dir uid ext Hl Hu He) as Hn.
  by rewrite Heq, fixed_audio_path_endswith in Hn.
Qed.

(** ** Outcomes of the validation and of the whole method *)

Section Validation.
Variable decode_strip : string -> result string.
Variable py_float : string -> result float.

#[local] Abbreviation validate := (validate decode_strip py_float).
#[local] Abbreviation download_and_convert :=
  (download_and_convert decode_strip py_float).
#[local] Abbreviation duration_of := (duration_of decode_strip py_float).
#[local] Abbreviation local_acquired :=
  (local_acquired decode_strip py_float).

(** The four ways the validation can go.  The probe after a repair runs
    the command of the first probe again. *)
Lemma validate_outcomes dir a s tr rs :
  exec (validate dir a s) tr rs ->
  let file := st_audio_file s in
  let fixed := fixed_audio_path dir (unique_id a) in
  exists r,
    (tr = [OCheckOutput (probe_cmd file) r]
     /\ rs = (Ok (file, video_title a), s)
     /\ durations_agree (expected_duration a) (duration_of r))
    \/ (tr = [OCheckOutput (probe_cmd file) r]
        /\ rs = (Err type_error, s)
        /\ truthy (expected_duration a) = true
        /\ PrimFloat.eqb (duration_of r) 0 = false
        /\ as_number (expected_duration a) = None)
    \/ (exists e,
          tr = [OCheckOutput (probe_cmd file) r;
                OCheckCall (fix_cmd file fixed) (Err e)]
          /\ rs = (Ok (file, video_title a), s)
          /\ durations_differ (expected_duration a) (duration_of r))
    \/ (exists r2,
          tr = [OCheckOutput (probe_cmd file) r;
                OCheckCall (fix_cmd file fixed) (Ok tt);
                OCheckOutput (probe_cmd file) r2]
          /\ rs = (Ok (fixed, video_title a), State (st_heap s) fixed)
          /\ durations_differ (expected_duration a) (duration_of r)).
Proof.
  intros (r & rest & -> & Hv)%validate_inv. cbv zeta in *.
  rewrite reprobe_cmd_same in Hv. exists r.
  unfold durations_agree, durations_differ.
  destruct (truthy (expected_duration a)) eqn:He;
    [|destruct Hv as [-> ->]; by eauto 10].
  cbn [truthy] in Hv.
  destruct (PrimFloat.eqb (duration_of r) 0) eqn:Ha; cbn [negb] in Hv;
    [destruct Hv as [-> ->]; by eauto 10|].
  destruct (as_number (expected_duration a)) as [d|] eqn:Hd;
    [|destruct Hv as [-> ->]; by eauto 10].
  destruct (exceeds_tolerance d (duration_of r)) eqn:Hx;
    [|destruct Hv as [-> ->]; left; eauto 10].
  destruct Hv as [(e & -> & ->)|(r2 & -> & ->)].
  - right; right; left. eauto 10.
  - right; right; right. eauto 10.
Qed.

End Validation.

Lemma Forall_In {A : Type} (P : A -> Prop) (l : list A) (x : A) :
  Forall P l -> In x l -> P x.
Proof. intros H Hx%list_elem_of_In. by apply (proj1 (Forall_forall _ _) H). Qed.

Lemma extract_info_answer h l u d r h' l' u' d' r' :
  OYdlExtractInfo h l u d r = OYdlExtractInfo h' l' u' d' r' -> r = r'.
Proof. by intros [= _ _ _ _ ?]. Qed.

Lemma check_call_cmd c r c' r' : OCheckCall c r = OCheckCall c' r' -> c' = c.
Proof. by intros [= -> _]. Qed.

Lemma download_answer h l us r h' l' us' r' :
  OYdlDownload h l us r = OYdlDownload h' l' us' r' ->
  h' = h /\ l' = l /\ us' = us /\ r' = r.
Proof. by intros [= -> -> -> ->]. Qed.

Lemma check_output_answer c r c' r' :
  OCheckOutput c r = OCheckOutput c' r' -> r' = r.
Proof. by intros [= _ ->]. Qed.

Lemma open_answer h l r h' l' r' :
  OYdlOpen h l r = OYdlOpen h' l' r' -> h' = h /\ l' = l /\ r' = r.
Proof. by intros [= -> -> ->]. Qed.

(** Membership in a trace given by its parts. *)
Ltac in_trace H :=
  repeat (progress (rewrite ?in_app_iff in H; cbn [In setup_trace] in H));
  repeat match type of H with _ \/ _ => destruct H as [H|H] end;
  try discriminate H; try contradiction.

(** ** The constructor *)

(** [__init__] puts four new objects on the heap. *)
Lemma init_spec (s : state) :
  exists pp lp la lo,
    init s = Ret (Ok {| ydl_opts := lo |},
                  State (init_heap (st_heap s) pp lp la lo) (st_audio_file s))
    /\ st_heap s !! pp = None /\ st_heap s !! lp = None
    /\ st_heap s !! la = None /\ st_heap s !! lo = None
    /\ pp <> lp /\ pp <> la /\ pp <> lo /\ lp <> la /\ lp <> lo /\ la <> lo.
Proof.
  destruct s as [h file].
  set (pp := fresh (dom h)).
  set (h1 := <[pp := ODict extract_audio]> h).
  set (lp := fresh (dom h1)).
  set (h2 := <[lp := OList [Ref pp]]> h1).
  set (la := fresh (dom h2)).
  set (h3 := <[la := OList ffmpeg_args]> h2).
  set (lo := fresh (dom h3)).
  exists pp, lp, la, lo. split; [reflexivity|].
  assert (h !! pp = None) as Hpp by apply not_elem_of_dom, is_fresh.
  assert (h1 !! lp = None) as Hlp by apply not_elem_of_dom, is_fresh.
  assert (h2 !! la = None) as Hla by apply not_elem_of_dom, is_fresh.
  assert (h3 !! lo = None) as Hlo by apply not_elem_of_dom, is_fresh.
  subst h3. apply lookup_insert_None in Hlo as [Hlo ?].
  subst h2. apply lookup_insert_None in Hlo as [Hlo ?].
  apply lookup_insert_None in Hla as [Hla ?].
  subst h1. apply lookup_insert_None in Hlo as [Hlo ?].
  apply lookup_insert_None in Hla as [Hla ?].
  apply lookup_insert_None in Hlp as [Hlp ?].
  cbn [st_heap]. repeat split; done.
Qed.

Lemma init_heap_old h pp lp la lo l o :
  h !! pp = None -> h !! lp = None -> h !! la = None -> h !! lo = None ->
  h !! l = Some o -> init_heap h pp lp la lo !! l = Some o.
Proof.
  intros Hpp Hlp Hla Hlo Hl. unfold init_heap.
  rewrite !lookup_insert_ne; [done|intros <-; congruence..].
Qed.

Lemma init_heap_new h pp lp la lo :
  pp <> lp -> pp <> la -> pp <> lo -> lp <> la -> lp <> lo -> la <> lo ->
  let h' := init_heap h pp lp la lo in
  h' !! lo = Some (ODict (default_options lp la))
  /\ h' !! lp = Some (OList [Ref pp])
  /\ h' !! pp = Some (ODict extract_audio)
  /\ h' !! la = Some (OList ffmpeg_args).
Proof.
  intros ?????? h'. subst h'. unfold init_heap.
  repeat split;
    repeat first [rewrite lookup_insert_eq
                 |rewrite lookup_insert_ne by congruence];
    reflexivity.
Qed.

(** X1: every instance has option objects of its own: the dictionary and
    the two lists a second [__init__] makes are not those of the first
    instance, whose objects it leaves as they are. *)
Theorem instances_do_not_share_options s p1 s1 p2 s2 :
  init s = Ret (Ok p1, s1) ->
  init s1 = Ret (Ok p2, s2) ->
  ydl_opts p1 <> ydl_opts p2
  /\ (forall l o, st_heap s1 !! l = Some o -> st_heap s2 !! l = Some o)
  /\ exists lp1 la1 lp2 la2,
       st_heap s2 !! ydl_opts p1 = Some (ODict (default_options lp1 la1))
       /\ st_heap s2 !! ydl_opts p2 = Some (ODict (default_options lp2 la2))
       /\ lp1 <> lp2 /\ la1 <> la2.
Proof.
  intros H1 H2.
  destruct (init_spec s) as (pp & lp & la & lo & E1 & F1 & F2 & F3 & F4 & D1).
  rewrite E1 in H1. injection H1 as <- <-.
  destruct (init_heap_new (st_heap s) pp lp la lo) as (N1 & N2 & N3 & N4);
    [tauto..|].
  set (s1 := State (init_heap (st_heap s) pp lp la lo) (st_audio_file s)) in *.
  destruct (init_spec s1)
    as (pp' & lp' & la' & lo' & E2 & G1 & G2 & G3 & G4 & D2).
  rewrite E2 in H2. injection H2 as <- <-.
  cbn [st_heap ydl_opts s1] in *.
  assert (forall l o, init_heap (st_heap s) pp lp la lo !! l = Some o ->
            init_heap (init_heap (st_heap s) pp lp la lo) pp' lp' la' lo' !! l
            = Some o) as Hold by (intros; by apply init_heap_old).
  split; [intros ->; congruence|]. split; [exact Hold|].
  exists lp, la, lp', la'. split; [by apply Hold|].
  split; [by apply init_heap_new; tauto|].
  split; intros ->; congruence.
Qed.

Section Runs.
Variable decode_strip : string -> result string.
Variable py_float : string -> result float.

#[local] Abbreviation validate := (validate decode_strip py_float).
#[local] Abbreviation download_and_convert :=
  (download_and_convert decode_strip py_float).
#[local] Abbreviation duration_of := (duration_of decode_strip py_float).
#[local] Abbreviation local_acquired :=
  (local_acquired decode_strip py_float).

(** Every run of the method, with the calls of each phase written out up
    to the validation. *)
Lemma run_outcomes self url dir h tr res :
  exec (download_and_convert self url dir h) tr res ->
  (exists e, tr = [OMkdir dir (Err e)] /\ res = (Err (wrap_failure e), h))
  \/ exists u found,
       let uid := take 8 (uuid_str u) in
       let setup := setup_trace dir u url found in
       let is_local := found && endswith_any (lower url) video_suffixes in
       let m4a := audio_path dir uid "m4a" in
       let l := fresh (dom h) in
       (tr = setup
        /\ res = (Err (wrap_failure not_a_dict), h)
        /\ forall d, h !! ydl_opts self <> Some (ODict d))
       \/ exists d,
            h !! ydl_opts self = Some (ODict d) /\
            let h1 := call_heap h d dir uid in
            (is_local = true /\
             ((exists e,
                  tr = setup ++ [OCheckCall (ffmpeg_cmd url m4a) (Err e)]
                  /\ res = (Err (wrap_failure e), h1))
              \/ (exists r trv rv sv,
                    tr = setup
                         ++ [OCheckCall (ffmpeg_cmd url m4a) (Ok tt);
                             OCheckOutput (probe_cmd url) r]
                         ++ trv
                    /\ exec (validate dir (local_acquired uid url r)
                                      (State h1 m4a)) trv (rv, sv)
                    /\ res = (propagate rv, st_heap sv))))
            \/ (is_local = false /\
                ((exists e,
                     tr = setup ++ [OYdlOpen h1 l (Err e)]
                     /\ res = (Err (wrap_failure e), h1))
                 \/ (exists e rc,
                       tr = setup
                            ++ [OYdlOpen h1 l (Ok tt);
                                OYdlExtractInfo h1 l url false (Err e);
                                OYdlClose h1 l rc]
                       /\ res = (Err (wrap_failure
                                        match rc with
                                        | Ok _ => e
                                        | Err e' => with_context e' e
                                        end), h1))
                 \/ (exists info rd rc,
                       let lib := [OYdlOpen h1 l (Ok tt);
                                   OYdlExtractInfo h1 l url false (Ok info);
                                   OYdlDownload h1 l [url] rd;
                                   OYdlClose h1 l rc] in
                       match fetch_outcome info rd rc with
                       | Err e =>
                           tr = setup ++ lib
                           /\ res = (Err (wrap_failure e), h1)
                       | Ok (title, duration) =>
                           (tr = setup ++ lib
                                 ++ OPathExists m4a false
                                    :: misses dir uid fallback_exts
                            /\ res = (Err (wrap_failure not_found), h1))
                           \/ (exists trl ext trv rv sv,
                                 (trl = [OPathExists m4a true] /\ ext = "m4a"
                                  \/ exists k,
                                       fallback_exts !! k = Some ext
                                       /\ trl = OPathExists m4a false
                                                :: misses dir uid
                                                     (firstn k fallback_exts)
                                                ++ [OPathExists
                                                      (audio_path dir uid ext)
                                                      true])
                                 /\ exec (validate dir
                                            (remote_acquired uid title
                                               duration)
                                            (State h1
                                               (audio_path dir uid ext)))
                                         trv (rv, sv)
                                 /\ tr = setup ++ lib ++ trl ++ trv
                                 /\ res = (propagate rv, st_heap sv))
                       end))).
Proof.
  intros Hrun.
  apply download_and_convert_runs in Hrun
    as [(e & -> & ->)|(u & found & rest & -> & H)]; [left; eauto|].
  right. exists u, found. cbv zeta in *.
  remember (take 8 (uuid_str u)) as uid eqn:Huid. clear Huid.
  destruct (h !! ydl_opts self) as [[d|xs]|] eqn:Hd;
    [|left; destruct H as [-> ->]; rewrite app_nil_r;
      (split; [reflexivity|split; [reflexivity|intros d'; discriminate]])..].
  right. exists d. split; [reflexivity|].
  destruct (found && endswith_any (lower url) video_suffixes).
  - left. split; [reflexivity|].
    destruct H as [(e & -> & ->)|(r & trv & rv & sv & -> & Hv & ->)];
      [left; eauto|right; eauto 10].
  - right. split; [reflexivity|].
    destruct H as (ytr & yr & Hy & H).
    apply fetch_remote_inv in Hy as [_ Hy]. cbn [fst snd st_heap] in Hy.
    remember (call_heap h d dir uid) as h1 eqn:Hh1. clear Hh1.
    remember (fresh (dom h)) as l eqn:Hl1. clear Hl1.
    destruct Hy as [(e & -> & ->)|[(e & rc & -> & ->)
                                  |(info & rd & rc & -> & ->)]].
    + destruct H as [-> ->]. left; eauto.
    + destruct H as [-> ->]. right; left; eauto.
    + right; right. exists info, rd, rc.
      destruct (fetch_outcome info rd rc) as [[title duration]|e];
        [|by destruct H as [-> ->]].
      destruct H as (trl & rl & sl & Hl & H).
      apply locate_output_inv in Hl. cbv zeta in Hl.
      destruct Hl as [[-> [= -> ->]]
                     |[(k & ext & Hk & -> & [= -> ->])|[-> [= -> ->]]]].
      * destruct H as (trv & rv & sv & Hv & -> & ->).
        right. exists [OPathExists (audio_path dir uid "m4a") true], "m4a",
                 trv, rv, sv.
        split; [left; split; reflexivity|]. split; [exact Hv|].
        split; reflexivity.
      * destruct H as (trv & rv & sv & Hv & -> & ->).
        right. eexists _, ext, trv, rv, sv.
        split; [right; exists k; split; [exact Hk|reflexivity]|].
        split; [exact Hv|]. split; reflexivity.
      * destruct H as [-> ->]. left. split; reflexivity.
Qed.

(** The cases of [run_outcomes], named. *)
Ltac run_cases H :=
  apply run_outcomes in H
    as [(ee & -> & ->)
       |(u & found &
         [(-> & -> & Hnd)
         |(d & Hd &
           [(Hloc & [(ee & -> & ->)|(rp & trv & rv & sv & -> & Hv & ->)])
           |(Hloc & [(ee & -> & ->)
                    |[(ee & rc & -> & ->)|(minfo & rd & rc & H)]])])])];
  cbv zeta in *.

(** X2: the first call of a run makes the output directory, and a run in
    which this fails makes no other call and raises the wrapped failure,
    leaving the heap as it was. *)
Theorem mkdir_failure_stops self url dir h tr res :
  exec (download_and_convert self url dir h) tr res ->
  exists r rest,
    tr = OMkdir dir r :: rest
    /\ forall e, r = Err e ->
         rest = [] /\ res = (Err (wrap_failure e), h).
Proof.
  intros Hrun.
  apply download_and_convert_runs in Hrun
    as [(e & -> & ->)|(u & found & rest & -> & _)].
  - exists (Err e), []. split; [reflexivity|]. by intros e' [= ->].
  - eexists (Ok tt), _. split; [reflexivity|]. intros e' [=].
Qed.

(** X3: on the remote branch the title returned is the one of the metadata,
    or [unknown] when the metadata has none. *)
Theorem remote_title_from_metadata self url dir h tr res hh l u dl info
    path title :
  exec (download_and_convert self url dir h) tr res ->
  In (OYdlExtractInfo hh l u dl (Ok info)) tr ->
  res.1 = Ok (path, title) ->
  title = dict_get_default info "title" (VStr "unknown").
Proof.
  intros Hrun Hin Hres. destruct res as [res h']. cbn [fst] in Hres. subst res.
  apply download_and_convert_runs in Hrun
    as [(e & -> & [=])|(u0 & found & rest & -> & H)].
  cbv zeta in H.
  destruct (h !! ydl_opts self) as [[d|xs]|];
    [|destruct H as [_ [=]]..].
  destruct (found && endswith_any (lower url) video_suffixes).
  - destruct H as [(e & -> & [=])|(r & trv & rv & sv & -> & Hv & Hr)].
    apply validate_kinds in Hv. in_trace Hin.
    pose proof (Forall_In _ _ _ Hv Hin) as Hk. discriminate Hk.
  - destruct H as (ytr & yr & Hy & H).
    apply fetch_remote_inv in Hy as [_ Hy]. cbn [fst snd st_heap] in Hy.
    destruct Hy as [(e & -> & ->)|[(e & rc & -> & ->)
                                  |(info' & rd & rc & -> & ->)]];
      [destruct H as [_ [=]]..|].
    destruct (fetch_outcome info' rd rc) as [[t du]|e] eqn:Hf;
      [|destruct H as [_ [=]]].
    destruct H as (trl & rl & sl & Hl & H).
    destruct rl as [[]|e]; [|destruct H as [_ [=]]].
    destruct H as (trv & rv & sv & Hv & -> & Hr).
    destruct rv as [[p t']|e]; [|discriminate Hr].
    injection Hr as -> -> _.
    pose proof (validate_kinds _ _ _ _ _ _ _ _ Hv) as Hk.
    apply validate_title in Hv. cbn [video_title remote_acquired] in Hv.
    subst t.
    apply locate_output_calls in Hl as [_ Hl].
    assert (info = info') as ->.
    { in_trace Hin.
      - apply extract_info_answer in Hin. by injection Hin.
      - by destruct (Forall_In _ _ _ Hl Hin) as (? & ? & ?).
      - pose proof (Forall_In _ _ _ Hk Hin) as Hk'. discriminate Hk'. }
    unfold fetch_outcome in Hf.
    destruct rd, rc; try discriminate Hf. by injection Hf as <- _.
Qed.

Lemma filter_misses (P : obs -> bool) dir uid exts :
  (forall p b, P (OPathExists p b) = false) ->
  List.filter P (misses dir uid exts) = [].
Proof.
  intros HP. induction exts as [|ext exts IH]; [done|].
  cbn [misses fmap list_fmap List.filter]. rewrite HP. apply IH.
Qed.

Lemma length_misses dir uid exts :
  length (misses dir uid exts) = length exts.
Proof. apply length_fmap. Qed.

(** Filtering a trace given by its parts. *)
Ltac filter_trace :=
  repeat (progress
    (rewrite ?List.filter_app;
     cbn [List.filter setup_trace is_check_call is_probe is_download is_ydl
          app];
     rewrite ?filter_misses by reflexivity));
  cbn [app length].

(** The expected duration taken from metadata that has none. *)
Lemma fetch_outcome_unknown_duration info rd rc title duration :
  fetch_outcome info rd rc = Ok (title, duration) ->
  truthy (dict_get info "duration") = false ->
  truthy duration = false.
Proof.
  unfold fetch_outcome. destruct rd, rc; try discriminate.
  intros [= _ <-] Hd. unfold py_or. by rewrite Hd.
Qed.

(** X4: when the metadata of a remote video has no duration, or has [None]
    or zero for it, no [ffmpeg] command is run, and the file returned is
    not a repaired one. *)
Theorem unknown_duration_never_repaired self url dir h tr res hh l u0 dl info :
  exec (download_and_convert self url dir h) tr res ->
  In (OYdlExtractInfo hh l u0 dl (Ok info)) tr ->
  truthy (dict_get info "duration") = false ->
  List.filter is_check_call tr = []
  /\ forall path title,
       res.1 = Ok (path, title) -> endswith path "_fixed.m4a" = false.
Proof.
  intros Hrun Hin Hdur. run_cases Hrun.
  1-3: by in_trace Hin.
  - apply validate_kinds in Hv. in_trace Hin.
    pose proof (Forall_In _ _ _ Hv Hin) as Hk. discriminate Hk.
  - by in_trace Hin.
  - in_trace Hin.
  - destruct (unique_id_spec u) as [Hlen Hus].
    remember (take 8 (uuid_str u)) as uid eqn:Huid. clear Huid.
    remember (call_heap h d dir uid) as h1 eqn:Hh1. clear Hh1.
    remember (fresh (dom h)) as l1 eqn:Hl1. clear Hl1.
    destruct (fetch_outcome minfo rd rc) as [[title duration]|e] eqn:Hf.
    2: { destruct Hrun as [-> ->]. split; [by filter_trace|].
         intros ?? [=]. }
    assert (truthy duration = false) as Hdu.
    { apply (fetch_outcome_unknown_duration _ _ _ _ _ Hf).
      enough (info = minfo) as <- by done.
      destruct Hrun as [[-> _]|(trl & ext & trv & rv & sv & Hl & Hv & -> & _)].
      - in_trace Hin.
        + apply extract_info_answer in Hin. by injection Hin.
        + apply In_misses in Hin as [? Hin]. discriminate Hin.
      - pose proof (validate_kinds _ _ _ _ _ _ _ _ Hv) as Hk.
        in_trace Hin.
        + apply extract_info_answer in Hin. by injection Hin.
        + destruct Hl as [[-> _]|(k & _ & ->)]; in_trace Hin.
          apply In_misses in Hin as [? Hin]. discriminate Hin.
        + pose proof (Forall_In _ _ _ Hk Hin) as Hk'. discriminate Hk'. }
    destruct Hrun as [[-> ->]|(trl & ext & trv & rv & sv & Hl & Hv & -> & ->)].
    { split; [by filter_trace|]. intros ?? [=]. }
    apply validate_outcomes in Hv as (r & Hv). cbv zeta in Hv.
    cbn [expected_duration remote_acquired st_audio_file unique_id] in Hv.
    unfold durations_differ in Hv. rewrite Hdu in Hv.
    destruct Hv as [(-> & [= -> ->] & _)
                   |[(_ & _ & [=] & _)
                    |[(? & _ & _ & [=] & _)|(? & _ & _ & [=] & _)]]].
    split.
    + destruct Hl as [[-> _]|(k & _ & ->)]; by filter_trace.
    + intros path title' [= <- _].
      apply audio_path_not_fixed; [done..|].
      destruct Hl as [[_ ->]|(k & Hk & _)]; [by left|right].
      apply list_elem_of_In. by eapply list_elem_of_lookup_2.
Qed.

(** The file a successful run returns: the one its acquisition settled
    on, or the repaired one. *)
Lemma returned_path self url dir h tr res path title :
  exec (download_and_convert self url dir h) tr res ->
  res.1 = Ok (path, title) ->
  exists u found rest,
    tr = setup_trace dir u url found ++ rest /\
    let uid := take 8 (uuid_str u) in
    path = fixed_audio_path dir uid
    \/ exists ext, In ext ("m4a" :: fallback_exts)
                   /\ path = audio_path dir uid ext.
Proof.
  intros Hrun Hres.
  assert (forall uid a s trv rv sv file,
             exec (validate dir a s) trv (rv, sv) ->
             unique_id a = uid -> st_audio_file s = file ->
             propagate rv = Ok (path, title) ->
             path = fixed_audio_path dir uid \/ path = file) as Hval.
  { intros uid a s trv rv sv file Hv <- <- Hp.
    apply validate_outcomes in Hv as (r & Hv). cbv zeta in Hv.
    destruct Hv as [(_ & [= -> _] & _)
                   |[(_ & [= -> _] & _)
                    |[(? & _ & [= -> _] & _)|(? & _ & [= -> _] & _)]]];
      cbn [propagate] in Hp; try discriminate Hp;
      injection Hp as <- _; auto. }
  run_cases Hrun; cbn [fst] in Hres; try discriminate Hres.
  - exists u, found. eexists. split; [reflexivity|].
    destruct (Hval _ _ _ _ _ _ _ Hv eq_refl eq_refl Hres) as [->| ->];
      [by left|right].
    exists "m4a". split; [by left|reflexivity].
  - destruct (fetch_outcome minfo rd rc) as [[t du]|e].
    2: { destruct Hrun as [_ ->]. discriminate Hres. }
    destruct Hrun as [[_ ->]|(trl & ext & trv & rv & sv & Hl & Hv & -> & ->)];
      [discriminate Hres|].
    exists u, found. eexists. split; [reflexivity|].
    cbn [fst] in Hres.
    destruct (Hval _ _ _ _ _ _ _ Hv eq_refl eq_refl Hres) as [->| ->];
      [by left|right].
    exists ext. split; [|reflexivity].
    destruct Hl as [[_ ->]|(k & Hk & _)]; [by left|right].
    apply list_elem_of_In. by eapply list_elem_of_lookup_2.
Qed.

Lemma audio_path_suffix dir uid ext :
  audio_path dir uid ext
  = path_join dir ("audio_" +:+ uid +:+ ("." +:+ ext)).
Proof. reflexivity. Qed.

(** X5: the file a successful run returns is [audio_<id><suffix>] in the
    output directory, where [<id>] is the first eight characters of the
    UUID drawn in the run and the suffix one of six. *)
Theorem result_path_form self url dir h tr res path title :
  exec (download_and_convert self url dir h) tr res ->
  res.1 = Ok (path, title) ->
  exists u suffix,
    tr !! 1%nat = Some (OUuid4 u)
    /\ In suffix result_suffixes
    /\ String.length (take 8 (uuid_str u)) = 8%nat
    /\ path = path_join dir ("audio_" +:+ take 8 (uuid_str u) +:+ suffix).
Proof.
  intros Hrun Hres.
  destruct (returned_path _ _ _ _ _ _ _ _ Hrun Hres)
    as (u & found & rest & -> & Hp).
  cbv zeta in Hp. destruct (unique_id_spec u) as [Hlen _].
  destruct Hp as [->|(ext & He & ->)].
  - exists u, "_fixed.m4a". split; [reflexivity|].
    split; [unfold result_suffixes; cbn [In]; tauto|]. by split.
  - exists u, ("." +:+ ext). split; [reflexivity|].
    split; [|by split].
    unfold fallback_exts in He. cbn [In] in He.
    unfold result_suffixes. cbn [In].
    destruct He as [<-|[<-|[<-|[<-|[<-|[]]]]]]; tauto.
Qed.

Lemma audio_name_inj uid1 uid2 s1 s2 :
  String.length uid1 = 8%nat -> String.length uid2 = 8%nat ->
  "audio_" +:+ uid1 +:+ s1 = "audio_" +:+ uid2 +:+ s2 -> uid1 = uid2.
Proof.
  intros H1 H2 H%(str_app_inv_head "audio_").
  by rewrite <- (take_app_exact 8 uid1 s1 H1), H, take_app_exact.
Qed.

(** X6: two successful runs into the same directory whose UUIDs differ in
    their first eight characters return different files. *)
Theorem distinct_ids_distinct_files self1 self2 url1 url2 dir h1 h2
    tr1 tr2 res1 res2 u1 u2 p1 p2 t1 t2 :
  exec (download_and_convert self1 url1 dir h1) tr1 res1 ->
  exec (download_and_convert self2 url2 dir h2) tr2 res2 ->
  tr1 !! 1%nat = Some (OUuid4 u1) ->
  tr2 !! 1%nat = Some (OUuid4 u2) ->
  take 8 (uuid_str u1) <> take 8 (uuid_str u2) ->
  res1.1 = Ok (p1, t1) ->
  res2.1 = Ok (p2, t2) ->
  p1 <> p2.
Proof.
  intros Hrun1 Hrun2 Hu1 Hu2 Hne Hres1 Hres2 Heq.
  destruct (returned_path _ _ _ _ _ _ _ _ Hrun1 Hres1)
    as (u & found & rest & -> & Hp1).
  destruct (returned_path _ _ _ _ _ _ _ _ Hrun2 Hres2)
    as (u' & found' & rest' & -> & Hp2).
  cbn in Hu1, Hu2. injection Hu1 as ->. injection Hu2 as ->.
  cbv zeta in Hp1, Hp2.
  destruct (unique_id_spec u1) as [Hl1 _].
  destruct (unique_id_spec u2) as [Hl2 _].
  remember (take 8 (uuid_str u1)) as uid1 eqn:E1. clear E1.
  remember (take 8 (uuid_str u2)) as uid2 eqn:E2. clear E2.
  apply Hne. subst p2.
  destruct Hp1 as [->|(e1 & _ & ->)], Hp2 as [Hp2|(e2 & _ & Hp2)];
    unfold fixed_audio_path, audio_path in Hp2;
    apply path_join_inj in Hp2;
    rewrite ?str_app_assoc in Hp2;
    symmetry; by eapply audio_name_inj.
Qed.

(** The only command the validation runs with [check_call] is the
    repair. *)
Lemma validate_check_calls dir a s trv rs cmd r :
  exec (validate dir a s) trv rs ->
  In (OCheckCall cmd r) trv ->
  cmd = fix_cmd (st_audio_file s) (fixed_audio_path dir (unique_id a)).
Proof.
  intros (r0 & Hv)%validate_outcomes Hin. cbv zeta in Hv.
  destruct Hv as [(-> & _)|[(-> & _)|[(? & -> & _)|(? & -> & _)]]];
    in_trace Hin; exact (check_call_cmd _ _ _ _ Hin).
Qed.

(** X7: no [ffmpeg] command of a run reads the file it writes: the
    extraction from a local video writes [audio_<id>.m4a], which is not
    the video, and the repair writes [audio_<id>_fixed.m4a], which is not
    the file it repairs. *)
Theorem ffmpeg_never_overwrites_its_input self url dir h tr res cmd r :
  exec (download_and_convert self url dir h) tr res ->
  In (OCheckCall cmd r) tr ->
  exists u,
    tr !! 1%nat = Some (OUuid4 u) /\
    let uid := take 8 (uuid_str u) in
    (cmd = ffmpeg_cmd url (audio_path dir uid "m4a")
     /\ url <> audio_path dir uid "m4a")
    \/ exists ext,
         In ext ("m4a" :: fallback_exts)
         /\ cmd = fix_cmd (audio_path dir uid ext) (fixed_audio_path dir uid)
         /\ audio_path dir uid ext <> fixed_audio_path dir uid.
Proof.
  intros Hrun Hin. run_cases Hrun.
  1-2: by in_trace Hin.
  - exists u. split; [reflexivity|]. left.
    apply andb_true_iff in Hloc as [_ Hloc].
    split; [|by apply local_input_is_not_output].
    in_trace Hin. exact (check_call_cmd _ _ _ _ Hin).
  - exists u. split; [reflexivity|].
    apply andb_true_iff in Hloc as [_ Hloc].
    destruct (unique_id_spec u) as [Hlen Hus].
    in_trace Hin.
    + left. split; [|by apply local_input_is_not_output].
      exact (check_call_cmd _ _ _ _ Hin).
    + right. exists "m4a". split; [by left|].
      split; [|apply repair_input_is_not_output; by auto using in_eq].
      apply (validate_check_calls _ _ _ _ _ _ _ Hv Hin).
  - by in_trace Hin.
  - by in_trace Hin.
  - destruct (unique_id_spec u) as [Hlen Hus].
    destruct (fetch_outcome minfo rd rc) as [[title duration]|e].
    2: { destruct Hrun as [-> _]. by in_trace Hin. }
    destruct Hrun as [[-> _]|(trl & ext & trv & rv & sv & Hl & Hv & -> & _)].
    { in_trace Hin. apply In_misses in Hin as [? Hin]. discriminate Hin. }
    assert (In ext ("m4a" :: fallback_exts)) as Hext.
    { destruct Hl as [[_ ->]|(k & Hk & _)]; [by left|right].
      apply list_elem_of_In. by eapply list_elem_of_lookup_2. }
    exists u. split; [reflexivity|]. right. exists ext. split; [done|].
    split; [|by apply repair_input_is_not_output].
    in_trace Hin.
    + destruct Hl as [[-> _]|(k & _ & ->)]; in_trace Hin.
      apply In_misses in Hin as [? Hin]. discriminate Hin.
    + apply (validate_check_calls _ _ _ _ _ _ _ Hv Hin).
Qed.

(** X8: on the local branch the run succeeds exactly when the extraction
    by [ffmpeg] does: a failure of the extraction is the last call of the
    run and is raised, wrapped; after a successful extraction the source
    is probed, then the output, and the run returns. *)
Theorem local_run_succeeds_iff_extracted self url dir h d tr res u found rest :
  h !! ydl_opts self = Some (ODict d) ->
  exec (download_and_convert self url dir h) tr res ->
  tr = setup_trace dir u url found ++ rest ->
  found && endswith_any (lower url) video_suffixes = true ->
  let out := audio_path dir (take 8 (uuid_str u)) "m4a" in
  exists r after,
    rest = OCheckCall (ffmpeg_cmd url out) r :: after /\
    match r with
    | Err e => after = [] /\ res.1 = Err (wrap_failure e)
    | Ok _ =>
        exists rs ro more path title,
          after = OCheckOutput (probe_cmd url) rs
                  :: OCheckOutput (probe_cmd out) ro :: more
          /\ res.1 = Ok (path, title)
    end.
Proof.
  intros Hopts Hrun Htr Hl. cbv zeta.
  rename u into u0, found into found0, d into d0.
  run_cases Hrun; try discriminate Htr.
  - by destruct (Hnd d0).
  - apply setup_trace_inj in Htr as (-> & -> & <-).
    exists (Err ee), []. by split.
  - apply setup_trace_inj in Htr as (-> & -> & <-).
    exists (Ok tt), (OCheckOutput (probe_cmd url) rp :: trv).
    split; [reflexivity|].
    remember (take 8 (uuid_str u0)) as uid eqn:Huid. clear Huid.
    remember (call_heap h d dir uid) as h1 eqn:Hh1. clear Hh1.
    apply validate_outcomes in Hv as (ro & Hv). cbv zeta in Hv.
    cbn [st_audio_file expected_duration local_acquired as_number] in Hv.
    destruct Hv as [(-> & [= -> _] & _)
                   |[(_ & _ & _ & _ & [=])
                    |[(? & -> & [= -> _] & _)|(? & -> & [= -> _] & _)]]];
      by eauto 10.
  - apply setup_trace_inj in Htr as (-> & -> & <-).
    destruct (eq_true_false_abs _ Hl Hloc).
  - apply setup_trace_inj in Htr as (-> & -> & <-).
    destruct (eq_true_false_abs _ Hl Hloc).
  - destruct rd, rc; cbn [fetch_outcome] in Hrun.
    2-4: destruct Hrun as [-> _];
         apply setup_trace_inj in Htr as (-> & -> & <-);
         destruct (eq_true_false_abs _ Hl Hloc).
    destruct Hrun as [[-> _]|(trl & ext & trv & rv & sv & _ & _ & -> & _)];
      apply setup_trace_inj in Htr as (-> & -> & <-);
      destruct (eq_true_false_abs _ Hl Hloc).
Qed.

(** X9: a download that raises ends the run: the [YoutubeDL] object is
    still released, no file is looked for and no command is run, and the
    failure reaches the caller, wrapped (as the context of the failure of
    the release, should that fail too). *)
Theorem download_failure_is_fatal self url dir h tr res hh l urls e :
  exec (download_and_convert self url dir h) tr res ->
  In (OYdlDownload hh l urls (Err e)) tr ->
  exists before closed,
    tr = before ++ [OYdlDownload hh l urls (Err e); OYdlClose hh l closed]
    /\ res.1 = Err (wrap_failure match closed with
                                 | Ok _ => e
                                 | Err e' => with_context e' e
                                 end).
Proof.
  intros Hrun Hin. run_cases Hrun.
  1-3: by in_trace Hin.
  - apply validate_kinds in Hv. in_trace Hin.
    pose proof (Forall_In _ _ _ Hv Hin) as Hk. discriminate Hk.
  - by in_trace Hin.
  - by in_trace Hin.
  - remember (take 8 (uuid_str u)) as uid eqn:Huid. clear Huid.
    remember (call_heap h d dir uid) as h1 eqn:Hh1. clear Hh1.
    remember (fresh (dom h)) as l1 eqn:Hl1. clear Hl1.
    destruct rd as [code|e0].
    + exfalso. destruct rc as [[]|e1]; cbn [fetch_outcome] in Hrun.
      * destruct Hrun as [[-> _]|(trl & ext & trv & rv & sv & Hl & Hv & -> & _)].
        -- in_trace Hin. apply In_misses in Hin as [? Hin]. discriminate Hin.
        -- pose proof (validate_kinds _ _ _ _ _ _ _ _ Hv) as Hk.
           in_trace Hin.
           ++ destruct Hl as [[-> _]|(k & _ & ->)]; in_trace Hin.
              apply In_misses in Hin as [? Hin]. discriminate Hin.
           ++ pose proof (Forall_In _ _ _ Hk Hin) as Hk'. discriminate Hk'.
      * destruct Hrun as [-> _]. in_trace Hin.
    + assert (fetch_outcome minfo (Err e0) rc
              = Err match rc with
                    | Ok _ => e0
                    | Err e' => with_context e' e0
                    end) as Hf by (by destruct rc).
      rewrite Hf in Hrun. destruct Hrun as [-> ->].
      in_trace Hin.
      apply download_answer in Hin as (-> & -> & -> & [= ->]).
      eexists (setup_trace dir u url found ++ [_; _]), rc.
      split; [by rewrite <- app_assoc|reflexivity].
Qed.

(** The validation makes at most three calls: at most one [check_call]
    and at most two probes. *)
Lemma validate_bounds dir a s trv rs :
  exec (validate dir a s) trv rs ->
  (length trv <= 3)%nat
  /\ List.filter is_download trv = []
  /\ (length (List.filter is_check_call trv) <= 1)%nat
  /\ (length (List.filter is_probe trv) <= 2)%nat.
Proof.
  intros (r0 & Hv)%validate_outcomes. cbv zeta in Hv.
  destruct Hv as [(-> & _)|[(-> & _)|[(? & -> & _)|(? & -> & _)]]];
    cbn [List.filter is_download is_check_call is_probe length];
    repeat split; lia.
Qed.

(** X10: a run makes at most fifteen calls, among them at most one
    download, at most two [ffmpeg] commands and at most three [ffprobe]
    commands. *)
Theorem call_bounds self url dir h tr res :
  exec (download_and_convert self url dir h) tr res ->
  (length tr <= 15)%nat
  /\ (length (List.filter is_download tr) <= 1)%nat
  /\ (length (List.filter is_check_call tr) <= 2)%nat
  /\ (length (List.filter is_probe tr) <= 3)%nat.
Proof.
  intros Hrun. run_cases Hrun.
  1-3, 5-6: filter_trace; rewrite ?length_app; cbn [length setup_trace]; repeat split; lia.
  - apply validate_bounds in Hv as (H1 & H2 & H3 & H4).
    filter_trace. rewrite H2, ?length_app. cbn [length setup_trace]. repeat split; lia.
  - destruct (fetch_outcome minfo rd rc) as [[title duration]|e].
    2: { destruct Hrun as [-> _]. filter_trace. rewrite ?length_app.
         cbn [length setup_trace]. repeat split; lia. }
    destruct Hrun as [[-> _]|(trl & ext & trv & rv & sv & Hl & Hv & -> & _)].
    { filter_trace. rewrite ?length_app. cbn [length setup_trace].
      rewrite length_misses. cbn [length fallback_exts]. repeat split; lia. }
    apply validate_bounds in Hv as (H1 & H2 & H3 & H4).
    assert ((length trl <= 5)%nat
            /\ List.filter is_download trl = []
            /\ List.filter is_check_call trl = []
            /\ List.filter is_probe trl = []) as (L1 & L2 & L3 & L4).
    { destruct Hl as [[-> _]|(k & Hk & ->)]; filter_trace;
        [repeat split; lia|].
      apply lookup_lt_Some in Hk. cbn [length fallback_exts] in Hk.
      rewrite ?length_app, length_misses, length_take.
      cbn [length fallback_exts]. repeat split; lia. }
    filter_trace. rewrite H2, L2, L3, L4, ?length_app.
    cbn [length app setup_trace]. repeat split; lia.
Qed.

(** X11: after a repair whose re-encoding succeeded, the run returns the
    repaired file, but the probe that follows runs the command of the
    first probe again: it measures the file that was repaired, which is
    not the repaired file. *)
Theorem reprobe_measures_original self url dir h tr1 a s1 tr2 res cmd :
  exec (acquire decode_strip py_float self url dir (State h "")) tr1
       (Ok a, s1) ->
  exec (download_and_convert self url dir h) (tr1 ++ tr2) res ->
  In (OCheckCall cmd (Ok tt)) tr2 ->
  let file := st_audio_file s1 in
  let fixed := fixed_audio_path dir (unique_id a) in
  file <> fixed
  /\ res.1 = Ok (fixed, video_title a)
  /\ exists r1 r2,
       tr2 = [OCheckOutput (probe_cmd file) r1;
              OCheckCall (fix_cmd file fixed) (Ok tt);
              OCheckOutput (probe_cmd file) r2].
Proof.
  intros Hacq Hrun Hin. cbv zeta.
  destruct (after_acquire _ _ _ _ _ _ _ _ _ _ _ Hacq Hrun)
    as (rv & sv & Hv & ->).
  destruct (acquire_audio_file _ _ _ _ _ _ _ _ _ Hacq)
    as (u & ext & Hu & Hext & Hfile).
  destruct (unique_id_spec u) as [Hlen Hus]. rewrite <- Hu in Hlen, Hus.
  split; [rewrite Hfile; by apply repair_input_is_not_output|].
  apply validate_outcomes in Hv as (r1 & Hv). cbv zeta in Hv.
  destruct Hv as [(-> & _)|[(-> & _)|[(? & -> & _)
                                     |(r2 & -> & [= -> ->] & _)]]];
    [in_trace Hin..|].
  split; [reflexivity|]. by exists r1, r2.
Qed.

(** X12: what the download library is given by a processor made by
    [__init__]: the defaults of the constructor with the output template
    [audio_<id>.%(ext)s] of the call in the output directory, and, through
    the references the copy shares with the defaults, the description of
    the audio extraction and the arguments for [ffmpeg]. *)
Theorem fresh_processor_configures_download s self s0 url dir tr res hh l r :
  init s = Ret (Ok self, s0) ->
  exec (download_and_convert self url dir (st_heap s0)) tr res ->
  In (OYdlOpen hh l r) tr ->
  exists u lp la pp,
    tr !! 1%nat = Some (OUuid4 u)
    /\ hh !! l
       = Some (ODict (<["outtmpl" :=
                          Plain (VStr (path_join dir
                                         ("audio_" +:+ take 8 (uuid_str u)
                                          +:+ ".%(ext)s")))]>
                        (default_options lp la)))
    /\ hh !! lp = Some (OList [Ref pp])
    /\ hh !! pp = Some (ODict extract_audio)
    /\ hh !! la = Some (OList ffmpeg_args).
Proof.
  intros Hinit Hrun Hin.
  destruct (init_spec s) as (pp & lp & la & lo & E1 & F1 & F2 & F3 & F4 & D1).
  rewrite E1 in Hinit. injection Hinit as <- <-. cbn [st_heap ydl_opts] in *.
  destruct (init_heap_new (st_heap s) pp lp la lo) as (N1 & N2 & N3 & N4);
    [tauto..|].
  set (h0 := init_heap (st_heap s) pp lp la lo) in *.
  assert (forall u0 d,
             h0 !! lo = Some (ODict d) ->
             hh = call_heap h0 d dir (take 8 (uuid_str u0)) ->
             l = fresh (dom h0) ->
             hh !! l
             = Some (ODict (<["outtmpl" :=
                                Plain (VStr (path_join dir
                                               ("audio_"
                                                +:+ take 8 (uuid_str u0)
                                                +:+ ".%(ext)s")))]>
                              (default_options lp la)))
             /\ hh !! lp = Some (OList [Ref pp])
             /\ hh !! pp = Some (ODict extract_audio)
             /\ hh !! la = Some (OList ffmpeg_args)) as Hcall.
  { intros u0 d Hd -> ->. rewrite N1 in Hd. injection Hd as <-.
    split; [apply call_heap_new|]. repeat split; by apply call_heap_old. }
  run_cases Hrun.
  1-3: by in_trace Hin.
  - apply validate_kinds in Hv. in_trace Hin.
    pose proof (Forall_In _ _ _ Hv Hin) as Hk. discriminate Hk.
  - in_trace Hin. apply open_answer in Hin as (-> & -> & _).
    exists u, lp, la, pp. split; [reflexivity|].
    apply (Hcall u d); [exact Hd|reflexivity..].
  - in_trace Hin. apply open_answer in Hin as (-> & -> & _).
    exists u, lp, la, pp. split; [reflexivity|].
    apply (Hcall u d); [exact Hd|reflexivity..].
  - assert (hh = call_heap h0 d dir (take 8 (uuid_str u))
            /\ l = fresh (dom h0)) as [-> ->].
    { destruct (fetch_outcome minfo rd rc) as [[title duration]|e].
      2: { destruct Hrun as [-> _]. in_trace Hin.
           by apply open_answer in Hin as (-> & -> & _). }
      destruct Hrun as [[-> _]|(trl & ext & trv & rv & sv & Hl & Hv & -> & _)].
      - in_trace Hin.
        + by apply open_answer in Hin as (-> & -> & _).
        + apply In_misses in Hin as [? Hin]. discriminate Hin.
      - pose proof (validate_kinds _ _ _ _ _ _ _ _ Hv) as Hk.
        in_trace Hin.
        + by apply open_answer in Hin as (-> & -> & _).
        + destruct Hl as [[-> _]|(k & _ & ->)]; in_trace Hin.
          apply In_misses in Hin as [? Hin]. discriminate Hin.
        + pose proof (Forall_In _ _ _ Hk Hin) as Hk'. discriminate Hk'. }
    exists u, lp, la, pp.
    split; [|apply (Hcall u d); [exact Hd|reflexivity..]].
    destruct (fetch_outcome minfo rd rc) as [[title duration]|e].
    2: by destruct Hrun as [-> _].
    by destruct Hrun as [[-> _]|(trl & ext & trv & rv & sv & _ & _ & -> & _)].
Qed.

(** X13: [get_video_info] leaves every object of the heap as it was, the
    options of the instance among them, and builds its [YoutubeDL] object
    on a new dictionary; its runs do not depend on the instance, whose
    download options play no part. *)
Theorem get_video_info_frame self url h tr res h' :
  exec (get_video_info self url h) tr (res, h') ->
  h' = <[fresh (dom h) := ODict {[ "quiet" := Plain (VBool true) ]}]> h
  /\ (forall l o, h !! l = Some o -> h' !! l = Some o)
  /\ (forall hh l r, In (OYdlOpen hh l r) tr -> hh = h' /\ h !! l = None)
  /\ forall other, exec (get_video_info other url h) tr (res, h').
Proof.
  intros Hrun.
  assert (h' = <[fresh (dom h) := ODict {[ "quiet" := Plain (VBool true) ]}]> h
          /\ forall hh l r, In (OYdlOpen hh l r) tr ->
               hh = h' /\ l = fresh (dom h)) as [-> Hopen].
  { revert Hrun. unfold get_video_info, get_video_info_body, with_ydl.
    intros (trb & [rb sb] & tr3 & H & [-> [= -> ->]] & ->)%exec_prog_bind.
    rewrite app_nil_r. exec_inv.
    all: repeat match goal with
           | x : result () |- _ => destruct x as [[]|?]
           end; exec_inv.
    all: split; [reflexivity|].
    all: intros hh l r Hin; in_trace Hin.
    all: by apply open_answer in Hin as (-> & -> & _). }
  split; [reflexivity|].
  assert (h !! fresh (dom h) = None) as Hfresh
    by apply not_elem_of_dom, is_fresh.
  split.
  { intros l o Hl. rewrite lookup_insert_ne; [done|]. intros <-. congruence. }
  split; [|intros other; exact Hrun].
  intros hh l r Hin. destruct (Hopen _ _ _ Hin) as [-> ->]. by split.
Qed.

(** X14: metadata whose duration is a non-empty string make the run fail
    after the download, as soon as the produced file has a nonzero
    duration: the comparison of line 128 subtracts the string from a
    number. *)
Theorem non_numeric_duration_is_fatal self url dir h tr res hh l u0 dl info
    text cmd r :
  exec (download_and_convert self url dir h) tr res ->
  In (OYdlExtractInfo hh l u0 dl (Ok info)) tr ->
  dict_get info "duration" = VStr text ->
  text <> "" ->
  In (OCheckOutput cmd r) tr ->
  PrimFloat.eqb (duration_of r) 0 = false ->
  res.1 = Err (wrap_failure type_error).
Proof.
  intros Hrun Hin Hdur Htext Hprobe Hnz. run_cases Hrun.
  1-3: by in_trace Hin.
  - apply validate_kinds in Hv. in_trace Hin.
    pose proof (Forall_In _ _ _ Hv Hin) as Hk. discriminate Hk.
  - by in_trace Hin.
  - in_trace Hin.
  - remember (take 8 (uuid_str u)) as uid eqn:Huid. clear Huid.
    remember (call_heap h d dir uid) as h1 eqn:Hh1. clear Hh1.
    remember (fresh (dom h)) as l1 eqn:Hl1. clear Hl1.
    destruct (fetch_outcome minfo rd rc) as [[title duration]|e] eqn:Hf.
    2: { destruct Hrun as [-> _]. in_trace Hprobe. }
    destruct Hrun as [[-> _]|(trl & ext & trv & rv & sv & Hl & Hv & -> & ->)].
    { in_trace Hprobe. apply In_misses in Hprobe as [? Hprobe].
      discriminate Hprobe. }
    pose proof (validate_kinds _ _ _ _ _ _ _ _ Hv) as Hk.
    assert (info = minfo) as <-.
    { in_trace Hin.
      - apply extract_info_answer in Hin. by injection Hin.
      - destruct Hl as [[-> _]|(k & _ & ->)]; in_trace Hin.
        apply In_misses in Hin as [? Hin]. discriminate Hin.
      - pose proof (Forall_In _ _ _ Hk Hin) as Hk'. discriminate Hk'. }
    assert (duration = VStr text) as ->.
    { unfold fetch_outcome in Hf. destruct rd, rc; try discriminate Hf.
      injection Hf as _ <-. rewrite Hdur. unfold py_or. cbn [truthy].
      by destruct (String.eqb_spec text ""). }
    assert (In (OCheckOutput cmd r) trv) as Hp.
    { in_trace Hprobe; [|exact Hprobe].
      destruct Hl as [[-> _]|(k & _ & ->)]; in_trace Hprobe.
      apply In_misses in Hprobe as [? Hprobe]. discriminate Hprobe. }
    apply validate_outcomes in Hv as (r1 & Hv). cbv zeta in Hv.
    cbn [expected_duration remote_acquired as_number] in Hv.
    unfold durations_agree, durations_differ in Hv.
    cbn [truthy as_number] in Hv.
    destruct Hv as [(-> & _ & Ha)
                   |[(-> & [= -> _] & _)
                    |[(? & _ & _ & _ & _ & ? & [=] & _)
                     |(? & _ & _ & _ & _ & ? & [=] & _)]]];
      [|reflexivity].
    in_trace Hp. apply check_output_answer in Hp as ->.
    destruct Ha as [Ha|[Ha|(? & [=] & _)]].
    + by destruct (String.eqb_spec text "").
    + congruence.
Qed.

(** X15: a run on a remote reference that returns has downloaded without
    error and has seen a candidate file exist; it returns that file, or
    the file a successful repair made from it. *)
Theorem remote_success_means_file_seen self url dir h tr res u found rest
    path title :
  exec (download_and_convert self url dir h) tr res ->
  tr = setup_trace dir u url found ++ rest ->
  found && endswith_any (lower url) video_suffixes = false ->
  res.1 = Ok (path, title) ->
  exists hh l code file,
    In (OYdlDownload hh l [url] (Ok code)) rest
    /\ In (OPathExists file true) rest
    /\ (path = file
        \/ path = fixed_audio_path dir (take 8 (uuid_str u))
           /\ In (OCheckCall (fix_cmd file path) (Ok tt)) rest).
Proof.
  intros Hrun Htr Hrem Hres.
  rename u into u0, found into found0.
  run_cases Hrun; cbn [fst] in Hres; try discriminate Hres.
  - apply setup_trace_inj in Htr as (-> & -> & <-).
    destruct (eq_true_false_abs _ Hloc Hrem).
  - destruct rd as [code|?], rc as [[]|?]; cbn [fetch_outcome] in Hrun;
      try (destruct Hrun as [_ ->]; discriminate Hres).
    destruct Hrun as [[_ ->]|(trl & ext & trv & rv & sv & Hl & Hv & -> & ->)];
      [discriminate Hres|].
    apply setup_trace_inj in Htr as (-> & -> & <-).
    remember (take 8 (uuid_str u0)) as uid eqn:Huid. clear Huid.
    remember (call_heap h d dir uid) as h1 eqn:Hh1. clear Hh1.
    remember (fresh (dom h)) as l1 eqn:Hl1. clear Hl1.
    exists h1, l1, code, (audio_path dir uid ext).
    split; [cbn [app In]; tauto|].
    split.
    { rewrite !in_app_iff. right; left.
      destruct Hl as [[-> ->]|(k & _ & ->)]; [by left|right].
      rewrite in_app_iff. right. by left. }
    apply validate_outcomes in Hv as (r1 & Hv). cbv zeta in Hv.
    cbn [st_audio_file unique_id remote_acquired] in Hv.
    cbn [fst] in Hres.
    destruct Hv as [(_ & [= -> _] & _)
                   |[(_ & [= -> _] & _)
                    |[(? & _ & [= -> _] & _)|(? & -> & [= -> _] & _)]]];
      cbn [propagate] in Hres; try discriminate Hres;
      injection Hres as <- _; [by left..|].
    right. split; [reflexivity|].
    rewrite !in_app_iff. right; right. cbn [In]. tauto.
Qed.

(** What a run does to the heap and where it builds [YoutubeDL]. *)
Lemma run_heap self url dir h tr res :
  exec (download_and_convert self url dir h) tr res ->
  (forall l o, h !! l = Some o -> res.2 !! l = Some o)
  /\ forall hh l r, In (OYdlOpen hh l r) tr ->
       exists d u,
         h !! ydl_opts self = Some (ODict d)
         /\ tr !! 1%nat = Some (OUuid4 u)
         /\ hh = call_heap h d dir (take 8 (uuid_str u))
         /\ l = fresh (dom h).
Proof.
  intros Hrun.
  assert (forall a s trv rv sv,
             exec (validate dir a s) trv (rv, sv) -> st_heap sv = st_heap s)
    as Hvh.
  { intros a s trv rv sv (r1 & Hv)%validate_outcomes. cbv zeta in Hv.
    destruct Hv as [(_ & [= _ ->] & _)
                   |[(_ & [= _ ->] & _)
                    |[(? & _ & [= _ ->] & _)|(? & _ & [= _ ->] & _)]]];
      reflexivity. }
  run_cases Hrun.
  - split; [done|]. intros ??? Hin. in_trace Hin.
  - split; [done|]. intros ??? Hin. in_trace Hin.
  - split; [intros; by apply call_heap_old|].
    intros ??? Hin. in_trace Hin.
  - cbn [snd]. rewrite (Hvh _ _ _ _ _ Hv). cbn [st_heap].
    split; [intros; by apply call_heap_old|].
    apply validate_kinds in Hv.
    intros ??? Hin. in_trace Hin.
    pose proof (Forall_In _ _ _ Hv Hin) as Hk. discriminate Hk.
  - split; [intros; by apply call_heap_old|].
    intros ??? Hin. in_trace Hin.
    apply open_answer in Hin as (-> & -> & _). by eauto 10.
  - split; [intros; by apply call_heap_old|].
    intros ??? Hin. in_trace Hin.
    apply open_answer in Hin as (-> & -> & _). by eauto 10.
  - destruct (fetch_outcome minfo rd rc) as [[title duration]|e].
    2: { destruct Hrun as [-> ->].
         split; [intros; by apply call_heap_old|].
         intros ??? Hin. in_trace Hin.
         apply open_answer in Hin as (-> & -> & _). by eauto 10. }
    destruct Hrun as [[-> ->]|(trl & ext & trv & rv & sv & Hl & Hv & -> & ->)].
    { split; [intros; by apply call_heap_old|].
      intros ??? Hin. in_trace Hin.
      - apply open_answer in Hin as (-> & -> & _). by eauto 10.
      - apply In_misses in Hin as [? Hin]. discriminate Hin. }
    cbn [snd]. rewrite (Hvh _ _ _ _ _ Hv). cbn [st_heap].
    split; [intros; by apply call_heap_old|].
    apply validate_kinds in Hv.
    intros ??? Hin. in_trace Hin.
    + apply open_answer in Hin as (-> & -> & _). by eauto 10.
    + destruct Hl as [[-> _]|(k & _ & ->)]; in_trace Hin.
      apply In_misses in Hin as [? Hin]. discriminate Hin.
    + pose proof (Forall_In _ _ _ Hv Hin) as Hk. discriminate Hk.
Qed.

(** X16: the output template of one call does not reach the next: in a
    second call on the same processor the download library is given the
    defaults as they were before the first call, with the template of the
    second call. *)
Theorem later_call_sees_defaults self d url1 dir1 url2 dir2 h tr1 res1 h1
    tr2 res2 hh l r :
  h !! ydl_opts self = Some (ODict d) ->
  exec (download_and_convert self url1 dir1 h) tr1 (res1, h1) ->
  exec (download_and_convert self url2 dir2 h1) tr2 res2 ->
  In (OYdlOpen hh l r) tr2 ->
  exists u,
    tr2 !! 1%nat = Some (OUuid4 u)
    /\ hh !! l
       = Some (ODict (<["outtmpl" :=
                          Plain (VStr (path_join dir2
                                         ("audio_" +:+ take 8 (uuid_str u)
                                          +:+ ".%(ext)s")))]> d)).
Proof.
  intros Hd Hrun1 Hrun2 Hin.
  apply run_heap in Hrun1 as [Hkeep _]. cbn [snd] in Hkeep.
  apply run_heap in Hrun2 as [_ Hopen].
  destruct (Hopen _ _ _ Hin) as (d' & u & Hd' & Hu & -> & ->).
  rewrite (Hkeep _ _ Hd) in Hd'. injection Hd' as <-.
  exists u. split; [exact Hu|]. apply call_heap_new.
Qed.

End Runs.

(** ** The further properties on concrete runs *)

(** [x] is the call number [i] of the trace [tr]. *)
Ltac by_index i :=
  apply list_elem_of_In, (list_elem_of_lookup_2 _ i); vm_compute; reflexivity.

(** Witness for X1: two processors made one after the other on the empty heap. *)
Lemma instances_do_not_share_options_witness :
  init (State ∅ "") = Ret (Ok the_processor, State the_heap "")
  /\ init (State the_heap "")
     = Ret (Ok second_processor.1, State second_processor.2 "")
  /\ ydl_opts the_processor <> ydl_opts second_processor.1
  /\ (forall l o,
        the_heap !! l = Some o -> second_processor.2 !! l = Some o)
  /\ exists lp1 la1 lp2 la2,
       second_processor.2 !! ydl_opts the_processor
       = Some (ODict (default_options lp1 la1))
       /\ second_processor.2 !! ydl_opts second_processor.1
          = Some (ODict (default_options lp2 la2))
       /\ lp1 <> lp2 /\ la1 <> la2.
Proof.
  split; [vm_compute; reflexivity|]. split; [vm_compute; reflexivity|].
  apply (instances_do_not_share_options (State ∅ "") the_processor
           (State the_heap "") second_processor.1
           (State second_processor.2 ""));
    vm_compute; reflexivity.
Defined.

(** Witness for X12: a remote reference, converted by a processor made on the empty heap. *)
Lemma fresh_processor_configures_download_witness :
  exists u lp la pp,
    (convert remote_world the_url).1 !! 1%nat = Some (OUuid4 u)
    /\ the_call_heap !! the_call_options
       = Some (ODict (<["outtmpl" :=
                          Plain (VStr (path_join "out"
                                         ("audio_" +:+ take 8 (uuid_str u)
                                          +:+ ".%(ext)s")))]>
                        (default_options lp la)))
    /\ the_call_heap !! lp = Some (OList [Ref pp])
    /\ the_call_heap !! pp = Some (ODict extract_audio)
    /\ the_call_heap !! la = Some (OList ffmpeg_args).
Proof.
  apply (fresh_processor_configures_download ascii_decode_strip decimal_float
           (State ∅ "") the_processor (State the_heap "") the_url "out"
           (convert remote_world the_url).1 (convert remote_world the_url).2
           the_call_heap the_call_options (Ok tt)).
  - vm_compute; reflexivity.
  - apply play_exec.
  - by_index 3%nat.
Defined.

(** Witness for X2: an output directory that cannot be made. *)
Lemma mkdir_failure_stops_witness :
  exists r rest,
    (convert no_directory_world the_url).1 = OMkdir "out" r :: rest
    /\ forall e, r = Err e ->
         rest = []
         /\ (convert no_directory_world the_url).2
            = (Err (wrap_failure e), the_heap).
Proof.
  apply (mkdir_failure_stops ascii_decode_strip decimal_float
           the_processor the_url "out" the_heap).
  apply play_exec.
Defined.

(** Witness for X3: a remote video whose metadata give the title [T]. *)
Lemma remote_title_from_metadata_witness :
  (convert remote_world the_url).2.1
  = Ok ("out/audio_12345678_fixed.m4a", VStr "T")
  /\ VStr "T"
     = dict_get_default ({[ "title" := VStr "T"; "duration" := VNum 12 ]}
                         : info_dict) "title" (VStr "unknown").
Proof.
  split; [vm_compute; reflexivity|].
  apply (remote_title_from_metadata ascii_decode_strip decimal_float
           the_processor the_url "out" the_heap
           (convert remote_world the_url).1 (convert remote_world the_url).2
           the_call_heap the_call_options the_url false
           {[ "title" := VStr "T"; "duration" := VNum 12 ]}
           "out/audio_12345678_fixed.m4a" (VStr "T")).
  - apply play_exec.
  - by_index 4%nat.
  - vm_compute; reflexivity.
Defined.

(** Witness for X4: metadata with a title only. *)
Lemma unknown_duration_never_repaired_witness :
  List.filter is_check_call (convert no_duration_world the_url).1 = []
  /\ forall path title,
       (convert no_duration_world the_url).2.1 = Ok (path, title) ->
       endswith path "_fixed.m4a" = false.
Proof.
  apply (unknown_duration_never_repaired ascii_decode_strip decimal_float
           the_processor the_url "out" the_heap
           (convert no_duration_world the_url).1
           (convert no_duration_world the_url).2
           the_call_heap the_call_options the_url false
           {[ "title" := VStr "T" ]}).
  - apply play_exec.
  - by_index 4%nat.
  - vm_compute; reflexivity.
Defined.

(** Witness for X14: metadata that give the duration as the string [12]. *)
Lemma non_numeric_duration_is_fatal_witness :
  In (OCheckOutput (probe_cmd "out/audio_12345678.m4a") (Ok "10.000000"))
     (convert text_duration_world the_url).1
  /\ (convert text_duration_world the_url).2.1
     = Err (wrap_failure type_error).
Proof.
  split; [by_index 8%nat|].
  apply (non_numeric_duration_is_fatal ascii_decode_strip decimal_float
           the_processor the_url "out" the_heap
           (convert text_duration_world the_url).1
           (convert text_duration_world the_url).2
           the_call_heap the_call_options the_url false
           {[ "title" := VStr "T"; "duration" := VStr "12" ]} "12"
           (probe_cmd "out/audio_12345678.m4a") (Ok "10.000000")).
  - apply play_exec.
  - by_index 4%nat.
  - vm_compute; reflexivity.
  - discriminate.
  - by_index 8%nat.
  - vm_compute; reflexivity.
Defined.

(** Witness for X5: a download that leaves a [.webm] file, which is repaired. *)
Lemma result_path_form_witness :
  exists u suffix,
    (convert webm_world the_url).1 !! 1%nat = Some (OUuid4 u)
    /\ In suffix result_suffixes
    /\ String.length (take 8 (uuid_str u)) = 8%nat
    /\ "out/audio_12345678_fixed.m4a"
       = path_join "out" ("audio_" +:+ take 8 (uuid_str u) +:+ suffix).
Proof.
  apply (result_path_form ascii_decode_strip decimal_float
           the_processor the_url "out" the_heap
           (convert webm_world the_url).1 (convert webm_world the_url).2
           "out/audio_12345678_fixed.m4a" (VStr "T")).
  - apply play_exec.
  - vm_compute; reflexivity.
Defined.

(** Witness for X6: a remote and a local conversion with different UUIDs. *)
Lemma distinct_ids_distinct_files_witness :
  (convert remote_world the_url).2.1
  = Ok ("out/audio_12345678_fixed.m4a", VStr "T")
  /\ (convert other_id_world the_file).2.1
     = Ok ("out/audio_9abcdef0.m4a", VStr "clip.mp4")
  /\ "out/audio_12345678_fixed.m4a" <> "out/audio_9abcdef0.m4a".
Proof.
  split; [vm_compute; reflexivity|]. split; [vm_compute; reflexivity|].
  apply (distinct_ids_distinct_files ascii_decode_strip decimal_float
           the_processor the_processor the_url the_file "out"
           the_heap the_heap
           (convert remote_world the_url).1 (convert other_id_world the_file).1
           (convert remote_world the_url).2 (convert other_id_world the_file).2
           (on_uuid4 remote_world) (on_uuid4 other_id_world)
           "out/audio_12345678_fixed.m4a" "out/audio_9abcdef0.m4a"
           (VStr "T") (VStr "clip.mp4")).
  - apply play_exec.
  - apply play_exec.
  - vm_compute; reflexivity.
  - vm_compute; reflexivity.
  - vm_compute; discriminate.
  - vm_compute; reflexivity.
  - vm_compute; reflexivity.
Defined.

(** Witness for X7: the repair command of a remote conversion. *)
Lemma ffmpeg_never_overwrites_its_input_witness :
  let cmd := fix_cmd "out/audio_12345678.m4a" "out/audio_12345678_fixed.m4a" in
  exists u,
    (convert remote_world the_url).1 !! 1%nat = Some (OUuid4 u) /\
    let uid := take 8 (uuid_str u) in
    (cmd = ffmpeg_cmd the_url (audio_path "out" uid "m4a")
     /\ the_url <> audio_path "out" uid "m4a")
    \/ exists ext,
         In ext ("m4a" :: fallback_exts)
         /\ cmd = fix_cmd (audio_path "out" uid ext)
                          (fixed_audio_path "out" uid)
         /\ audio_path "out" uid ext <> fixed_audio_path "out" uid.
Proof.
  intros cmd.
  apply (ffmpeg_never_overwrites_its_input ascii_decode_strip decimal_float
           the_processor the_url "out" the_heap
           (convert remote_world the_url).1 (convert remote_world the_url).2
           cmd (Ok tt)).
  - apply play_exec.
  - by_index 9%nat.
Defined.

(** Witness for X8: the local file [/tmp/clip.mp4]. *)
Lemma local_run_succeeds_iff_extracted_witness :
  let out := "out/audio_12345678.m4a" in
  exists r after,
    skipn 3 (convert local_world the_file).1
    = OCheckCall (ffmpeg_cmd the_file out) r :: after /\
    match r with
    | Err e =>
        after = []
        /\ (convert local_world the_file).2.1 = Err (wrap_failure e)
    | Ok _ =>
        exists rs ro more path title,
          after = OCheckOutput (probe_cmd the_file) rs
                  :: OCheckOutput (probe_cmd out) ro :: more
          /\ (convert local_world the_file).2.1 = Ok (path, title)
    end.
Proof.
  intros out.
  apply (local_run_succeeds_iff_extracted ascii_decode_strip decimal_float
           the_processor the_file "out" the_heap the_options
           (convert local_world the_file).1 (convert local_world the_file).2
           (on_uuid4 local_world) true
           (skipn 3 (convert local_world the_file).1)).
  - vm_compute; reflexivity.
  - apply play_exec.
  - vm_compute; reflexivity.
  - vm_compute; reflexivity.
Defined.

(** Witness for X9: a download the server refuses. *)
Lemma download_failure_is_fatal_witness :
  exists before closed,
    (convert refused_download_world the_url).1
    = before ++ [OYdlDownload the_call_heap the_call_options [the_url]
                   (Err download_error);
                 OYdlClose the_call_heap the_call_options closed]
    /\ (convert refused_download_world the_url).2.1
       = Err (wrap_failure match closed with
                           | Ok _ => download_error
                           | Err e' => with_context e' download_error
                           end).
Proof.
  apply (download_failure_is_fatal ascii_decode_strip decimal_float
           the_processor the_url "out" the_heap).
  - apply play_exec.
  - by_index 5%nat.
Defined.

(** Witness for X10: a download that leaves a [.webm] file, which is repaired. *)
Lemma call_bounds_witness :
  let tr := (convert webm_world the_url).1 in
  (length tr <= 15)%nat
  /\ (length (List.filter is_download tr) <= 1)%nat
  /\ (length (List.filter is_check_call tr) <= 2)%nat
  /\ (length (List.filter is_probe tr) <= 3)%nat.
Proof.
  intros tr.
  apply (call_bounds ascii_decode_strip decimal_float
           the_processor the_url "out" the_heap tr
           (convert webm_world the_url).2).
  apply play_exec.
Defined.

(** Witness for X11: a remote video of 12 seconds whose download lasts 10 seconds. *)
Lemma reprobe_measures_original_witness :
  let file := "out/audio_12345678.m4a" in
  let fixed := "out/audio_12345678_fixed.m4a" in
  file <> fixed
  /\ (convert remote_world the_url).2.1 = Ok (fixed, VStr "T")
  /\ exists r1 r2,
       skipn 8 (convert remote_world the_url).1
       = [OCheckOutput (probe_cmd file) r1;
          OCheckCall (fix_cmd file fixed) (Ok tt);
          OCheckOutput (probe_cmd file) r2].
Proof.
  intros file fixed.
  apply (reprobe_measures_original ascii_decode_strip decimal_float
           the_processor the_url "out" the_heap
           (acquisition remote_world the_url).1
           (remote_acquired "12345678" (VStr "T") (VNum 12))
           (acquisition remote_world the_url).2.2
           (skipn 8 (convert remote_world the_url).1)
           (convert remote_world the_url).2
           (fix_cmd file fixed)).
  - by_play remote_world.
  - by_play remote_world.
  - by_index 1%nat.
Defined.

(** Witness for X13: the metadata of a remote reference. *)
Lemma get_video_info_frame_witness :
  let tr := (lookup_info remote_world the_url).1 in
  let h' := (lookup_info remote_world the_url).2.2 in
  h' = <[fresh (dom the_heap) := ODict {[ "quiet" := Plain (VBool true) ]}]>
         the_heap
  /\ (forall l o, the_heap !! l = Some o -> h' !! l = Some o)
  /\ (forall hh l r, In (OYdlOpen hh l r) tr ->
        hh = h' /\ the_heap !! l = None)
  /\ forall other,
       exec (get_video_info other the_url the_heap) tr
            ((lookup_info remote_world the_url).2.1, h').
Proof.
  intros tr h'.
  apply (get_video_info_frame the_processor the_url the_heap tr
           (lookup_info remote_world the_url).2.1 h').
  by_play remote_world.
Defined.

(** Witness for X15: a download that leaves a [.webm] file, which is repaired. *)
Lemma remote_success_means_file_seen_witness :
  let rest := skipn 3 (convert webm_world the_url).1 in
  let path := "out/audio_12345678_fixed.m4a" in
  exists hh l code file,
    In (OYdlDownload hh l [the_url] (Ok code)) rest
    /\ In (OPathExists file true) rest
    /\ (path = file
        \/ path = fixed_audio_path "out"
                    (take 8 (uuid_str (on_uuid4 webm_world)))
           /\ In (OCheckCall (fix_cmd file path) (Ok tt)) rest).
Proof.
  intros rest path.
  apply (remote_success_means_file_seen ascii_decode_strip decimal_float
           the_processor the_url "out" the_heap
           (convert webm_world the_url).1 (convert webm_world the_url).2
           (on_uuid4 webm_world) false rest path (VStr "T")).
  - apply play_exec.
  - vm_compute; reflexivity.
  - vm_compute; reflexivity.
  - vm_compute; reflexivity.
Defined.

(** Witness for X16: a local conversion followed by a remote one. *)
Lemma later_call_sees_defaults_witness :
  let h1 := (convert local_world the_file).2.2 in
  let tr2 := (conversion_after h1 remote_world the_url).1 in
  let hh := call_heap h1 the_options "out" "12345678" in
  exists u,
    tr2 !! 1%nat = Some (OUuid4 u)
    /\ hh !! fresh (dom h1)
       = Some (ODict (<["outtmpl" :=
                          Plain (VStr (path_join "out"
                                         ("audio_" +:+ take 8 (uuid_str u)
                                          +:+ ".%(ext)s")))]> the_options)).
Proof.
  intros h1 tr2 hh.
  apply (later_call_sees_defaults ascii_decode_strip decimal_float
           the_processor the_options the_file "out" the_url "out" the_heap
           (convert local_world the_file).1 (convert local_world the_file).2.1
           h1 tr2 (conversion_after h1 remote_world the_url).2
           hh (fresh (dom h1)) (Ok tt)).
  - vm_compute; reflexivity.
  - by_play local_world.
  - apply play_exec.
  - by_index 3%nat.
Defined.
